(** * AzureMapsRenderer: overlay bounds, overlay placement, colour gradients
      and the legend panel

    A shallow embedding of the browser-side class [AzureMapsRenderer]
    (the map renderer of the NLDAS-3 copilot front end) and the properties
    of its overlay and legend code.

    JavaScript numbers are IEEE 754 binary64 values; they are modelled by
    the Standard Library's [spec_float] (sign, mantissa, exponent, the two
    zeros, the two infinities and NaN), so comparisons, [Math.min],
    [Math.max] and [toFixed] are the exact operations of the language.
    What the language leaves to the engine that runs the class, the number
    of arguments a call may have, is a parameter. *)

From Stdlib Require Import ZArith NArith List String Ascii Bool Lia.
From Stdlib Require Import PrimFloat SpecFloat FloatOps DecimalString.
Import ListNotations.

#[local] Set Warnings "-inexact-float,-register-all".
#[local] Open Scope string_scope.

(* ================================================================== *)
(** * Part I: the embedding                                            *)
(* ================================================================== *)

(** ** Numbers *)

Module Number.

(** A JavaScript Number. *)
Definition number : Type := spec_float.

(** The value of a numeric literal of the source: the binary64 value
    nearest to the decimal that is written. *)
Definition lit (f : float) : number := Prim2SF f.

Definition NaN : number := S754_nan.
Definition Infinity : number := S754_infinity false.
Definition NegInfinity : number := S754_infinity true.

Definition isNaN (x : number) : bool :=
  match x with S754_nan => true | _ => false end.

Definition isPosZero (x : number) : bool :=
  match x with S754_zero false => true | _ => false end.

Definition isNegZero (x : number) : bool :=
  match x with S754_zero true => true | _ => false end.

(** The relational operators [<], [<=] and [==] on numbers: false as soon
    as one side is NaN, and the two zeros compare equal. *)
Definition lt (x y : number) : bool := SFltb x y.
Definition le (x y : number) : bool := SFleb x y.
Definition eq (x y : number) : bool := SFeqb x y.

(** [Math.min(...args)] on arguments that are already numbers (ECMA-262,
    Math.min): start from +Infinity; a NaN argument ends the scan with
    NaN; -0 replaces +0; an argument strictly below the running value
    replaces it. *)
Fixpoint min_scan (lowest : number) (args : list number) : number :=
  match args with
  | [] => lowest
  | n :: rest =>
      if isNaN n then NaN
      else
        let lowest1 := if isNegZero n && isPosZero lowest then n else lowest in
        let lowest2 := if lt n lowest1 then n else lowest1 in
        min_scan lowest2 rest
  end.

Definition Math_min (args : list number) : number := min_scan Infinity args.

(** [Math.max(...args)]: the mirror image, from -Infinity, with +0
    replacing -0. *)
Fixpoint max_scan (highest : number) (args : list number) : number :=
  match args with
  | [] => highest
  | n :: rest =>
      if isNaN n then NaN
      else
        let highest1 := if isPosZero n && isNegZero highest then n else highest in
        let highest2 := if lt highest1 n then n else highest1 in
        max_scan highest2 rest
  end.

Definition Math_max (args : list number) : number := max_scan NegInfinity args.

End Number.
Import Number.

(** ** Overlay bounds and placement ([addPNGOverlay]) *)

(** The four values [west], [east], [south], [north] that [addPNGOverlay]
    computes from the coordinate arrays of the weather data. *)
Record GeoBounds : Type := mkBounds {
  west : number;
  east : number;
  south : number;
  north : number
}.

(** The [coordinates] array handed to [atlas.layer.ImageLayer]: top-left,
    top-right, bottom-right, bottom-left, each a [longitude, latitude]
    pair. *)
Definition placeOverlay (b : GeoBounds) : list (number * number) :=
  [ (west b, north b);
    (east b, north b);
    (east b, south b);
    (west b, south b) ].

(** ** Values, exceptions and completions *)

(** The values that reach the renderer: what a JSON payload holds, and
    [undefined] for what it leaves out. *)
Inductive jsval : Type :=
| VUndefined
| VNull
| VBool (b : bool)
| VNum (n : number)
| VStr (s : string)
| VArr (elems : list jsval)
| VObj (props : list (string * jsval)).

(** An exception, identified by the [name] of its error object. *)
Inductive exn : Type :=
| Error (name : string).

(** The two that the language itself raises in this code. *)
Definition TypeError : exn := Error "TypeError".
Definition RangeError : exn := Error "RangeError".

(** The two failures that the specification names. *)
Definition EmptyInputError : exn := Error "EmptyInputError".
Definition InvalidRangeError : exn := Error "InvalidRangeError".

(** How the evaluation of an expression or a statement list ends. *)
Inductive completion (A : Type) : Type :=
| Normal (a : A)
| Throw (e : exn).
Arguments Normal {A} a.
Arguments Throw {A} e.

(** Sequencing of completions. *)
Definition and_then {A B : Type} (c : completion A) (k : A -> completion B)
  : completion B :=
  match c with
  | Normal a => k a
  | Throw e => Throw e
  end.

(** A conversion or a callback that may throw, applied to the elements of
    a list in order, up to the first on which it throws: [array.map(f)],
    and what a built-in function does to its arguments. *)
Fixpoint map_each {A B : Type} (f : A -> completion B) (l : list A)
  : completion (list B) :=
  match l with
  | [] => Normal []
  | x :: rest =>
      and_then (f x) (fun y =>
      and_then (map_each f rest) (fun ys => Normal (y :: ys)))
  end.

(** The double quote character, for the markup of the legend. *)
Definition dq : string := String (ascii_of_nat 34) EmptyString.

(** The own property [name] of an object literal ([undefined] when it has
    none). *)
Fixpoint lookup (name : string) (props : list (string * jsval)) : jsval :=
  match props with
  | [] => VUndefined
  | (k, v) :: rest => if String.eqb k name then v else lookup name rest
  end.

(** Whether an object literal has an own property [name]. *)
Definition has_own (name : string) (props : list (string * jsval)) : bool :=
  existsb (fun entry => String.eqb (fst entry) name) props.

(** [o.name], for the names this code reads ([title], [longitude],
    [center] and the like, none of them a name that a prototype defines):
    a TypeError on [undefined] and [null], the own property of an object,
    and [undefined] on every other value, none of which has a property of
    such a name. *)
Definition getProp (o : jsval) (name : string) : completion jsval :=
  match o with
  | VUndefined | VNull => Throw TypeError
  | VObj props => Normal (lookup name props)
  | VBool _ | VNum _ | VStr _ | VArr _ => Normal VUndefined
  end.

(** The property key of the array index [i]. *)
Definition index_key (i : nat) : string :=
  NilZero.string_of_uint (Nat.to_uint i).

(** [o[i]] for a literal index [i]: the element of an array, the character
    of a string (one byte; the code units of ASCII text), the property of
    that key of an object. *)
Definition getIndex (o : jsval) (i : nat) : completion jsval :=
  match o with
  | VUndefined | VNull => Throw TypeError
  | VArr elems => Normal (nth i elems VUndefined)
  | VStr s =>
      Normal match String.get i s with
             | Some c => VStr (String c EmptyString)
             | None => VUndefined
             end
  | VObj props => Normal (lookup (index_key i) props)
  | VBool _ | VNum _ => Normal VUndefined
  end.

(** [v === 'literal']: strict equality with a string literal. *)
Definition strict_eq_string (v : jsval) (literal : string) : bool :=
  match v with
  | VStr s => String.eqb s literal
  | _ => false
  end.

(** ** Formatting numbers *)

(** The decimal digits of a non-negative integer. *)
Definition decimal (n : Z) : string :=
  NilZero.string_of_uint (N.to_uint (Z.to_N n)).

(** [count] copies of the character ['0']. *)
Fixpoint zeros (count : nat) : string :=
  match count with
  | O => EmptyString
  | S k => String "0" (zeros k)
  end.

(** Steps 11.b and 11.c of [Number.prototype.toFixed]: the digits of [n]
    with a decimal point before the last [f] of them, padded on the left
    so that at least one digit precedes the point. *)
Definition fixed_digits (n : Z) (f : nat) : string :=
  let m := decimal n in
  match f with
  | O => m
  | S _ =>
      let k := String.length m in
      let m' := if Nat.leb k f then zeros (f + 1 - k) ++ m else m in
      let k' := String.length m' in
      substring 0 (k' - f) m' ++ "." ++ substring (k' - f) f m'
  end.

(** Step 11.a: the integer [n] for which [n / 10^f] is nearest to the
    value [m * 2^e], the larger one of two that are equally near. *)
Definition nearest_scaled (m : positive) (e : Z) (f : nat) : Z :=
  let scaled := (Z.pos m * 10 ^ Z.of_nat f)%Z in
  if (0 <=? e)%Z then (scaled * 2 ^ e)%Z
  else ((2 * scaled + 2 ^ (- e)) / 2 ^ (1 - e))%Z.

(** Step 10: whether the value [m * 2^e] is at least [10^21]. *)
Definition at_least_1e21 (m : positive) (e : Z) : bool :=
  if (0 <=? e)%Z then (10 ^ 21 <=? Z.pos m * 2 ^ e)%Z
  else (10 ^ 21 * 2 ^ (- e) <=? Z.pos m)%Z.

(** A finite number of magnitude below [10^21]: the range on which
    [toFixed] writes its fixed-point digits. *)
Definition below_1e21 (x : number) : bool :=
  match x with
  | S754_zero _ => true
  | S754_finite _ m e => negb (at_least_1e21 m e)
  | _ => false
  end.

Section Builtins.

(** [Number::toString] on a positive finite value [m * 2^e] is the
    shortest decimal that reads back as the same number; the development
    is parametric in it. *)
Variable shortest_decimal : positive -> Z -> string.

(** [StringToNumber], the number that a string reads as (NaN when it
    reads as none); the development is parametric in it. *)
Variable string_to_number : string -> number.

(** [Number::toString]. *)
Definition Number_toString (x : number) : string :=
  match x with
  | S754_nan => "NaN"
  | S754_infinity false => "Infinity"
  | S754_infinity true => "-Infinity"
  | S754_zero _ => "0"
  | S754_finite false m e => shortest_decimal m e
  | S754_finite true m e => "-" ++ shortest_decimal m e
  end.

(** [x.toFixed(fractionDigits)] for an integral [fractionDigits]. *)
Definition toFixed (x : number) (fractionDigits : Z) : completion string :=
  if ((fractionDigits <? 0) || (100 <? fractionDigits))%Z then Throw RangeError
  else
    let f := Z.to_nat fractionDigits in
    match x with
    | S754_nan | S754_infinity _ => Normal (Number_toString x)
    | S754_zero _ => Normal (fixed_digits 0 f)
    | S754_finite s m e =>
        let sign := if s then "-" else EmptyString in
        if at_least_1e21 m e
        then Normal (sign ++ Number_toString (S754_finite false m e))
        else Normal (sign ++ fixed_digits (nearest_scaled m e f) f)
    end.

(** [v.toFixed(fractionDigits)] on any value: only a number has the
    method; [undefined] and [null] have no properties, and on the other
    values the property is [undefined] or not a function. *)
Definition call_toFixed (v : jsval) (fractionDigits : Z) : completion string :=
  match v with
  | VNum x => toFixed x fractionDigits
  | _ => Throw TypeError
  end.

(** [ToString], as a template literal applies it to a substitution and
    [Array.prototype.join] to an element.  An array is joined with commas,
    its [undefined] and [null] elements as the empty string.  An object of
    a payload holds data only: an own property [toString] is not callable
    and hides [Object.prototype.toString], so that the conversion finds no
    method that gives a primitive value and throws a TypeError; without
    such a property the object reads [object Object]. *)
Fixpoint ToString (v : jsval) : completion string :=
  match v with
  | VUndefined => Normal "undefined"
  | VNull => Normal "null"
  | VBool true => Normal "true"
  | VBool false => Normal "false"
  | VNum n => Normal (Number_toString n)
  | VStr s => Normal s
  | VArr elems =>
      and_then
        (map_each (fun e => match e with
                            | VUndefined | VNull => Normal EmptyString
                            | _ => ToString e
                            end) elems)
        (fun parts => Normal (String.concat "," parts))
  | VObj props =>
      if has_own "toString" props then Throw TypeError
      else Normal "[object Object]"
  end.

(** [ToNumber], as [Math.min], [Math.max] and [>] apply it.  An array goes
    through the string it joins to.  An object goes through
    [Object.prototype.valueOf], which gives no primitive value, and then
    through its string: a TypeError with an own property [toString], and
    otherwise a string that reads as no number. *)
Definition ToNumber (v : jsval) : completion number :=
  match v with
  | VUndefined => Normal NaN
  | VNull => Normal (S754_zero false)
  | VBool true => Normal (lit 1)
  | VBool false => Normal (S754_zero false)
  | VNum x => Normal x
  | VStr s => Normal (string_to_number s)
  | VArr _ => and_then (ToString v) (fun s => Normal (string_to_number s))
  | VObj props =>
      if has_own "toString" props then Throw TypeError else Normal NaN
  end.

End Builtins.

(** ** The arguments of a call *)

(** The language puts no bound on the number of arguments of a call.  An
    engine does: a call with more arguments than it takes ends in a
    RangeError where the call is made.  The bound differs from one engine
    to the next, and the development is parametric in it; all it relies on
    is that an engine takes the few arguments of a call that a program
    writes out one by one, four here. *)
Record Engine : Type := {
  max_arguments : N;
  max_arguments_floor : (4 <=? max_arguments)%N = true
}.

(** Whether the engine takes [args] as the arguments of one call. *)
Definition accepts {A : Type} (engine : Engine) (args : list A) : bool :=
  (N.of_nat (List.length args) <=? max_arguments engine)%N.

(** [...v] in an argument list: the elements of an array, the characters
    of a string (one byte each; the code points of ASCII text); no other
    value of a payload is iterable. *)
Definition spread (v : jsval) : completion (list jsval) :=
  match v with
  | VArr elems => Normal elems
  | VStr s =>
      Normal (List.map (fun c => VStr (String c EmptyString))
                       (list_ascii_of_string s))
  | _ => Throw TypeError
  end.

(** ** The renderer and the map it drives *)

(** The options of an [atlas.layer.ImageLayer]. *)
Record ImageLayerOptions : Type := {
  url : string;
  coordinates : list (number * number);
  opacity : number
}.

Inductive Layer : Type :=
| ImageLayer (options : ImageLayerOptions).

(** The options of [map.setCamera] that fit the view to a rectangle. *)
Record CameraOptions : Type := {
  bounds : list number;
  padding : number
}.

(** The [atlas.Map] control, as far as this code drives it: the layers
    added to it, the camera last set, and the markup of the children
    appended to its container element. *)
Module AtlasMap.
Record t : Type := mk {
  layers : list Layer;
  camera : option CameraOptions;
  container : list string
}.
End AtlasMap.

(** The fields of an [AzureMapsRenderer] that the overlay and legend code
    reads or writes ([null] is [None]). *)
Module Renderer.
Record t : Type := mk {
  subscriptionKey : string;
  map : option AtlasMap.t;
  imageLayer : option Layer
}.
End Renderer.

(** The methods that the class body of [AzureMapsRenderer] declares. *)
Definition AzureMapsRenderer_methods : list string :=
  [ "constructor"; "initializeMap"; "initializeWeatherMap"; "addDataSources";
    "addLayers"; "addPNGOverlay"; "addGeoTIFFOverlay"; "addInteractivePoints";
    "addWeatherData"; "addWeatherPopups"; "getColorGradient"; "addLegend";
    "addPopups"; "updateMap"; "updateWeatherData"; "addSearchBox";
    "searchLocation"; "fitToData" ].

Definition has_method (name : string) : bool :=
  existsb (String.eqb name) AzureMapsRenderer_methods.

(** The own properties of an instance, those its constructor assigns; all
    of them hold data, none a function. *)
Definition AzureMapsRenderer_fields : list string :=
  [ "subscriptionKey"; "map"; "dataSources"; "heatMapLayer"; "imageLayer";
    "pointLayer" ].

Definition has_field (name : string) : bool :=
  existsb (String.eqb name) AzureMapsRenderer_fields.

(** The state a method runs in: the receiver [this] and the errors passed
    to [console.error]. *)
Record State : Type := mkState {
  this : Renderer.t;
  console_errors : list exn
}.

(** Statements: they read and write the state and end in a completion. *)
Definition M (A : Type) : Type := State -> completion A * State.

Definition ret {A : Type} (a : A) : M A := fun s => (Normal a, s).

Definition throw {A : Type} (e : exn) : M A := fun s => (Throw e, s).

Definition lift {A : Type} (c : completion A) : M A := fun s => (c, s).

Definition bind {A B : Type} (c : M A) (k : A -> M B) : M B :=
  fun s =>
    match c s with
    | (Normal a, s') => k a s'
    | (Throw e, s') => (Throw e, s')
    end.

(** [try { body } catch (error) { handler }]: what [body] wrote before it
    threw stays written. *)
Definition try_catch {A : Type} (body : M A) (handler : exn -> M A) : M A :=
  fun s =>
    match body s with
    | (Normal a, s') => (Normal a, s')
    | (Throw e, s') => handler e s'
    end.

Declare Scope js_scope.
Delimit Scope js_scope with js.
Notation "x <- c ;; k" := (bind c (fun x => k))
  (at level 61, c at next level, right associativity) : js_scope.
Notation "c ;; k" := (bind c (fun _ => k))
  (at level 61, right associativity) : js_scope.

(** [this.imageLayer = layer] *)
Definition set_imageLayer (layer : Layer) : M unit :=
  fun s =>
    let r := this s in
    (Normal tt,
     {| this := {| Renderer.subscriptionKey := Renderer.subscriptionKey r;
                   Renderer.map := Renderer.map r;
                   Renderer.imageLayer := Some layer |};
        console_errors := console_errors s |}).

(** A call on [this.map]: a TypeError when the map is still [null]. *)
Definition on_map (update : AtlasMap.t -> AtlasMap.t) : M unit :=
  fun s =>
    let r := this s in
    match Renderer.map r with
    | None => (Throw TypeError, s)
    | Some m =>
        (Normal tt,
         {| this := {| Renderer.subscriptionKey := Renderer.subscriptionKey r;
                       Renderer.map := Some (update m);
                       Renderer.imageLayer := Renderer.imageLayer r |};
            console_errors := console_errors s |})
    end.

(** [this.map.layers.add(layer)] *)
Definition map_layers_add (layer : Layer) : M unit :=
  on_map (fun m =>
    {| AtlasMap.layers := AtlasMap.layers m ++ [layer];
       AtlasMap.camera := AtlasMap.camera m;
       AtlasMap.container := AtlasMap.container m |}).

(** [this.map.setCamera(options)] *)
Definition map_setCamera (options : CameraOptions) : M unit :=
  on_map (fun m =>
    {| AtlasMap.layers := AtlasMap.layers m;
       AtlasMap.camera := Some options;
       AtlasMap.container := AtlasMap.container m |}).

(** [this.map.getMapContainer().appendChild(div)] for a fresh [div] whose
    [innerHTML] is [html]. *)
Definition map_container_append (html : string) : M unit :=
  on_map (fun m =>
    {| AtlasMap.layers := AtlasMap.layers m;
       AtlasMap.camera := AtlasMap.camera m;
       AtlasMap.container := AtlasMap.container m ++ [html] |}).

(** [console.error(..., error)] *)
Definition console_error (error : exn) : M unit :=
  fun s =>
    (Normal tt,
     {| this := this s; console_errors := console_errors s ++ [error] |}).

(** ** [addPNGOverlay] *)

Section Overlay.

Variable engine : Engine.
Variable shortest_decimal : positive -> Z -> string.
Variable string_to_number : string -> number.

(** [f(...iterable)] for [f] one of [Math.min] and [Math.max]: the
    iterable is spread into the argument list (a TypeError when it is not
    iterable), the engine takes the call or refuses it with a RangeError,
    and the function converts its arguments to numbers, one after the
    other, before it compares them. *)
Definition apply_spread (f : list number -> number) (iterable : jsval)
  : completion number :=
  and_then (spread iterable) (fun args =>
  if accepts engine args
  then and_then (map_each (ToNumber shortest_decimal string_to_number) args)
                (fun numbers => Normal (f numbers))
  else Throw RangeError).

(** The bounds computation of [addPNGOverlay]:
    [lons = weatherData.longitude], [lats = weatherData.latitude],
    [west = Math.min(...lons)], [east = Math.max(...lons)],
    [south = Math.min(...lats)], [north = Math.max(...lats)]. *)
Definition computeBounds (weatherData : jsval) : completion GeoBounds :=
  and_then (getProp weatherData "longitude") (fun lons =>
  and_then (getProp weatherData "latitude") (fun lats =>
  and_then (apply_spread Math_min lons) (fun west =>
  and_then (apply_spread Math_max lons) (fun east =>
  and_then (apply_spread Math_min lats) (fun south =>
  and_then (apply_spread Math_max lats) (fun north =>
  Normal {| west := west; east := east; south := south; north := north |})))))).

(** [addPNGOverlay(overlayUrl, weatherData)]; [overlayUrl] is a string, as
    the class documents it and as a response holds it.  The whole body
    sits in [try]/[catch], the handler reports the error to the console.
    The [console.log] lines and the preloading of the image for its
    [onload] report are left out: they write nothing that the renderer
    reads, and they do not throw ([west], [east], [south] and [north] are
    numbers, [toFixed(6)] is within the digits that [toFixed] takes, and
    [overlayUrl] is a string already). *)
Definition addPNGOverlay (overlayUrl : string) (weatherData : jsval) : M unit :=
  try_catch
    (b <- lift (computeBounds weatherData) ;;
     let layer :=
       ImageLayer {| url := overlayUrl;
                     coordinates := placeOverlay b;
                     opacity := lit 0.9 |} in
     set_imageLayer layer ;;
     map_layers_add layer ;;
     map_setCamera {| bounds := [west b; south b; east b; north b];
                      padding := lit 50 |})%js
    (fun error => console_error error).

End Overlay.

(** ** [getColorGradient] *)

(** The head of every gradient: a linear interpolation over the heat map
    density. *)
Definition interpolate_head : list jsval :=
  [ VStr "interpolate"; VArr [VStr "linear"]; VArr [VStr "heatmap-density"] ].

Definition stop (position : float) (color : string) : list jsval :=
  [ VNum (lit position); VStr color ].

Definition temperature_gradient : jsval :=
  VArr (interpolate_head
        ++ stop 0 "rgba(0, 0, 255, 0)"
        ++ stop 0.2 "rgba(0, 100, 255, 1)"
        ++ stop 0.4 "rgba(0, 255, 255, 1)"
        ++ stop 0.6 "rgba(255, 255, 0, 1)"
        ++ stop 0.8 "rgba(255, 100, 0, 1)"
        ++ stop 1 "rgba(255, 0, 0, 1)").

Definition precipitation_gradient : jsval :=
  VArr (interpolate_head
        ++ stop 0 "rgba(255, 255, 255, 0)"
        ++ stop 0.2 "rgba(200, 200, 255, 1)"
        ++ stop 0.4 "rgba(100, 150, 255, 1)"
        ++ stop 0.6 "rgba(0, 100, 255, 1)"
        ++ stop 0.8 "rgba(0, 50, 200, 1)"
        ++ stop 1 "rgba(0, 0, 150, 1)").

Definition drought_gradient : jsval :=
  VArr (interpolate_head
        ++ stop 0 "rgba(139, 0, 0, 1)"
        ++ stop 0.25 "rgba(255, 0, 0, 1)"
        ++ stop 0.4 "rgba(255, 165, 0, 1)"
        ++ stop 0.5 "rgba(255, 255, 255, 0)"
        ++ stop 0.6 "rgba(173, 216, 230, 1)"
        ++ stop 0.75 "rgba(0, 191, 255, 1)"
        ++ stop 1 "rgba(0, 0, 255, 1)").

Definition default_gradient : jsval :=
  VArr (interpolate_head
        ++ stop 0 "rgba(0, 0, 255, 0)"
        ++ stop 0.5 "rgba(0, 255, 0, 1)"
        ++ stop 1 "rgba(255, 0, 0, 1)").

(** [getColorGradient(colorScheme, valueRange)]: a [switch] on
    [colorScheme] with three [case] labels and a [default]. *)
Definition getColorGradient (colorScheme valueRange : jsval) : jsval :=
  if strict_eq_string colorScheme "temperature" then temperature_gradient
  else if strict_eq_string colorScheme "precipitation" then precipitation_gradient
  else if strict_eq_string colorScheme "drought" then drought_gradient
  else default_gradient.

(** The (stop, colour) pairs of a gradient: what follows the three items
    of its head, two by two; [None] when the value is no such expression. *)
Fixpoint stop_pairs (items : list jsval) : option (list (number * string)) :=
  match items with
  | [] => Some []
  | VNum position :: VStr color :: rest =>
      match stop_pairs rest with
      | Some pairs => Some ((position, color) :: pairs)
      | None => None
      end
  | _ => None
  end.

Definition gradient_stops (gradient : jsval) : option (list (number * string)) :=
  match gradient with
  | VArr (VStr "interpolate" :: VArr [VStr "linear"]
            :: VArr [VStr "heatmap-density"] :: items) => stop_pairs items
  | _ => None
  end.

(** The stop positions rise strictly from one pair to the next. *)
Fixpoint strictly_increasing (positions : list number) : bool :=
  match positions with
  | x :: ((y :: _) as rest) => lt x y && strictly_increasing rest
  | _ => true
  end.

(** A well-formed list of stops: not empty, every position within [0, 1],
    positions strictly increasing, the first 0 and the last 1. *)
Definition well_formed_stops (pairs : list (number * string)) : bool :=
  let positions := List.map fst pairs in
  match positions with
  | [] => false
  | first :: _ =>
      forallb (fun x => le (lit 0) x && le x (lit 1)) positions
      && strictly_increasing positions
      && eq first (lit 0)
      && eq (last positions NaN) (lit 1)
  end.

(** ** [addLegend] *)

(** The template literal of [addLegend] around its six substitutions. *)
Definition legendHtml (title date region gradient lo hi : string) : string :=
  "
            <div id=" ++ dq ++ "weather-legend" ++ dq ++ " style=" ++ dq ++ "
                position: absolute;
                top: 10px;
                right: 10px;
                background: rgba(0, 0, 0, 0.8);
                color: white;
                padding: 15px;
                border-radius: 8px;
                box-shadow: 0 4px 12px rgba(0,0,0,0.5);
                font-family: 'Segoe UI', Arial, sans-serif;
                min-width: 220px;
                border: 1px solid rgba(255,255,255,0.2);
            " ++ dq ++ ">
                <h4 style=" ++ dq ++ "margin: 0 0 8px 0; font-size: 14px; font-weight: bold;" ++ dq ++ ">"
  ++ title ++
  "</h4>
                <div style=" ++ dq ++ "font-size: 11px; color: #ccc; margin-bottom: 12px; opacity: 0.9;" ++ dq ++ ">
                    📅 "
  ++ date ++
  " | 📍 "
  ++ region ++
  "
                </div>
                <div style=" ++ dq ++ "margin-bottom: 8px; font-size: 10px; color: #aaa;" ++ dq ++ ">
                    🗺️ PNG Overlay + Interactive Points
                </div>
                <div id=" ++ dq ++ "legend-gradient" ++ dq ++ " style=" ++ dq ++ "
                    height: 20px;
                    background: "
  ++ gradient ++
  ";
                    border: 1px solid rgba(255,255,255,0.3);
                    margin-bottom: 8px;
                    border-radius: 3px;
                " ++ dq ++ "></div>
                <div style=" ++ dq ++ "display: flex; justify-content: space-between; font-size: 10px; color: #ddd;" ++ dq ++ ">
                    <span>"
  ++ lo ++
  "</span>
                    <span>"
  ++ hi ++
  "</span>
                </div>
                <div style=" ++ dq ++ "margin-top: 8px; font-size: 9px; color: #999; text-align: center;" ++ dq ++ ">
                    Hover over map for details
                </div>
            </div>
        ".

Section Legend.

Variable shortest_decimal : positive -> Z -> string.

(** The bodies of the methods of the class, for a call through [this]. *)
Variable invoke : string -> list jsval -> M jsval.

(** [this.name(args)]: an own field hides a method of the same name and is
    not callable; a name that is neither a field nor a method of the class
    reads as [undefined]; to call either is a TypeError. *)
Definition call_this (name : string) (args : list jsval) : M jsval :=
  if has_field name then throw TypeError
  else if has_method name then invoke name args
  else throw TypeError.

(** The two boundary labels of the legend:
    [valueRange[0].toFixed(1)] and [valueRange[1].toFixed(1)]. *)
Definition legendLabels (valueRange : jsval) : completion (string * string) :=
  match getIndex valueRange 0 with
  | Throw e => Throw e
  | Normal v0 =>
      match call_toFixed shortest_decimal v0 1 with
      | Throw e => Throw e
      | Normal lo =>
          match getIndex valueRange 1 with
          | Throw e => Throw e
          | Normal v1 =>
              match call_toFixed shortest_decimal v1 1 with
              | Throw e => Throw e
              | Normal hi => Normal (lo, hi)
              end
          end
      end
  end.

(** [addLegend(legend, colorScheme, valueRange)]: the substitutions of
    the template are evaluated from left to right, each converted to a
    string at once; the markup then goes into a new child of the map
    container. *)
Definition addLegend (legend colorScheme valueRange : jsval) : M unit :=
  (title <- lift (getProp legend "title") ;;
   title <- lift (ToString shortest_decimal title) ;;
   date <- lift (getProp legend "date") ;;
   date <- lift (ToString shortest_decimal date) ;;
   region <- lift (getProp legend "region") ;;
   region <- lift (ToString shortest_decimal region) ;;
   gradient <- call_this "getLegendGradient" [colorScheme] ;;
   gradient <- lift (ToString shortest_decimal gradient) ;;
   labels <- lift (legendLabels valueRange) ;;
   map_container_append
     (legendHtml title date region gradient (fst labels) (snd labels)))%js.

End Legend.

(** What it means for [m] to be the minimum (maximum) of the numbers [l]
    for the order [<=] of the language: it is one of them and it is below
    (above) each of them. *)
Definition is_minimum (m : number) (l : list number) : Prop :=
  In m l /\ forall x, In x l -> le m x = true.

Definition is_maximum (m : number) (l : list number) : Prop :=
  In m l /\ forall x, In x l -> le x m = true.

(** No NaN among the numbers [l]. *)
Definition nan_free (l : list number) : Prop :=
  Forall (fun x => isNaN x = false) l.

(** The [i]-th corner of a placement. *)
Definition corner (i : nat) (placement : list (number * number)) : number * number :=
  nth i placement (NaN, NaN).

(** The image layer that [addPNGOverlay] builds for the bounds [b]. *)
Definition overlay_layer (overlayUrl : string) (b : GeoBounds) : Layer :=
  ImageLayer {| url := overlayUrl;
                coordinates := [ (west b, north b); (east b, north b);
                                 (east b, south b); (west b, south b) ];
                opacity := lit 0.9 |}.

(** ** Sample inputs *)

(** A renderer whose map control is ready and shows nothing yet. *)
Definition ready_state : State :=
  {| this := {| Renderer.subscriptionKey := "key";
                Renderer.map := Some (AtlasMap.mk [] None []);
                Renderer.imageLayer := None |};
     console_errors := [] |}.

(** The weather data of a payload whose coordinate arrays hold the numbers
    [lons] and [lats]. *)
Definition weather_of (lons lats : list number) : jsval :=
  VObj [ ("longitude", VArr (List.map VNum lons));
         ("latitude", VArr (List.map VNum lats)) ].

(** The two sample points of the end-to-end example: (-87.6, 24.5) and
    (-80.0, 31.0). *)
Definition sample_lons : list number := [lit (-87.6); lit (-80.0)].
Definition sample_lats : list number := [lit 24.5; lit 31.0].

Definition sample_weather : jsval := weather_of sample_lons sample_lats.

(** A weather payload with no sample point. *)
Definition empty_weather : jsval := weather_of [] [].

(** An engine that takes 65536 arguments. *)
Definition sample_engine : Engine :=
  {| max_arguments := 65536; max_arguments_floor := eq_refl |}.

Definition sample_legend : jsval :=
  VObj [ ("title", VStr "Precipitation");
         ("date", VStr "2023-01-21");
         ("region", VStr "Florida") ].

(** Stand-ins for the two parameters of the legend code, for running it. *)
Definition sample_shortest_decimal : positive -> Z -> string :=
  fun _ _ => "1e+21".

Definition sample_string_to_number : string -> number := fun _ => NaN.

Definition sample_invoke : string -> list jsval -> M jsval :=
  fun _ _ => ret VUndefined.

(** ** Further notions for the properties of the overlay code *)

(** The point ([lon], [lat]) lies in the rectangle [b], borders included. *)
Definition inside (b : GeoBounds) (lon lat : number) : Prop :=
  le (west b) lon = true /\ le lon (east b) = true /\
  le (south b) lat = true /\ le lat (north b) = true.

(** Two bounds that the operator [==] of the language cannot tell apart. *)
Definition same_bounds (b1 b2 : GeoBounds) : Prop :=
  eq (west b1) (west b2) = true /\ eq (east b1) (east b2) = true /\
  eq (south b1) (south b2) = true /\ eq (north b1) (north b2) = true.

(** The two arrays hold the same numbers, whatever their order and their
    repetitions. *)
Definition same_elements (l1 l2 : list number) : Prop :=
  incl l1 l2 /\ incl l2 l1.

(** The bounds are made of numbers, west not above east and south not above
    north. *)
Definition proper_bounds (b : GeoBounds) : Prop :=
  le (west b) (east b) = true /\ le (south b) (north b) = true.

(** The rectangle from the least to the greatest of the longitudes [lons]
    and of the latitudes [lats], as [Math.min] and [Math.max] find them. *)
Definition extent (lons lats : list number) : GeoBounds :=
  {| west := Math_min lons;
     east := Math_max lons;
     south := Math_min lats;
     north := Math_max lats |}.

(** The camera options that [addPNGOverlay] sets for the bounds [b]. *)
Definition overlay_camera (b : GeoBounds) : CameraOptions :=
  {| bounds := [west b; south b; east b; north b]; padding := lit 50 |}.

(** What [addPNGOverlay] reports to the console: the error of the bounds
    computation when that throws, a TypeError when the bounds are there and
    the map is not, and nothing otherwise. *)
Definition overlay_report (bounds : completion GeoBounds) (s : State) : list exn :=
  match bounds, Renderer.map (this s) with
  | Throw e, _ => [e]
  | Normal _, None => [TypeError]
  | Normal _, Some _ => []
  end.

(** A second payload, for running the overlay code twice. *)
Definition other_lons : list number := [lit (-100.5); lit (-95.25); lit (-97)].
Definition other_lats : list number := [lit 40; lit 35.5; lit 37.75].

Definition other_weather : jsval := weather_of other_lons other_lats.

(** A payload of [count] sample points, all at (-87.6, 24.5). *)
Definition crowded_weather (count : N) : jsval :=
  weather_of (repeat (lit (-87.6)) (N.to_nat count))
             (repeat (lit 24.5) (N.to_nat count)).

(* ================================================================== *)
(** * Part I, continued: the rest of the class                         *)
(* ================================================================== *)

(** ** More of the language on values *)

(** [ToBoolean]: what [if], [!], [||] and [&&] make of a value. *)
Definition ToBoolean (v : jsval) : bool :=
  match v with
  | VUndefined | VNull => false
  | VBool b => b
  | VNum x => negb (isNaN x || isPosZero x || isNegZero x)
  | VStr EmptyString => false
  | VStr (String _ _) => true
  | VArr _ | VObj _ => true
  end.

(** [a || b] where [b] is a literal. *)
Definition js_or (a b : jsval) : jsval := if ToBoolean a then a else b.

(** The receiver of [forEach] and of [map]: only an array has these
    methods; on every other value the call is a TypeError. *)
Definition as_array (v : jsval) : completion (list jsval) :=
  match v with
  | VArr elems => Normal elems
  | _ => Throw TypeError
  end.

(** [v.length === 0]. *)
Definition length_is_zero (v : jsval) : bool :=
  match v with
  | VArr [] => true
  | VStr EmptyString => true
  | VObj props =>
      match lookup "length" props with
      | VNum x => isPosZero x || isNegZero x
      | _ => false
      end
  | _ => false
  end.

(** The keys of a [Map] are compared with SameValueZero: numbers by value
    (NaN equal to NaN, the two zeros equal), strings and booleans by
    value, and two arrays or objects of a payload are never the same
    object. *)
Definition same_number (x y : number) : bool :=
  match x, y with
  | S754_nan, S754_nan => true
  | S754_zero _, S754_zero _ => true
  | S754_infinity a, S754_infinity b => Bool.eqb a b
  | S754_finite s m e, S754_finite s' m' e' =>
      Bool.eqb s s' && Pos.eqb m m' && Z.eqb e e'
  | _, _ => false
  end.

Definition SameValueZero (a b : jsval) : bool :=
  match a, b with
  | VUndefined, VUndefined => true
  | VNull, VNull => true
  | VBool x, VBool y => Bool.eqb x y
  | VNum x, VNum y => same_number x y
  | VStr x, VStr y => String.eqb x y
  | _, _ => false
  end.

(** A [Map]: its entries in the order of their first insertion. *)
Definition JsMap (V : Type) : Type := list (jsval * V).

Fixpoint JsMap_get {V : Type} (key : jsval) (m : JsMap V) : option V :=
  match m with
  | [] => None
  | (k, v) :: rest => if SameValueZero k key then Some v else JsMap_get key rest
  end.

Fixpoint JsMap_set {V : Type} (key : jsval) (value : V) (m : JsMap V) : JsMap V :=
  match m with
  | [] => [(key, value)]
  | (k, v) :: rest =>
      if SameValueZero k key then (k, value) :: rest
      else (k, v) :: JsMap_set key value rest
  end.

(** ** What the SDK is given *)

(** The objects of the mapping SDK are represented by the arguments of
    their constructors and by what is added to them; its managers
    ([map.layers], [map.sources], [map.events]) by what they hold after
    each call.  The SDK is taken to accept what it is given. *)

(** An [atlas.data.Feature] over an [atlas.data.Point]. *)
Record Feature : Type := {
  feature_longitude : jsval;
  feature_latitude : jsval;
  feature_value : jsval;
  feature_title : jsval
}.

(** What [dataSource.add] is given. *)
Inductive SourceData : Type :=
| GeoJson (data : jsval)
| Features (features : list Feature)
| PointGeometry (longitude latitude : jsval).

(** An [atlas.source.DataSource]: the id passed to its constructor
    ([undefined] when none) and the data added to it. *)
Record DataSource : Type := {
  source_id : jsval;
  source_data : list SourceData
}.

Inductive VectorKind : Type := Symbol | Line | Polygon | HeatMap.

(** A symbol, line, polygon or heat map layer: its data source
    ([None] for [undefined]), its id and its options. *)
Record VectorLayer : Type := {
  kind : VectorKind;
  layer_source : option DataSource;
  layer_id : jsval;
  layer_options : jsval
}.

(** The options of [new atlas.Map(containerId, options)]. *)
Record MapOptions : Type := {
  container_id : jsval;
  center : jsval;
  zoom : jsval;
  style : jsval;
  auth_key : string
}.

(** The [weatherResponse.data] of a weather response. *)
Record ResponseData : Type := {
  map_config : jsval;
  overlay_url : option string;
  weather_data : jsval
}.

(** The closures registered for the [ready] event of the map, by the
    method that registers them and the values they capture. *)
Inductive ReadyHandler : Type :=
| ReadyMap (config : jsval)
| ReadyWeatherMap (data : ResponseData).

(** What a pair of [mouseover] and [mouseleave] handlers is attached to. *)
Inductive HoverTarget : Type :=
| HoverLayer (layer : option VectorLayer)
| HoverLayerId (layerId : jsval).

(** The map control with all that the class does to it: [base] holds the
    image layers, the camera fitted to bounds and the children of the
    container; the order between an image layer and a vector layer is not
    recorded. *)
Record MapControl : Type := {
  base : AtlasMap.t;
  map_options : MapOptions;
  camera_center : option jsval;
  camera_zoom : option jsval;
  vector_layers : list VectorLayer;
  sources : list (option DataSource);
  ready_handlers : list ReadyHandler;
  hover_popups : list HoverTarget
}.

(** An [AzureMapsRenderer] with all its fields, and the console. *)
Record World : Type := {
  w_subscriptionKey : string;
  w_map : option MapControl;
  w_dataSources : JsMap (option DataSource);
  w_heatMapLayer : option VectorLayer;
  w_imageLayer : option Layer;
  w_pointLayer : option VectorLayer;
  w_console_errors : list exn
}.

(** [new AzureMapsRenderer(subscriptionKey)] *)
Definition new_AzureMapsRenderer (subscriptionKey : string) : World :=
  {| w_subscriptionKey := subscriptionKey;
     w_map := None;
     w_dataSources := [];
     w_heatMapLayer := None;
     w_imageLayer := None;
     w_pointLayer := None;
     w_console_errors := [] |}.

(** The part of the world that the overlay and legend code works on. *)
Definition core (w : World) : State :=
  {| this := {| Renderer.subscriptionKey := w_subscriptionKey w;
                Renderer.map := option_map base (w_map w);
                Renderer.imageLayer := w_imageLayer w |};
     console_errors := w_console_errors w |}.

Definition with_base (b : AtlasMap.t) (m : MapControl) : MapControl :=
  {| base := b;
     map_options := map_options m;
     camera_center := camera_center m;
     camera_zoom := camera_zoom m;
     vector_layers := vector_layers m;
     sources := sources m;
     ready_handlers := ready_handlers m;
     hover_popups := hover_popups m |}.

(** Writing that part back; the overlay and legend code neither creates
    nor drops the map, nor changes the key. *)
Definition with_core (s : State) (w : World) : World :=
  {| w_subscriptionKey := w_subscriptionKey w;
     w_map := match w_map w, Renderer.map (this s) with
              | Some m, Some b => Some (with_base b m)
              | other, _ => other
              end;
     w_dataSources := w_dataSources w;
     w_heatMapLayer := w_heatMapLayer w;
     w_imageLayer := Renderer.imageLayer (this s);
     w_pointLayer := w_pointLayer w;
     w_console_errors := console_errors s |}.

(** Statements over the world. *)
Definition W (A : Type) : Type := World -> completion A * World.

Definition wret {A : Type} (a : A) : W A := fun w => (Normal a, w).

Definition wthrow {A : Type} (e : exn) : W A := fun w => (Throw e, w).

Definition wlift {A : Type} (c : completion A) : W A := fun w => (c, w).

Definition wbind {A B : Type} (c : W A) (k : A -> W B) : W B :=
  fun w =>
    match c w with
    | (Normal a, w') => k a w'
    | (Throw e, w') => (Throw e, w')
    end.

Definition wtry {A : Type} (body : W A) (handler : exn -> W A) : W A :=
  fun w =>
    match body w with
    | (Normal a, w') => (Normal a, w')
    | (Throw e, w') => handler e w'
    end.

(** A method of the overlay and legend code, run in the world. *)
Definition on_core {A : Type} (c : M A) : W A :=
  fun w => let (r, s) := c (core w) in (r, with_core s w).

Declare Scope world_scope.
Delimit Scope world_scope with world.
Notation "x <- c ;; k" := (wbind c (fun x => k))
  (at level 61, c at next level, right associativity) : world_scope.
Notation "c ;; k" := (wbind c (fun _ => k))
  (at level 61, right associativity) : world_scope.

(** [array.forEach(f)]: the calls in order, up to the first that throws. *)
Fixpoint for_each {A : Type} (f : A -> W unit) (l : list A) : W unit :=
  match l with
  | [] => wret tt
  | x :: rest => wbind (f x) (fun _ => for_each f rest)
  end.

Definition set_map (m : option MapControl) (w : World) : World :=
  {| w_subscriptionKey := w_subscriptionKey w;
     w_map := m;
     w_dataSources := w_dataSources w;
     w_heatMapLayer := w_heatMapLayer w;
     w_imageLayer := w_imageLayer w;
     w_pointLayer := w_pointLayer w;
     w_console_errors := w_console_errors w |}.

(** A call on [this.map] in the world: a TypeError while it is [null]. *)
Definition with_map (update : MapControl -> MapControl) : W unit :=
  fun w =>
    match w_map w with
    | None => (Throw TypeError, w)
    | Some m => (Normal tt, set_map (Some (update m)) w)
    end.

(** [this.map = new atlas.Map(containerId, options)]: a fresh control. *)
Definition new_map (options : MapOptions) : W unit :=
  fun w =>
    (Normal tt,
     set_map (Some {| base := AtlasMap.mk [] None [];
                      map_options := options;
                      camera_center := None;
                      camera_zoom := None;
                      vector_layers := [];
                      sources := [];
                      ready_handlers := [];
                      hover_popups := [] |}) w).

(** [this.map.events.add('ready', handler)] *)
Definition map_events_add_ready (handler : ReadyHandler) : W unit :=
  with_map (fun m =>
    {| base := base m;
       map_options := map_options m;
       camera_center := camera_center m;
       camera_zoom := camera_zoom m;
       vector_layers := vector_layers m;
       sources := sources m;
       ready_handlers := ready_handlers m ++ [handler];
       hover_popups := hover_popups m |}).

(** [this.map.events.add('mouseover', target, ...)] and
    [this.map.events.add('mouseleave', target, ...)] around a new popup. *)
Definition map_events_add_hover (target : HoverTarget) : W unit :=
  with_map (fun m =>
    {| base := base m;
       map_options := map_options m;
       camera_center := camera_center m;
       camera_zoom := camera_zoom m;
       vector_layers := vector_layers m;
       sources := sources m;
       ready_handlers := ready_handlers m;
       hover_popups := hover_popups m ++ [target] |}).

(** [this.map.sources.add(dataSource)] *)
Definition map_sources_add (dataSource : option DataSource) : W unit :=
  with_map (fun m =>
    {| base := base m;
       map_options := map_options m;
       camera_center := camera_center m;
       camera_zoom := camera_zoom m;
       vector_layers := vector_layers m;
       sources := sources m ++ [dataSource];
       ready_handlers := ready_handlers m;
       hover_popups := hover_popups m |}).

(** [this.map.sources.clear()] *)
Definition map_sources_clear : W unit :=
  with_map (fun m =>
    {| base := base m;
       map_options := map_options m;
       camera_center := camera_center m;
       camera_zoom := camera_zoom m;
       vector_layers := vector_layers m;
       sources := [];
       ready_handlers := ready_handlers m;
       hover_popups := hover_popups m |}).

(** [this.map.layers.add(layer)] for a vector layer. *)
Definition map_layers_add_vector (layer : VectorLayer) : W unit :=
  with_map (fun m =>
    {| base := base m;
       map_options := map_options m;
       camera_center := camera_center m;
       camera_zoom := camera_zoom m;
       vector_layers := vector_layers m ++ [layer];
       sources := sources m;
       ready_handlers := ready_handlers m;
       hover_popups := hover_popups m |}).

(** [this.map.layers.clear()]: image layers and vector layers alike. *)
Definition map_layers_clear : W unit :=
  with_map (fun m =>
    {| base := {| AtlasMap.layers := [];
                  AtlasMap.camera := AtlasMap.camera (base m);
                  AtlasMap.container := AtlasMap.container (base m) |};
       map_options := map_options m;
       camera_center := camera_center m;
       camera_zoom := camera_zoom m;
       vector_layers := [];
       sources := sources m;
       ready_handlers := ready_handlers m;
       hover_popups := hover_popups m |}).

(** [this.map.setCamera({ center: c })] *)
Definition map_setCamera_center (c : jsval) : W unit :=
  with_map (fun m =>
    {| base := base m;
       map_options := map_options m;
       camera_center := Some c;
       camera_zoom := camera_zoom m;
       vector_layers := vector_layers m;
       sources := sources m;
       ready_handlers := ready_handlers m;
       hover_popups := hover_popups m |}).

(** [this.map.setCamera({ zoom: z })] *)
Definition map_setCamera_zoom (z : jsval) : W unit :=
  with_map (fun m =>
    {| base := base m;
       map_options := map_options m;
       camera_center := camera_center m;
       camera_zoom := Some z;
       vector_layers := vector_layers m;
       sources := sources m;
       ready_handlers := ready_handlers m;
       hover_popups := hover_popups m |}).

(** [this.dataSources.set(key, dataSource)] *)
Definition dataSources_set (key : jsval) (dataSource : option DataSource) : W unit :=
  fun w =>
    (Normal tt,
     {| w_subscriptionKey := w_subscriptionKey w;
        w_map := w_map w;
        w_dataSources := JsMap_set key dataSource (w_dataSources w);
        w_heatMapLayer := w_heatMapLayer w;
        w_imageLayer := w_imageLayer w;
        w_pointLayer := w_pointLayer w;
        w_console_errors := w_console_errors w |}).

(** [this.dataSources.get(key)]: [undefined] for a key that is not there
    and for a key set to [undefined]. *)
Definition dataSources_get (key : jsval) : W (option DataSource) :=
  fun w =>
    (Normal match JsMap_get key (w_dataSources w) with
            | Some stored => stored
            | None => None
            end, w).

(** [this.dataSources.clear()] *)
Definition dataSources_clear : W unit :=
  fun w =>
    (Normal tt,
     {| w_subscriptionKey := w_subscriptionKey w;
        w_map := w_map w;
        w_dataSources := [];
        w_heatMapLayer := w_heatMapLayer w;
        w_imageLayer := w_imageLayer w;
        w_pointLayer := w_pointLayer w;
        w_console_errors := w_console_errors w |}).

(** [this.pointLayer = layer] *)
Definition set_pointLayer (layer : option VectorLayer) : W unit :=
  fun w =>
    (Normal tt,
     {| w_subscriptionKey := w_subscriptionKey w;
        w_map := w_map w;
        w_dataSources := w_dataSources w;
        w_heatMapLayer := w_heatMapLayer w;
        w_imageLayer := w_imageLayer w;
        w_pointLayer := layer;
        w_console_errors := w_console_errors w |}).

(** [this.heatMapLayer = layer] *)
Definition set_heatMapLayer (layer : VectorLayer) : W unit :=
  fun w =>
    (Normal tt,
     {| w_subscriptionKey := w_subscriptionKey w;
        w_map := w_map w;
        w_dataSources := w_dataSources w;
        w_heatMapLayer := Some layer;
        w_imageLayer := w_imageLayer w;
        w_pointLayer := w_pointLayer w;
        w_console_errors := w_console_errors w |}).

(** [console.error(..., error)] in the world. *)
Definition w_console_error (error : exn) : W unit :=
  fun w =>
    (Normal tt,
     {| w_subscriptionKey := w_subscriptionKey w;
        w_map := w_map w;
        w_dataSources := w_dataSources w;
        w_heatMapLayer := w_heatMapLayer w;
        w_imageLayer := w_imageLayer w;
        w_pointLayer := w_pointLayer w;
        w_console_errors := w_console_errors w ++ [error] |}).

(** ** [addGeoTIFFOverlay] *)

(** The [bounds] argument of [addGeoTIFFOverlay]: the array
    [[west, south, east, north]] of four numbers. *)
Definition BoundsArray : Type := (number * number * number * number)%type.

(** The array that [addPNGOverlay] hands to the camera. *)
Definition bounds_array (b : GeoBounds) : BoundsArray :=
  (west b, south b, east b, north b).

(** [addGeoTIFFOverlay(geotiffUrl, bounds)]; [bounds] is [None] when the
    caller passes none.  The body sits in [try]/[catch]. *)
Definition addGeoTIFFOverlay (geotiffUrl : string) (bounds : option BoundsArray)
  : M unit :=
  try_catch
    (b <- lift (match bounds with
                | Some b => Normal b
                | None => Throw TypeError
                end) ;;
     let '(b0, b1, b2, b3) := b in
     let layer :=
       ImageLayer {| url := geotiffUrl;
                     coordinates := [ (b0, b3); (b2, b3); (b2, b1); (b0, b1) ];
                     opacity := lit 0.7 |} in
     set_imageLayer layer ;;
     map_layers_add layer)%js
    (fun error => console_error error).

(** ** Popups *)

(** What a shape under the pointer answers to [getProperties()] and to
    [getCoordinates()]. *)
Record Shape : Type := {
  shape_properties : jsval;
  shape_coordinates : jsval
}.

(** The shape that the SDK makes of a feature of [addInteractivePoints]:
    its properties are [{ value, title }], its coordinates
    [[longitude, latitude]]. *)
Definition shape_of_feature (f : Feature) : Shape :=
  {| shape_properties :=
       VObj [ ("value", feature_value f); ("title", feature_title f) ];
     shape_coordinates := VArr [ feature_longitude f; feature_latitude f ] |}.

(** The options given to [popup.setOptions]. *)
Record PopupOptions : Type := {
  content : string;
  position : jsval
}.

(** The template literal of the popup of [addWeatherPopups]. *)
Definition weatherPopupHtml (title lat lon : string) : string :=
  "
                        <div style=" ++ dq ++ "padding: 8px; background: rgba(0,0,0,0.8); color: white; border-radius: 4px;" ++ dq ++ ">
                            <div style=" ++ dq ++ "font-weight: bold; margin-bottom: 4px;" ++ dq ++ ">"
  ++ title ++
  "</div>
                            <div style=" ++ dq ++ "font-size: 11px; opacity: 0.9;" ++ dq ++ ">
                                Lat: "
  ++ lat ++
  "°<br>
                                Lon: "
  ++ lon ++
  "°
                            </div>
                        </div>
                    ".

(** The two template literals of the popup of [addPopups]. *)
Definition popupValueLine (value : string) : string :=
  "<p><strong>Value:</strong> "
  ++ value ++
  "</p>".

Definition popupHtml (title description value_line : string) : string :=
  "
                        <div style=" ++ dq ++ "padding: 10px;" ++ dq ++ ">
                            <h4>"
  ++ title ++
  "</h4>
                            <p>"
  ++ description ++
  "</p>
                            "
  ++ value_line ++
  "
                        </div>
                    ".

(** The options of the symbol layer of [addInteractivePoints]. *)
Definition point_layer_options : jsval :=
  VObj [ ("iconOptions",
          VObj [ ("image", VStr "marker-red");
                 ("size", VNum (lit 0.1));
                 ("opacity", VNum (lit 0.1)) ]) ].

(** The options of the symbol layer of [searchLocation]. *)
Definition pin_layer_options : jsval :=
  VObj [ ("iconOptions", VObj [ ("image", VStr "pin-red") ]) ].

(** The callback of [config.data_points.map]: the feature of one data
    point. *)
Definition make_feature (point : jsval) : completion Feature :=
  and_then (getProp point "longitude") (fun lon =>
  and_then (getProp point "latitude") (fun lat =>
  and_then (getProp point "value") (fun value =>
  and_then (getProp point "title") (fun title =>
  Normal {| feature_longitude := lon;
            feature_latitude := lat;
            feature_value := value;
            feature_title := title |})))).

(** The layer class that a [case] label of [addLayers] selects. *)
Definition kind_of_type (type : jsval) : option VectorKind :=
  if strict_eq_string type "symbol" then Some Symbol
  else if strict_eq_string type "line" then Some Line
  else if strict_eq_string type "polygon" then Some Polygon
  else None.

(** Layers are told apart by what they are made of. *)
Definition identical_number (x y : number) : bool :=
  match x, y with
  | S754_nan, S754_nan => true
  | S754_zero a, S754_zero b => Bool.eqb a b
  | S754_infinity a, S754_infinity b => Bool.eqb a b
  | S754_finite s m e, S754_finite s' m' e' =>
      Bool.eqb s s' && Pos.eqb m m' && Z.eqb e e'
  | _, _ => false
  end.

Fixpoint same_list {A : Type} (same : A -> A -> bool) (l1 l2 : list A) : bool :=
  match l1, l2 with
  | [], [] => true
  | x :: r1, y :: r2 => same x y && same_list same r1 r2
  | _, _ => false
  end.

Definition same_image_layer (a b : Layer) : bool :=
  match a, b with
  | ImageLayer oa, ImageLayer ob =>
      String.eqb (url oa) (url ob)
      && same_list (fun p q => identical_number (fst p) (fst q)
                               && identical_number (snd p) (snd q))
                   (coordinates oa) (coordinates ob)
      && identical_number (opacity oa) (opacity ob)
  end.

Fixpoint same_value (a b : jsval) : bool :=
  match a, b with
  | VUndefined, VUndefined => true
  | VNull, VNull => true
  | VBool x, VBool y => Bool.eqb x y
  | VNum x, VNum y => identical_number x y
  | VStr x, VStr y => String.eqb x y
  | VArr xs, VArr ys =>
      (fix go (xs ys : list jsval) : bool :=
         match xs, ys with
         | [], [] => true
         | x :: xs', y :: ys' => same_value x y && go xs' ys'
         | _, _ => false
         end) xs ys
  | VObj ps, VObj qs =>
      (fix go (ps qs : list (string * jsval)) : bool :=
         match ps, qs with
         | [], [] => true
         | (k, x) :: ps', (l, y) :: qs' =>
             String.eqb k l && same_value x y && go ps' qs'
         | _, _ => false
         end) ps qs
  | _, _ => false
  end.

Definition same_feature (f g : Feature) : bool :=
  same_value (feature_longitude f) (feature_longitude g)
  && same_value (feature_latitude f) (feature_latitude g)
  && same_value (feature_value f) (feature_value g)
  && same_value (feature_title f) (feature_title g).

Definition same_source_data (a b : SourceData) : bool :=
  match a, b with
  | GeoJson x, GeoJson y => same_value x y
  | Features fs, Features gs => same_list same_feature fs gs
  | PointGeometry x1 y1, PointGeometry x2 y2 => same_value x1 x2 && same_value y1 y2
  | _, _ => false
  end.

Definition same_source (a b : option DataSource) : bool :=
  match a, b with
  | None, None => true
  | Some x, Some y =>
      same_value (source_id x) (source_id y)
      && same_list same_source_data (source_data x) (source_data y)
  | _, _ => false
  end.

Definition same_kind (a b : VectorKind) : bool :=
  match a, b with
  | Symbol, Symbol | Line, Line | Polygon, Polygon | HeatMap, HeatMap => true
  | _, _ => false
  end.

Definition same_vector_layer (a b : VectorLayer) : bool :=
  same_kind (kind a) (kind b)
  && same_source (layer_source a) (layer_source b)
  && same_value (layer_id a) (layer_id b)
  && same_value (layer_options a) (layer_options b).

(** [layers.remove(x)] on the layers in the order they were added: the
    one added last among those that are [x] goes; nothing changes when
    [x] is not on the map. *)
Fixpoint remove_last {A : Type} (same : A -> A -> bool) (x : A) (l : list A)
  : list A :=
  match l with
  | [] => []
  | y :: rest =>
      if same y x && negb (existsb (fun z => same z x) rest) then rest
      else y :: remove_last same x rest
  end.

(** A non-empty overlay URL: what [if (overlayUrl)] lets through. *)
Definition truthy_url (overlayUrl : option string) : option string :=
  match overlayUrl with
  | Some (String c rest) => Some (String c rest)
  | _ => None
  end.

Section Methods.

Variable engine : Engine.
Variable shortest_decimal : positive -> Z -> string.
Variable invoke : string -> list jsval -> M jsval.
Variable string_to_number : string -> number.

(** [v.length > 0] on a value that is neither [undefined] nor [null]: an
    array and a string have their length, an object the property of that
    name, converted to a number, and the other values have none. *)
Definition length_is_positive (v : jsval) : completion bool :=
  match v with
  | VArr elems => Normal (negb (Nat.eqb (List.length elems) 0))
  | VStr s => Normal (negb (Nat.eqb (String.length s) 0))
  | VObj props =>
      and_then (ToNumber shortest_decimal string_to_number (lookup "length" props))
               (fun n => Normal (lt (S754_zero false) n))
  | _ => Normal false
  end.

(** The content of the popup of [addWeatherPopups] for the shape under the
    pointer. *)
Definition weatherPopup_content (properties coordinates : jsval)
  : completion string :=
  and_then (getProp properties "title") (fun title =>
  and_then (ToString shortest_decimal title) (fun title =>
  and_then (getIndex coordinates 1) (fun c1 =>
  and_then (call_toFixed shortest_decimal c1 4) (fun lat =>
  and_then (getIndex coordinates 0) (fun c0 =>
  and_then (call_toFixed shortest_decimal c0 4) (fun lon =>
  Normal (weatherPopupHtml title lat lon))))))).

(** The [mouseover] handler of [addWeatherPopups] on the shapes of the
    event ([e.shapes], none when it is missing or empty): the options of
    the popup it opens, if it opens one. *)
Definition weatherPopup_mouseover (shapes : list Shape)
  : completion (option PopupOptions) :=
  match shapes with
  | [] => Normal None
  | shape :: _ =>
      and_then (weatherPopup_content (shape_properties shape)
                                     (shape_coordinates shape)) (fun html =>
      Normal (Some {| content := html; position := shape_coordinates shape |}))
  end.

(** The content of the popup of [addPopups]. *)
Definition popup_content (properties : jsval) : completion string :=
  and_then (getProp properties "title") (fun title =>
  and_then (ToString shortest_decimal (js_or title (VStr "Location")))
           (fun title =>
  and_then (getProp properties "description") (fun description =>
  and_then (ToString shortest_decimal (js_or description (VStr EmptyString)))
           (fun description =>
  and_then (getProp properties "value") (fun value =>
  and_then (if ToBoolean value
            then and_then (ToString shortest_decimal value)
                          (fun value => Normal (popupValueLine value))
            else Normal EmptyString) (fun value_line =>
  Normal (popupHtml title description value_line))))))).

(** The [mouseover] handler of [addPopups]. *)
Definition popup_mouseover (shapes : list Shape)
  : completion (option PopupOptions) :=
  match shapes with
  | [] => Normal None
  | shape :: _ =>
      and_then (popup_content (shape_properties shape)) (fun html =>
      Normal (Some {| content := html; position := shape_coordinates shape |}))
  end.

(** [addPopups(layerId)] *)
Definition addPopups (layerId : jsval) : W unit :=
  map_events_add_hover (HoverLayerId layerId).

(** [addWeatherPopups(dataSource)]: the handlers go on [this.pointLayer],
    whatever [dataSource] is. *)
Definition addWeatherPopups (dataSource : DataSource) : W unit :=
  fun w => map_events_add_hover (HoverLayer (w_pointLayer w)) w.

(** The callback of [addDataSources] on one source configuration. *)
Definition addDataSources_each (sourceConfig : jsval) : W unit :=
  (type <- wlift (getProp sourceConfig "type") ;;
   id <- wlift (getProp sourceConfig "id") ;;
   data <- wlift (getProp sourceConfig "data") ;;
   let dataSource :=
     if strict_eq_string type "geojson"
     then Some {| source_id := id; source_data := [GeoJson data] |}
     else None in
   map_sources_add dataSource ;;
   dataSources_set id dataSource)%world.

(** [addDataSources(dataSources)] *)
Definition addDataSources (dataSources : jsval) : W unit :=
  (configs <- wlift (as_array dataSources) ;;
   for_each addDataSources_each configs)%world.

(** The callback of [addLayers] on one layer configuration. *)
Definition addLayers_each (layerConfig : jsval) : W unit :=
  (type <- wlift (getProp layerConfig "type") ;;
   match kind_of_type type with
   | Some k =>
       source <- wlift (getProp layerConfig "source") ;;
       dataSource <- dataSources_get source ;;
       id <- wlift (getProp layerConfig "id") ;;
       options <- wlift (getProp layerConfig "options") ;;
       map_layers_add_vector
         {| kind := k;
            layer_source := dataSource;
            layer_id := id;
            layer_options := options |}
   | None => wret tt
   end)%world.

(** [addLayers(layers)] *)
Definition addLayers (layers : jsval) : W unit :=
  (configs <- wlift (as_array layers) ;;
   for_each addLayers_each configs)%world.

(** [initializeMap(containerId, config)] *)
Definition initializeMap (containerId config : jsval) : W unit :=
  (center <- wlift (getProp config "center") ;;
   zoom <- wlift (getProp config "zoom") ;;
   style <- wlift (getProp config "style") ;;
   (fun w =>
      new_map {| container_id := containerId;
                 center := js_or center (VArr [VNum (lit 0); VNum (lit 0)]);
                 zoom := js_or zoom (VNum (lit 10));
                 style := js_or style (VStr "satellite");
                 auth_key := w_subscriptionKey w |} w) ;;
   map_events_add_ready (ReadyMap config))%world.

(** The [ready] handler of [initializeMap]. *)
Definition initializeMap_ready (config : jsval) : W unit :=
  (data_sources <- wlift (getProp config "data_sources") ;;
   addDataSources (js_or data_sources (VArr [])) ;;
   layers <- wlift (getProp config "layers") ;;
   addLayers (js_or layers (VArr [])))%world.

(** [updateMap(config)] *)
Definition updateMap (config : jsval) : W unit :=
  (center <- wlift (getProp config "center") ;;
   (if ToBoolean center then map_setCamera_center center else wret tt) ;;
   zoom <- wlift (getProp config "zoom") ;;
   (if ToBoolean zoom then map_setCamera_zoom zoom else wret tt) ;;
   map_layers_clear ;;
   map_sources_clear ;;
   dataSources_clear ;;
   data_sources <- wlift (getProp config "data_sources") ;;
   addDataSources (js_or data_sources (VArr [])) ;;
   layers <- wlift (getProp config "layers") ;;
   addLayers (js_or layers (VArr [])))%world.

(** [addInteractivePoints(config)] *)
Definition addInteractivePoints (config : jsval) : W unit :=
  (data_points <- wlift (getProp config "data_points") ;;
   if negb (ToBoolean data_points) || length_is_zero data_points
   then wret tt
   else
     points <- wlift (as_array data_points) ;;
     features <- wlift (map_each make_feature points) ;;
     let pointDataSource :=
       {| source_id := VUndefined; source_data := [Features features] |} in
     map_sources_add (Some pointDataSource) ;;
     let pointLayer :=
       {| kind := Symbol;
          layer_source := Some pointDataSource;
          layer_id := VNull;
          layer_options := point_layer_options |} in
     set_pointLayer (Some pointLayer) ;;
     map_layers_add_vector pointLayer ;;
     addWeatherPopups pointDataSource)%world.

(** [addWeatherData(config)] *)
Definition addWeatherData (config : jsval) : W unit :=
  (data_points <- wlift (getProp config "data_points") ;;
   points <- wlift (as_array data_points) ;;
   features <- wlift (map_each make_feature points) ;;
   let heatMapDataSource :=
     {| source_id := VUndefined; source_data := [Features features] |} in
   map_sources_add (Some heatMapDataSource) ;;
   heat_map_config <- wlift (getProp config "heat_map_config") ;;
   radius <- wlift (getProp heat_map_config "radius") ;;
   opacity <- wlift (getProp heat_map_config "opacity") ;;
   intensity <- wlift (getProp heat_map_config "intensity") ;;
   color_scheme <- wlift (getProp config "color_scheme") ;;
   value_range <- wlift (getProp config "value_range") ;;
   let heatMapLayer :=
     {| kind := HeatMap;
        layer_source := Some heatMapDataSource;
        layer_id := VNull;
        layer_options :=
          VObj [ ("radius", radius);
                 ("opacity", opacity);
                 ("intensity", intensity);
                 ("color", getColorGradient color_scheme value_range) ] |} in
   map_layers_add_vector heatMapLayer ;;
   set_heatMapLayer heatMapLayer ;;
   legend <- wlift (getProp config "legend") ;;
   on_core (addLegend shortest_decimal invoke legend color_scheme value_range) ;;
   addWeatherPopups heatMapDataSource)%world.

(** The three statements that end both the [ready] handler of
    [initializeWeatherMap] and [updateWeatherData]: the overlay when there
    is a URL for it, the interactive points, the legend. *)
Definition show_weather (data : ResponseData) : W unit :=
  let config := map_config data in
  (match truthy_url (overlay_url data) with
   | Some overlayUrl =>
       on_core (addPNGOverlay engine shortest_decimal string_to_number
                              overlayUrl (weather_data data))
   | None => wret tt
   end ;;
   addInteractivePoints config ;;
   legend <- wlift (getProp config "legend") ;;
   color_scheme <- wlift (getProp config "color_scheme") ;;
   value_range <- wlift (getProp config "value_range") ;;
   on_core (addLegend shortest_decimal invoke legend color_scheme value_range))%world.

(** [initializeWeatherMap(containerId, weatherResponse)]; [data] is
    [weatherResponse.data], [None] when the response has none. *)
Definition initializeWeatherMap (containerId : jsval) (data : option ResponseData)
  : W unit :=
  (d <- wlift (match data with
               | Some d => Normal d
               | None => Throw TypeError
               end) ;;
   center <- wlift (getProp (map_config d) "center") ;;
   zoom <- wlift (getProp (map_config d) "zoom") ;;
   style <- wlift (getProp (map_config d) "style") ;;
   (fun w =>
      new_map {| container_id := containerId;
                 center := center;
                 zoom := zoom;
                 style := style;
                 auth_key := w_subscriptionKey w |} w) ;;
   map_events_add_ready (ReadyWeatherMap d))%world.

(** The [ready] handler of [initializeWeatherMap]. *)
Definition initializeWeatherMap_ready (data : ResponseData) : W unit :=
  show_weather data.

(** What the map runs when it is ready. *)
Definition run_ready (handler : ReadyHandler) : W unit :=
  match handler with
  | ReadyMap config => initializeMap_ready config
  | ReadyWeatherMap data => initializeWeatherMap_ready data
  end.

(** [if (this.imageLayer) { this.map.layers.remove(this.imageLayer);
    this.imageLayer = null; }] *)
Definition drop_imageLayer : W unit :=
  fun w =>
    match w_imageLayer w with
    | None => (Normal tt, w)
    | Some layer =>
        (with_map (fun m =>
           with_base {| AtlasMap.layers :=
                          remove_last same_image_layer layer
                                      (AtlasMap.layers (base m));
                        AtlasMap.camera := AtlasMap.camera (base m);
                        AtlasMap.container := AtlasMap.container (base m) |} m) ;;
         (fun w' =>
            (Normal tt,
             {| w_subscriptionKey := w_subscriptionKey w';
                w_map := w_map w';
                w_dataSources := w_dataSources w';
                w_heatMapLayer := w_heatMapLayer w';
                w_imageLayer := None;
                w_pointLayer := w_pointLayer w';
                w_console_errors := w_console_errors w' |})))%world w
    end.

(** [if (this.pointLayer) { this.map.layers.remove(this.pointLayer);
    this.pointLayer = null; }] *)
Definition drop_pointLayer : W unit :=
  fun w =>
    match w_pointLayer w with
    | None => (Normal tt, w)
    | Some layer =>
        (with_map (fun m =>
           {| base := base m;
              map_options := map_options m;
              camera_center := camera_center m;
              camera_zoom := camera_zoom m;
              vector_layers :=
                remove_last same_vector_layer layer (vector_layers m);
              sources := sources m;
              ready_handlers := ready_handlers m;
              hover_popups := hover_popups m |}) ;;
         set_pointLayer None)%world w
    end.

(** [updateWeatherData(weatherResponse)]; [data] as for
    [initializeWeatherMap].  The removal of the element of id
    [weather-legend] from the page is left out: it changes the content of
    a child of the container, not the children that the container has. *)
Definition updateWeatherData (data : option ResponseData) : W unit :=
  (drop_imageLayer ;;
   drop_pointLayer ;;
   map_sources_clear ;;
   d <- wlift (match data with
               | Some d => Normal d
               | None => Throw TypeError
               end) ;;
   show_weather d)%world.

(** [searchLocation(query)] from the point where the response of the
    search service has arrived: [result] is the parsed body, or what the
    request or the parsing threw.  The body sits in [try]/[catch]. *)
Definition searchLocation_response (result : completion jsval) : W unit :=
  wtry
    (result <- wlift result ;;
     results <- wlift (getProp result "results") ;;
     found <- wlift (if ToBoolean results then length_is_positive results
                     else Normal false) ;;
     if (found : bool)
     then
       location <- wlift (getIndex results 0) ;;
       position <- wlift (getProp location "position") ;;
       lon <- wlift (getProp position "lon") ;;
       position' <- wlift (getProp location "position") ;;
       lat <- wlift (getProp position' "lat") ;;
       map_setCamera_center (VArr [lon; lat]) ;;
       map_setCamera_zoom (VNum (lit 15)) ;;
       let dataSource :=
         {| source_id := VUndefined;
            source_data := [PointGeometry lon lat] |} in
       map_sources_add (Some dataSource) ;;
       map_layers_add_vector
         {| kind := Symbol;
            layer_source := Some dataSource;
            layer_id := VNull;
            layer_options := pin_layer_options |}
     else wret tt)%world
    (fun error => w_console_error error).

End Methods.

(** ** Sample inputs for the rest of the class *)

(** A data point as a payload holds it. *)
Definition sample_point : list (string * jsval) :=
  [ ("longitude", VNum (lit (-87.6))); ("latitude", VNum (lit 24.5));
    ("value", VNum (lit 3.2)); ("title", VStr "Station 1") ].

(** A data point whose coordinates came as text. *)
Definition text_point : list (string * jsval) :=
  [ ("longitude", VStr "-87.6"); ("latitude", VStr "24.5");
    ("value", VNum (lit 3.2)); ("title", VStr "Station 1") ].

(** The properties of a marker whose value is zero. *)
Definition zero_value_marker : list (string * jsval) :=
  [ ("title", VStr "Dry station"); ("description", VStr "No rain") ].

(** ** Notions for the properties of the rest of the class *)

(** A completion that is normal or a TypeError. *)
Definition ok_or_TypeError {A : Type} (c : completion A) : Prop :=
  match c with
  | Normal _ => True
  | Throw e => e = TypeError
  end.

(** A statement that throws nothing but a TypeError. *)
Definition safe {A : Type} (c : W A) : Prop :=
  forall w : World, ok_or_TypeError (fst (c w)).

(** A statement that always ends in a TypeError. *)
Definition never_normal {A : Type} (c : W A) : Prop :=
  forall w : World, fst (c w) = Throw TypeError.

(** A statement that leaves the part [part] of the world as it finds it,
    whether it returns or throws. *)
Definition preserves {A X : Type} (part : World -> X) (c : W A) : Prop :=
  forall w : World, part (snd (c w)) = part w.

(** The map with further vector layers and data sources added. *)
Definition map_with_added
  (layers : list VectorLayer) (added : list (option DataSource)) (m : MapControl)
  : MapControl :=
  {| base := base m;
     map_options := map_options m;
     camera_center := camera_center m;
     camera_zoom := camera_zoom m;
     vector_layers := vector_layers m ++ layers;
     sources := sources m ++ added;
     ready_handlers := ready_handlers m;
     hover_popups := hover_popups m |}.

Definition set_dataSources (d : JsMap (option DataSource)) (w : World) : World :=
  {| w_subscriptionKey := w_subscriptionKey w;
     w_map := w_map w;
     w_dataSources := d;
     w_heatMapLayer := w_heatMapLayer w;
     w_imageLayer := w_imageLayer w;
     w_pointLayer := w_pointLayer w;
     w_console_errors := w_console_errors w |}.

(** What [this.dataSources.get(key)] answers. *)
Definition stored_source (dataSources : JsMap (option DataSource)) (key : jsval)
  : option DataSource :=
  match JsMap_get key dataSources with
  | Some stored => stored
  | None => None
  end.

(** The layer that a layer configuration stands for, if its type is one
    that [addLayers] knows. *)
Definition layer_of_config
  (dataSources : JsMap (option DataSource)) (config : list (string * jsval))
  : option VectorLayer :=
  match kind_of_type (lookup "type" config) with
  | Some k =>
      Some {| kind := k;
              layer_source := stored_source dataSources (lookup "source" config);
              layer_id := lookup "id" config;
              layer_options := lookup "options" config |}
  | None => None
  end.

Fixpoint layers_of_configs
  (dataSources : JsMap (option DataSource)) (configs : list (list (string * jsval)))
  : list VectorLayer :=
  match configs with
  | [] => []
  | config :: rest =>
      match layer_of_config dataSources config with
      | Some layer => layer :: layers_of_configs dataSources rest
      | None => layers_of_configs dataSources rest
      end
  end.

Definition has_known_type (config : list (string * jsval)) : bool :=
  match kind_of_type (lookup "type" config) with
  | Some _ => true
  | None => false
  end.

(** The data source of a GeoJSON source configuration. *)
Definition geojson_source (config : list (string * jsval)) : DataSource :=
  {| source_id := lookup "id" config;
     source_data := [GeoJson (lookup "data" config)] |}.

Definition is_geojson (config : list (string * jsval)) : bool :=
  strict_eq_string (lookup "type" config) "geojson".

(** The entries of [this.dataSources] after the GeoJSON configurations
    [configs] were registered one after the other. *)
Definition register_sources
  (configs : list (list (string * jsval))) (dataSources : JsMap (option DataSource))
  : JsMap (option DataSource) :=
  fold_left (fun acc config =>
               JsMap_set (lookup "id" config) (Some (geojson_source config)) acc)
            configs dataSources.

(** A map just made, and a renderer that has it. *)
Definition empty_map : MapControl :=
  {| base := AtlasMap.mk [] None [];
     map_options :=
       {| container_id := VStr "map"; center := VUndefined;
          zoom := VUndefined; style := VUndefined; auth_key := "key" |};
     camera_center := None;
     camera_zoom := None;
     vector_layers := [];
     sources := [];
     ready_handlers := [];
     hover_popups := [] |}.

Definition ready_world : World :=
  set_map (Some empty_map) (new_AzureMapsRenderer "key").

Definition sample_source_configs : list (list (string * jsval)) :=
  [ [ ("type", VStr "geojson"); ("id", VStr "rivers"); ("data", VObj []) ];
    [ ("type", VStr "geojson"); ("id", VStr "stations"); ("data", VObj []) ] ].

Definition sample_layer_configs : list (list (string * jsval)) :=
  [ [ ("type", VStr "line"); ("source", VStr "rivers"); ("id", VStr "river-lines") ];
    [ ("type", VStr "raster"); ("source", VStr "rivers") ];
    [ ("type", VStr "symbol"); ("source", VStr "stations") ] ].

(** The popups attached to the map, if there is a map. *)
Definition hover_of (w : World) : option (list HoverTarget) :=
  option_map hover_popups (w_map w).

(** The image layers on the map, if there is a map. *)
Definition image_layers_of (w : World) : option (list Layer) :=
  option_map (fun m => AtlasMap.layers (base m)) (w_map w).

(** The feature of a data point that is an object. *)
Definition feature_of_point (point : list (string * jsval)) : Feature :=
  {| feature_longitude := lookup "longitude" point;
     feature_latitude := lookup "latitude" point;
     feature_value := lookup "value" point;
     feature_title := lookup "title" point |}.

(** The data source and the symbol layer that [addInteractivePoints] makes
    of data points that are objects. *)
Definition point_source (points : list (list (string * jsval))) : DataSource :=
  {| source_id := VUndefined;
     source_data := [Features (List.map feature_of_point points)] |}.

Definition point_layer (points : list (list (string * jsval))) : VectorLayer :=
  {| kind := Symbol;
     layer_source := Some (point_source points);
     layer_id := VNull;
     layer_options := point_layer_options |}.

(** A weather response with an overlay and one data point. *)
Definition sample_response : ResponseData :=
  {| map_config :=
       VObj [ ("center", VArr [VNum (lit (-83.8)); VNum (lit 27.75)]);
              ("zoom", VNum (lit 6));
              ("style", VStr "satellite");
              ("data_points", VArr [VObj sample_point]);
              ("legend", sample_legend);
              ("color_scheme", VStr "precipitation");
              ("value_range", VArr [VNum (lit 0); VNum (lit 45)]) ];
     overlay_url := Some "overlay.png";
     weather_data := sample_weather |}.

(** What the renderer shows as overlay: [this.imageLayer] and the image
    layers on the map. *)
Definition overlay_of (w : World) : option Layer * option (list Layer) :=
  (w_imageLayer w, image_layers_of w).

(** The overlay that a weather response asks for, if it has a URL and
    weather data of which the bounds [bounds] were computed. *)
Definition overlay_of_response (data : ResponseData) (bounds : completion GeoBounds)
  : option Layer :=
  match truthy_url (overlay_url data), bounds with
  | Some overlayUrl, Normal b => Some (overlay_layer overlayUrl b)
  | _, _ => None
  end.

(** The heat map layer that [addWeatherData] makes of a configuration whose
    data points are the objects [points] and whose [heat_map_config] is the
    object [heat]. *)
Definition heat_layer
  (config : list (string * jsval)) (points : list (list (string * jsval)))
  (heat : list (string * jsval)) : VectorLayer :=
  {| kind := HeatMap;
     layer_source := Some (point_source points);
     layer_id := VNull;
     layer_options :=
       VObj [ ("radius", lookup "radius" heat);
              ("opacity", lookup "opacity" heat);
              ("intensity", lookup "intensity" heat);
              ("color", getColorGradient (lookup "color_scheme" config)
                                         (lookup "value_range" config)) ] |}.

Definition sample_heat_config : list (string * jsval) :=
  [ ("data_points", VArr (List.map VObj [sample_point]));
    ("heat_map_config",
     VObj [ ("radius", VNum (lit 20)); ("opacity", VNum (lit 0.8));
            ("intensity", VNum (lit 1)) ]);
    ("color_scheme", VStr "drought");
    ("legend", sample_legend);
    ("value_range", VArr [VNum (lit 0); VNum (lit 45)]) ].

(** A renderer that shows an overlay: its map holds the image layer, the
    camera is fitted to it, and [this.imageLayer] is that layer. *)
Definition old_overlay : Layer :=
  overlay_layer "old.png" (extent other_lons other_lats).

Definition overlay_map : MapControl :=
  with_base
    (AtlasMap.mk [old_overlay]
                 (Some (overlay_camera (extent other_lons other_lats)))
                 [])
    empty_map.

Definition world_with_overlay : World :=
  {| w_subscriptionKey := "key";
     w_map := Some overlay_map;
     w_dataSources := [];
     w_heatMapLayer := None;
     w_imageLayer := Some old_overlay;
     w_pointLayer := None;
     w_console_errors := [] |}.

(** The camera of the map and what it shows of the overlay: the centre
    and the zoom last set, the image layers on the map, and
    [this.imageLayer]. *)
Definition view_of (w : World)
  : option (option jsval) * option (option jsval)
    * option (list Layer) * option Layer :=
  (option_map camera_center (w_map w), option_map camera_zoom (w_map w),
   image_layers_of w, w_imageLayer w).

(** The map after a search found a place at ([lon], [lat]). *)
Definition map_with_pin (lon lat : jsval) (m : MapControl) : MapControl :=
  {| base := base m;
     map_options := map_options m;
     camera_center := Some (VArr [lon; lat]);
     camera_zoom := Some (VNum (lit 15));
     vector_layers :=
       vector_layers m
       ++ [ {| kind := Symbol;
               layer_source :=
                 Some {| source_id := VUndefined;
                         source_data := [PointGeometry lon lat] |};
               layer_id := VNull;
               layer_options := pin_layer_options |} ];
     sources :=
       sources m
       ++ [ Some {| source_id := VUndefined;
                    source_data := [PointGeometry lon lat] |} ];
     ready_handlers := ready_handlers m;
     hover_popups := hover_popups m |}.

Definition sample_search_result : list (string * jsval) :=
  [ ("results",
     VArr [ VObj [ ("position", VObj [ ("lat", VNum (lit 27.95));
                                       ("lon", VNum (lit (-82.45))) ]) ];
            VObj [ ("position", VObj [ ("lat", VNum (lit 40));
                                       ("lon", VNum (lit (-75))) ]) ] ]) ].

(** A configuration for [updateMap] that asks for zoom 0. *)
Definition zoom_out_config : list (string * jsval) :=
  [ ("zoom", VNum (lit 0));
    ("data_sources", VArr (List.map VObj sample_source_configs));
    ("layers", VArr (List.map VObj sample_layer_configs)) ].

(* ================================================================== *)
(** * Part II: properties                                              *)
(* ================================================================== *)

(** ** The order of the numbers *)

Section NumberOrder.

Lemma SFcompare_antisym (x y : number) :
  SFcompare y x = option_map CompOpp (SFcompare x y).
Proof.
  destruct x as [sx|sx| |sx mx ex], y as [sy|sy| |sy my ey];
    try destruct sx; try destruct sy; simpl; try reflexivity.
  - rewrite (Z.compare_antisym ey ex).
    destruct (ey ?= ex)%Z; simpl; try reflexivity.
    pose proof (Pos.compare_cont_antisym mx my Eq) as A; simpl in A.
    rewrite <- A. reflexivity.
  - rewrite (Z.compare_antisym ey ex).
    destruct (ey ?= ex)%Z; simpl; try reflexivity.
    pose proof (Pos.compare_cont_antisym mx my Eq) as A; simpl in A.
    rewrite <- A. reflexivity.
Qed.

Lemma le_refl (x : number) : isNaN x = false -> le x x = true.
Proof.
  unfold le, SFleb.
  destruct x as [s|s| |s m e]; simpl; try destruct s; try reflexivity;
    try discriminate; intros _; rewrite Z.compare_refl;
    change (Pos.compare_cont Eq m m) with (Pos.compare m m);
    rewrite Pos.compare_refl; reflexivity.
Qed.

Lemma lt_le (x y : number) : lt x y = true -> le x y = true.
Proof.
  unfold lt, le, SFltb, SFleb.
  destruct (SFcompare x y) as [[ | | ]|]; congruence.
Qed.

Lemma not_lt_le (x y : number) :
  isNaN x = false -> isNaN y = false -> lt x y = false -> le y x = true.
Proof.
  unfold lt, le, SFltb, SFleb. intros Hx Hy.
  rewrite (SFcompare_antisym x y).
  destruct x as [sx|sx| |sx mx ex], y as [sy|sy| |sy my ey];
    try discriminate;
    destruct (SFcompare _ _) as [[ | | ]|] eqn:E; simpl;
    try congruence; simpl in E; try discriminate;
    destruct sx; discriminate.
Qed.

Ltac split_compare :=
  repeat match goal with
    | H : context [(?a ?= ?b)%Z] |- _ =>
        destruct (Z.compare_spec a b); simpl in H; try discriminate H
    | H : context [Pos.compare_cont Eq ?a ?b] |- _ =>
        change (Pos.compare_cont Eq a b) with (Pos.compare a b) in H;
        destruct (Pos.compare_spec a b); simpl in H; try discriminate H
    | |- context [(?a ?= ?b)%Z] =>
        destruct (Z.compare_spec a b); simpl; try lia
    | |- context [Pos.compare_cont Eq ?a ?b] =>
        change (Pos.compare_cont Eq a b) with (Pos.compare a b);
        destruct (Pos.compare_spec a b); simpl; try lia
    end.

Lemma le_trans (x y z : number) :
  le x y = true -> le y z = true -> le x z = true.
Proof.
  unfold le, SFleb.
  destruct x as [sx|sx| |sx mx ex], y as [sy|sy| |sy my ey],
           z as [sz|sz| |sz mz ez];
    try destruct sx; try destruct sy; try destruct sz;
    simpl; try congruence; intros H1 H2;
    split_compare; subst; try reflexivity; try lia.
Qed.

End NumberOrder.

(** ** [Math.min] and [Math.max] *)

Section MinMax.

Lemma min_step (lowest n : number) :
  isNaN lowest = false -> isNaN n = false ->
  let lowest1 := if isNegZero n && isPosZero lowest then n else lowest in
  let lowest2 := if lt n lowest1 then n else lowest1 in
  (lowest2 = n \/ lowest2 = lowest) /\
  le lowest2 lowest = true /\ le lowest2 n = true /\ isNaN lowest2 = false.
Proof.
  intros Hl Hn. cbv zeta.
  destruct (isNegZero n && isPosZero lowest) eqn:Z0.
  - apply andb_prop in Z0 as [Zn Zl].
    destruct n as [[|]| | |]; try discriminate.
    destruct lowest as [[|]| | |]; try discriminate.
    cbn. auto.
  - destruct (lt n lowest) eqn:L.
    + repeat split; auto using lt_le, le_refl.
    + repeat split; auto using not_lt_le, le_refl.
Qed.

Lemma min_scan_spec (args : list number) :
  forall lowest, isNaN lowest = false -> nan_free args ->
    (min_scan lowest args = lowest \/ In (min_scan lowest args) args) /\
    le (min_scan lowest args) lowest = true /\
    forall x, In x args -> le (min_scan lowest args) x = true.
Proof.
  induction args as [|n rest IH]; intros lowest Hl Hargs.
  - simpl. repeat split; auto using le_refl; intros x [].
  - inversion Hargs as [|? ? Hn Hrest]; subst.
    simpl. rewrite Hn.
    destruct (min_step lowest n Hl Hn) as (Hsel & Hlow & Hle & Hnan).
    cbv zeta in Hsel, Hlow, Hle, Hnan.
    set (l2 := if lt n (if isNegZero n && isPosZero lowest then n else lowest)
               then n
               else if isNegZero n && isPosZero lowest then n else lowest) in *.
    destruct (IH l2 Hnan Hrest) as (Hin & Hb & Hall).
    split; [|split].
    + destruct Hin as [E|Hin]; [|auto].
      rewrite E. destruct Hsel as [->| ->]; auto.
    + eapply le_trans; eauto.
    + intros x [<-|Hx]; [eapply le_trans; eauto | auto].
Qed.

Lemma max_step (highest n : number) :
  isNaN highest = false -> isNaN n = false ->
  let highest1 := if isPosZero n && isNegZero highest then n else highest in
  let highest2 := if lt highest1 n then n else highest1 in
  (highest2 = n \/ highest2 = highest) /\
  le highest highest2 = true /\ le n highest2 = true /\ isNaN highest2 = false.
Proof.
  intros Hh Hn. cbv zeta.
  destruct (isPosZero n && isNegZero highest) eqn:Z0.
  - apply andb_prop in Z0 as [Zn Zh].
    destruct n as [[|]| | |]; try discriminate.
    destruct highest as [[|]| | |]; try discriminate.
    cbn. auto.
  - destruct (lt highest n) eqn:L.
    + repeat split; auto using lt_le, le_refl.
    + repeat split; auto using not_lt_le, le_refl.
Qed.

Lemma max_scan_spec (args : list number) :
  forall highest, isNaN highest = false -> nan_free args ->
    (max_scan highest args = highest \/ In (max_scan highest args) args) /\
    le highest (max_scan highest args) = true /\
    forall x, In x args -> le x (max_scan highest args) = true.
Proof.
  induction args as [|n rest IH]; intros highest Hh Hargs.
  - simpl. repeat split; auto using le_refl; intros x [].
  - inversion Hargs as [|? ? Hn Hrest]; subst.
    simpl. rewrite Hn.
    destruct (max_step highest n Hh Hn) as (Hsel & Hhigh & Hle & Hnan).
    cbv zeta in Hsel, Hhigh, Hle, Hnan.
    set (h2 := if lt (if isPosZero n && isNegZero highest then n else highest) n
               then n
               else if isPosZero n && isNegZero highest then n else highest) in *.
    destruct (IH h2 Hnan Hrest) as (Hin & Hb & Hall).
    split; [|split].
    + destruct Hin as [E|Hin]; [|auto].
      rewrite E. destruct Hsel as [->| ->]; auto.
    + eapply le_trans; eauto.
    + intros x [<-|Hx]; [eapply le_trans; eauto | auto].
Qed.

(** Only +Infinity is above +Infinity, only -Infinity below -Infinity. *)
Lemma le_Infinity_inv (x : number) : le Infinity x = true -> x = Infinity.
Proof. destruct x as [s|[|]| |s m e]; cbn; try discriminate; try destruct s; try discriminate; auto. Qed.

Lemma le_NegInfinity_inv (x : number) : le x NegInfinity = true -> x = NegInfinity.
Proof. destruct x as [s|[|]| |s m e]; cbn; try discriminate; try destruct s; try discriminate; auto. Qed.

Lemma Math_min_is_minimum (args : list number) :
  args <> [] -> nan_free args -> is_minimum (Math_min args) args.
Proof.
  intros Hne Hnf. unfold Math_min, is_minimum.
  destruct (min_scan_spec args Infinity eq_refl Hnf) as (Hin & _ & Hall).
  split; [|exact Hall].
  destruct Hin as [E|Hin]; [|exact Hin].
  destruct args as [|a rest]; [congruence|].
  pose proof (Hall a (or_introl eq_refl)) as Ha.
  rewrite E in Ha. apply le_Infinity_inv in Ha. rewrite E, Ha. now left.
Qed.

Lemma Math_max_is_maximum (args : list number) :
  args <> [] -> nan_free args -> is_maximum (Math_max args) args.
Proof.
  intros Hne Hnf. unfold Math_max, is_maximum.
  destruct (max_scan_spec args NegInfinity eq_refl Hnf) as (Hin & _ & Hall).
  split; [|exact Hall].
  destruct Hin as [E|Hin]; [|exact Hin].
  destruct args as [|a rest]; [congruence|].
  pose proof (Hall a (or_introl eq_refl)) as Ha.
  rewrite E in Ha. apply le_NegInfinity_inv in Ha. rewrite E, Ha. now left.
Qed.

Lemma Math_min_le_Math_max (args : list number) :
  args <> [] -> nan_free args -> le (Math_min args) (Math_max args) = true.
Proof.
  intros Hne Hnf.
  destruct (Math_min_is_minimum args Hne Hnf) as [_ Hmin].
  destruct (Math_max_is_maximum args Hne Hnf) as [_ Hmax].
  destruct args as [|a rest]; [congruence|].
  eapply le_trans; [apply Hmin | apply Hmax]; now left.
Qed.

End MinMax.

(** ** Conversions and completions *)

Section Conversions.

Variable shortest_decimal : positive -> Z -> string.
Variable string_to_number : string -> number.

(** Induction on a value through the elements of its arrays. *)
Lemma jsval_array_ind (P : jsval -> Prop) :
  P VUndefined -> P VNull -> (forall b, P (VBool b)) -> (forall n, P (VNum n)) ->
  (forall s, P (VStr s)) ->
  (forall elems, Forall P elems -> P (VArr elems)) ->
  (forall props, P (VObj props)) ->
  forall v, P v.
Proof.
  intros HU HN HB HNum HS HA HO.
  refine (fix go (v : jsval) : P v :=
            match v with
            | VUndefined => HU
            | VNull => HN
            | VBool b => HB b
            | VNum n => HNum n
            | VStr s => HS s
            | VArr elems =>
                HA elems
                   ((fix all (l : list jsval) : Forall P l :=
                       match l with
                       | [] => Forall_nil P
                       | e :: rest => Forall_cons e (go e) (all rest)
                       end) elems)
            | VObj props => HO props
            end).
Qed.

Lemma getProp_ok (o : jsval) (name : string) : ok_or_TypeError (getProp o name).
Proof. destruct o; simpl; auto. Qed.

Lemma getProp_object (props : list (string * jsval)) (name : string) :
  getProp (VObj props) name = Normal (lookup name props).
Proof. reflexivity. Qed.

Lemma as_array_ok (v : jsval) : ok_or_TypeError (as_array v).
Proof. destruct v; cbn; auto. Qed.

Lemma and_then_ok {A B : Type} (c : completion A) (k : A -> completion B) :
  ok_or_TypeError c -> (forall a, ok_or_TypeError (k a)) ->
  ok_or_TypeError (and_then c k).
Proof. destruct c as [a|e]; cbn; auto. Qed.

Lemma map_each_ok_on {A B : Type} (f : A -> completion B) (l : list A) :
  Forall (fun x => ok_or_TypeError (f x)) l -> ok_or_TypeError (map_each f l).
Proof.
  induction 1 as [|x rest Hx _ IH]; cbn; [exact I|].
  apply and_then_ok; [exact Hx|]. intros y.
  apply and_then_ok; [exact IH|]. intros ys. exact I.
Qed.

Lemma map_each_ok {A B : Type} (f : A -> completion B) (l : list A) :
  (forall x, ok_or_TypeError (f x)) -> ok_or_TypeError (map_each f l).
Proof.
  intros Hf. apply map_each_ok_on. apply Forall_forall. intros x _. apply Hf.
Qed.

(** A conversion to a string throws nothing but a TypeError. *)
Lemma ToString_ok (v : jsval) : ok_or_TypeError (ToString shortest_decimal v).
Proof.
  induction v as [ | | b | n | s | elems IH | props ] using jsval_array_ind;
    try exact I.
  - destruct b; exact I.
  - cbn [ToString]. apply and_then_ok; [|intros parts; exact I].
    apply map_each_ok_on. eapply Forall_impl; [|exact IH].
    intros e He. destruct e; try exact I; exact He.
  - cbn [ToString]. destruct (has_own "toString" props); [reflexivity | exact I].
Qed.

(** So does a conversion to a number. *)
Lemma ToNumber_ok (v : jsval) :
  ok_or_TypeError (ToNumber shortest_decimal string_to_number v).
Proof.
  destruct v as [ | | b | n | s | elems | props ]; try exact I.
  - destruct b; exact I.
  - unfold ToNumber. apply and_then_ok; [apply ToString_ok | intros s; exact I].
  - cbn [ToNumber]. destruct (has_own "toString" props); [reflexivity | exact I].
Qed.

(** A number converts to itself. *)
Lemma map_each_ToNumber (l : list number) :
  map_each (ToNumber shortest_decimal string_to_number) (List.map VNum l) = Normal l.
Proof.
  induction l as [|x rest IH]; [reflexivity|].
  cbn [List.map map_each ToNumber and_then]. now rewrite IH.
Qed.

End Conversions.

(** ** Overlay bounds *)

Section Bounds.

Variable engine : Engine.
Variable shortest_decimal : positive -> Z -> string.
Variable string_to_number : string -> number.


(** Every engine takes up to four arguments. *)
Lemma accepts_few {A : Type} (args : list A) :
  (List.length args <= 4)%nat -> accepts engine args = true.
Proof.
  intros H. unfold accepts. pose proof (max_arguments_floor engine) as F.
  apply N.leb_le in F. apply N.leb_le. lia.
Qed.

Lemma accepts_map {A B : Type} (f : A -> B) (l : list A) :
  accepts engine (List.map f l) = accepts engine l.
Proof. unfold accepts. now rewrite length_map. Qed.

(** With fewer arguments the engine takes the call as well. *)
Lemma accepts_app_l {A : Type} (l more : list A) :
  accepts engine (l ++ more)%list = true -> accepts engine l = true.
Proof.
  unfold accepts. rewrite length_app. intros H.
  apply N.leb_le in H. apply N.leb_le. lia.
Qed.

(** On an array of numbers the call gives what the function finds, when
    the engine takes that many arguments, and a RangeError when not. *)
Lemma apply_spread_numbers (f : list number -> number) (l : list number) :
  apply_spread engine shortest_decimal string_to_number f (VArr (List.map VNum l))
  = if accepts engine l then Normal (f l) else Throw RangeError.
Proof.
  unfold apply_spread. cbn [spread and_then]. rewrite accepts_map.
  destruct (accepts engine l); [|reflexivity].
  now rewrite map_each_ToNumber.
Qed.

Lemma computeBounds_numbers (lons lats : list number) :
  computeBounds engine shortest_decimal string_to_number (weather_of lons lats)
  = if accepts engine lons && accepts engine lats
    then Normal (extent lons lats)
    else Throw RangeError.
Proof.
  unfold computeBounds, weather_of.
  cbn [getProp lookup String.eqb Ascii.eqb Bool.eqb and_then].
  rewrite !apply_spread_numbers.
  destruct (accepts engine lons), (accepts engine lats); reflexivity.
Qed.

(** Whatever it is given, [addPNGOverlay] returns to its caller: an
    exception raised in its body ends in its [catch]. *)
Lemma addPNGOverlay_never_throws
  (overlayUrl : string) (weatherData : jsval) (s : State) :
  fst (addPNGOverlay engine shortest_decimal string_to_number
         overlayUrl weatherData s) = Normal tt.
Proof.
  unfold addPNGOverlay, try_catch, bind, lift.
  destruct (computeBounds engine shortest_decimal string_to_number weatherData) as [b|e];
    destruct s as [[key [m|] layer] errors]; reflexivity.
Qed.

(** When the bounds computation throws, the error goes to the console and
    nothing else changes. *)
Lemma addPNGOverlay_without_bounds
  (overlayUrl : string) (weatherData : jsval) (s : State) (e : exn) :
  computeBounds engine shortest_decimal string_to_number weatherData = Throw e ->
  addPNGOverlay engine shortest_decimal string_to_number overlayUrl weatherData s
  = (Normal tt, {| this := this s; console_errors := console_errors s ++ [e] |}).
Proof.
  intros H. unfold addPNGOverlay, try_catch, bind, lift.
  now rewrite H.
Qed.

(** With the bounds computed, on a renderer whose map is ready: the layer
    is kept in [this.imageLayer] and added to the map, and the camera is
    fitted to the bounds with padding 50. *)
Lemma addPNGOverlay_on_ready_map
  (overlayUrl : string) (weatherData : jsval) (b : GeoBounds)
  (key : string) (m : AtlasMap.t) (layer : option Layer) (errors : list exn) :
  computeBounds engine shortest_decimal string_to_number weatherData = Normal b ->
  addPNGOverlay engine shortest_decimal string_to_number overlayUrl weatherData
    {| this := Renderer.mk key (Some m) layer; console_errors := errors |}
  = (Normal tt,
     {| this :=
          Renderer.mk key
            (Some (AtlasMap.mk
                     (AtlasMap.layers m ++ [overlay_layer overlayUrl b])
                     (Some (overlay_camera b))
                     (AtlasMap.container m)))
            (Some (overlay_layer overlayUrl b));
        console_errors := errors |}).
Proof.
  intros H. unfold addPNGOverlay, try_catch, bind, lift.
  now rewrite H.
Qed.

(** With the bounds computed and no map, the layer is kept in
    [this.imageLayer] all the same (it is assigned before the map is
    touched) and the TypeError of the missing map goes to the console. *)
Lemma addPNGOverlay_without_map
  (overlayUrl : string) (weatherData : jsval) (b : GeoBounds)
  (key : string) (layer : option Layer) (errors : list exn) :
  computeBounds engine shortest_decimal string_to_number weatherData = Normal b ->
  addPNGOverlay engine shortest_decimal string_to_number overlayUrl weatherData
    {| this := Renderer.mk key None layer; console_errors := errors |}
  = (Normal tt,
     {| this := Renderer.mk key None (Some (overlay_layer overlayUrl b));
        console_errors := errors ++ [TypeError] |}).
Proof.
  intros H. unfold addPNGOverlay, try_catch, bind, lift.
  now rewrite H.
Qed.

(** What [addPNGOverlay] leaves in [this.imageLayer] once the bounds are
    computed, whether or not the map is ready. *)
Lemma addPNGOverlay_imageLayer
  (overlayUrl : string) (weatherData : jsval) (b : GeoBounds) (s : State) :
  computeBounds engine shortest_decimal string_to_number weatherData = Normal b ->
  Renderer.imageLayer
    (this (snd (addPNGOverlay engine shortest_decimal string_to_number
                  overlayUrl weatherData s)))
  = Some (overlay_layer overlayUrl b).
Proof.
  intros H. destruct s as [[key [m|] layer] errors].
  - now rewrite (addPNGOverlay_on_ready_map _ _ _ _ _ _ _ H).
  - now rewrite (addPNGOverlay_without_map _ _ _ _ _ _ H).
Qed.

(** Within what the engine takes, the bounds are the least and the
    greatest of the coordinates. *)
Lemma extent_min_max (lons lats : list number) :
  lons <> [] -> lats <> [] -> nan_free lons -> nan_free lats ->
  is_minimum (west (extent lons lats)) lons /\
  is_maximum (east (extent lons lats)) lons /\
  is_minimum (south (extent lons lats)) lats /\
  is_maximum (north (extent lons lats)) lats /\
  le (west (extent lons lats)) (east (extent lons lats)) = true /\
  le (south (extent lons lats)) (north (extent lons lats)) = true.
Proof.
  intros Hlons Hlats Nlons Nlats. simpl.
  repeat split;
    try (apply Math_min_is_minimum; assumption);
    try (apply Math_max_is_maximum; assumption);
    apply Math_min_le_Math_max; assumption.
Qed.

(** C1, on the code.  For non-empty coordinate arrays (holding numbers, no
    NaN) that the engine takes as the arguments of one call, the bounds
    that [addPNGOverlay] computes are: west the minimum and east the
    maximum of the longitudes, south the minimum and north the maximum of
    the latitudes; hence west <= east and south <= north.  For arrays
    longer than that, the spread call ends in a RangeError: no bounds are
    computed, and [addPNGOverlay] reports the error and changes nothing
    else. *)
Theorem computeBounds_min_max_up_to_limit (lons lats : list number) :
  lons <> [] -> lats <> [] -> nan_free lons -> nan_free lats ->
  (accepts engine lons && accepts engine lats = true ->
   exists b : GeoBounds,
     computeBounds engine shortest_decimal string_to_number (weather_of lons lats)
     = Normal b /\
     is_minimum (west b) lons /\ is_maximum (east b) lons /\
     is_minimum (south b) lats /\ is_maximum (north b) lats /\
     le (west b) (east b) = true /\ le (south b) (north b) = true)
  /\ (accepts engine lons && accepts engine lats = false ->
      computeBounds engine shortest_decimal string_to_number (weather_of lons lats)
      = Throw RangeError
      /\ forall (overlayUrl : string) (s : State),
           addPNGOverlay engine shortest_decimal string_to_number overlayUrl
             (weather_of lons lats) s
           = (Normal tt,
              {| this := this s;
                 console_errors := console_errors s ++ [RangeError] |})).
Proof.
  intros Hlons Hlats Nlons Nlats. split; intros Hfit.
  - exists (extent lons lats). rewrite computeBounds_numbers, Hfit.
    split; [reflexivity|]. now apply extent_min_max.
  - assert (B : computeBounds engine shortest_decimal string_to_number
                  (weather_of lons lats)
                = Throw RangeError)
      by now rewrite computeBounds_numbers, Hfit.
    split; [exact B|]. intros overlayUrl s.
    now apply addPNGOverlay_without_bounds.
Qed.

End Bounds.

(** The number of sample points of a crowded payload. *)
Lemma crowded_length {A : Type} (x : A) (count : N) :
  N.of_nat (List.length (repeat x (N.to_nat count))) = count.
Proof. rewrite repeat_length. apply N2Nat.id. Qed.

Lemma crowded_not_empty {A : Type} (x : A) (count : N) :
  count <> 0%N -> repeat x (N.to_nat count) <> [].
Proof.
  intros Hc E. apply Hc. rewrite <- (crowded_length x count), E. reflexivity.
Qed.

Lemma crowded_nan_free (x : number) (count : N) :
  isNaN x = false -> nan_free (repeat x (N.to_nat count)).
Proof.
  intros Hx. apply Forall_forall. intros y Hy.
  apply repeat_spec in Hy. now subst.
Qed.

Lemma crowded_refused (x : number) (count : N) :
  (65536 < count)%N -> accepts sample_engine (repeat x (N.to_nat count)) = false.
Proof.
  intros H. unfold accepts. rewrite crowded_length.
  apply N.leb_gt. exact H.
Qed.

Lemma computeBounds_min_max_up_to_limit_witness :
  (repeat (lit (-87.6)) (N.to_nat 130000) <> [] /\
   repeat (lit 24.5) (N.to_nat 130000) <> [] /\
   nan_free (repeat (lit (-87.6)) (N.to_nat 130000)) /\
   nan_free (repeat (lit 24.5) (N.to_nat 130000))) /\
  ((accepts sample_engine (repeat (lit (-87.6)) (N.to_nat 130000))
    && accepts sample_engine (repeat (lit 24.5) (N.to_nat 130000)) = true ->
    exists b : GeoBounds,
      computeBounds sample_engine sample_shortest_decimal sample_string_to_number
        (weather_of (repeat (lit (-87.6)) (N.to_nat 130000))
                    (repeat (lit 24.5) (N.to_nat 130000)))
      = Normal b /\
      is_minimum (west b) (repeat (lit (-87.6)) (N.to_nat 130000)) /\
      is_maximum (east b) (repeat (lit (-87.6)) (N.to_nat 130000)) /\
      is_minimum (south b) (repeat (lit 24.5) (N.to_nat 130000)) /\
      is_maximum (north b) (repeat (lit 24.5) (N.to_nat 130000)) /\
      le (west b) (east b) = true /\ le (south b) (north b) = true)
   /\ (accepts sample_engine (repeat (lit (-87.6)) (N.to_nat 130000))
       && accepts sample_engine (repeat (lit 24.5) (N.to_nat 130000)) = false ->
       computeBounds sample_engine sample_shortest_decimal sample_string_to_number
         (weather_of (repeat (lit (-87.6)) (N.to_nat 130000))
                     (repeat (lit 24.5) (N.to_nat 130000)))
       = Throw RangeError
       /\ forall (overlayUrl : string) (s : State),
            addPNGOverlay sample_engine sample_shortest_decimal
              sample_string_to_number overlayUrl
              (weather_of (repeat (lit (-87.6)) (N.to_nat 130000))
                          (repeat (lit 24.5) (N.to_nat 130000))) s
            = (Normal tt,
               {| this := this s;
                  console_errors := console_errors s ++ [RangeError] |}))).
Proof.
  assert (H1 : repeat (lit (-87.6)) (N.to_nat 130000) <> [])
    by (apply crowded_not_empty; discriminate).
  assert (H2 : repeat (lit 24.5) (N.to_nat 130000) <> [])
    by (apply crowded_not_empty; discriminate).
  assert (H3 : nan_free (repeat (lit (-87.6)) (N.to_nat 130000)))
    by (apply crowded_nan_free; reflexivity).
  assert (H4 : nan_free (repeat (lit 24.5) (N.to_nat 130000)))
    by (apply crowded_nan_free; reflexivity).
  split; [exact (conj H1 (conj H2 (conj H3 H4)))|].
  exact (computeBounds_min_max_up_to_limit sample_engine sample_shortest_decimal
           sample_string_to_number _ _ H1 H2 H3 H4).
Defined.

(** The failing input of C1: 130000 sample points on an engine that takes
    65536 arguments.  [Math.min(...lons)] ends in a RangeError, which
    [addPNGOverlay] reports; no layer is made and the map stays as it
    was. *)
Example crowded_payload_no_bounds :
  computeBounds sample_engine sample_shortest_decimal sample_string_to_number
    (crowded_weather 130000)
  = Throw RangeError
  /\ addPNGOverlay sample_engine sample_shortest_decimal sample_string_to_number
       "overlay.png" (crowded_weather 130000) ready_state
     = (Normal tt,
        {| this := this ready_state; console_errors := [RangeError] |}).
Proof.
  assert (B : computeBounds sample_engine sample_shortest_decimal
                sample_string_to_number (crowded_weather 130000)
              = Throw RangeError).
  { unfold crowded_weather. rewrite computeBounds_numbers.
    rewrite (crowded_refused (lit (-87.6)) 130000) by reflexivity. reflexivity. }
  split; [exact B|].
  now rewrite (addPNGOverlay_without_bounds _ _ _ _ _ _ _ B).
Qed.

(** Why the coordinates must be numbers: one NaN among them and the bound
    is NaN, which is below nothing and above nothing. *)
Example NaN_coordinate :
  Math_min [lit 1; NaN; lit 2] = NaN /\ Math_max [lit 1; NaN; lit 2] = NaN
  /\ le NaN NaN = false.
Proof. repeat split. Qed.

(** The end-to-end example: the two sample points give the bounds
    west -87.6, east -80.0, south 24.5, north 31.0 and the corners
    (-87.6, 31.0), (-80.0, 31.0), (-80.0, 24.5), (-87.6, 24.5). *)
Example sample_bounds :
  computeBounds sample_engine sample_shortest_decimal sample_string_to_number
    sample_weather
  = Normal {| west := lit (-87.6); east := lit (-80.0);
              south := lit 24.5; north := lit 31.0 |}
  /\ placeOverlay {| west := lit (-87.6); east := lit (-80.0);
                     south := lit 24.5; north := lit 31.0 |}
     = [ (lit (-87.6), lit 31.0); (lit (-80.0), lit 31.0);
         (lit (-80.0), lit 24.5); (lit (-87.6), lit 24.5) ].
Proof. split; vm_compute; reflexivity. Qed.

(** A payload without coordinate arrays, and coordinates that are not
    arrays: the spread of what is not iterable is a TypeError. *)
Example payload_without_arrays :
  computeBounds sample_engine sample_shortest_decimal sample_string_to_number
    (VObj [])
  = Throw TypeError
  /\ computeBounds sample_engine sample_shortest_decimal sample_string_to_number
       (VObj [ ("longitude", VNum (lit 1)); ("latitude", VNum (lit 2)) ])
     = Throw TypeError
  /\ computeBounds sample_engine sample_shortest_decimal sample_string_to_number
       VUndefined
     = Throw TypeError.
Proof. repeat split. Qed.

(** ** Overlay placement *)

Section Placement.

Variable engine : Engine.
Variable shortest_decimal : positive -> Z -> string.
Variable string_to_number : string -> number.

(** C2. The placement has exactly four corners, in the order
    (west, north), (east, north), (east, south), (west, south): corners 0
    and 1 share the north latitude, corners 2 and 3 the south latitude,
    corners 0 and 3 the west longitude, corners 1 and 2 the east longitude;
    and these four pairs are the [coordinates] of the image layer that
    [addPNGOverlay] creates of the bounds it computes. *)
Theorem placeOverlay_corners (b : GeoBounds) :
  placeOverlay b
  = [ (west b, north b); (east b, north b); (east b, south b); (west b, south b) ]
  /\ List.length (placeOverlay b) = 4%nat
  /\ snd (corner 0 (placeOverlay b)) = north b
  /\ snd (corner 1 (placeOverlay b)) = north b
  /\ snd (corner 2 (placeOverlay b)) = south b
  /\ snd (corner 3 (placeOverlay b)) = south b
  /\ fst (corner 0 (placeOverlay b)) = west b
  /\ fst (corner 3 (placeOverlay b)) = west b
  /\ fst (corner 1 (placeOverlay b)) = east b
  /\ fst (corner 2 (placeOverlay b)) = east b
  /\ forall (overlayUrl : string) (weatherData : jsval) (s : State)
            (computed : GeoBounds),
       computeBounds engine shortest_decimal string_to_number weatherData
       = Normal computed ->
       Renderer.imageLayer
         (this (snd (addPNGOverlay engine shortest_decimal string_to_number
                       overlayUrl weatherData s)))
       = Some (ImageLayer
                 {| url := overlayUrl;
                    coordinates := placeOverlay computed;
                    opacity := lit 0.9 |}).
Proof.
  repeat split.
  intros overlayUrl weatherData s computed H.
  now rewrite (addPNGOverlay_imageLayer _ _ _ _ _ _ s H).
Qed.

End Placement.

(** ** Empty and single-point inputs *)

Section Degenerate.

Variable engine : Engine.
Variable shortest_decimal : positive -> Z -> string.
Variable string_to_number : string -> number.


Lemma Math_min_single (x : number) : Math_min [x] = x.
Proof. destruct x as [[|]|[|]| |[|] m e]; reflexivity. Qed.

Lemma Math_max_single (x : number) : Math_max [x] = x.
Proof. destruct x as [[|]|[|]| |[|] m e]; reflexivity. Qed.

(** The bounds of a payload of at most four sample points: no engine
    refuses so short a call. *)
Lemma computeBounds_few (lons lats : list number) :
  (List.length lons <= 4)%nat -> (List.length lats <= 4)%nat ->
  computeBounds engine shortest_decimal string_to_number (weather_of lons lats)
  = Normal (extent lons lats).
Proof.
  intros Hlons Hlats. rewrite computeBounds_numbers.
  now rewrite !accepts_few.
Qed.

(** C3, amended. On an empty list of sample points the bounds computation
    does not fail: [Math.min] and [Math.max] of no argument give
    west = +Infinity, east = -Infinity, south = +Infinity and
    north = -Infinity (so west <= east does not hold of them), and
    [addPNGOverlay] returns normally to its caller. *)
Theorem empty_points_bounds :
  computeBounds engine shortest_decimal string_to_number empty_weather
  = Normal {| west := Infinity; east := NegInfinity;
              south := Infinity; north := NegInfinity |}
  /\ le Infinity NegInfinity = false
  /\ forall (overlayUrl : string) (s : State),
       fst (addPNGOverlay engine shortest_decimal string_to_number
              overlayUrl empty_weather s) = Normal tt.
Proof.
  split; [|split; [reflexivity|]].
  - unfold empty_weather. rewrite computeBounds_few by (simpl; lia). reflexivity.
  - intros overlayUrl s. apply addPNGOverlay_never_throws.
Qed.

(** C9. A single sample point (x, y) gives the degenerate bounds
    west = east = x and south = north = y; the placement of degenerate
    bounds (of a point, of a north-south line, of an east-west line) still
    has its four corners, some of them coincident, and [addPNGOverlay]
    builds the layer and returns normally. *)
Theorem single_point_degenerate (x y : number) :
  computeBounds engine shortest_decimal string_to_number (weather_of [x] [y])
  = Normal {| west := x; east := x; south := y; north := y |}
  /\ placeOverlay {| west := x; east := x; south := y; north := y |}
     = [ (x, y); (x, y); (x, y); (x, y) ]
  /\ (forall w s n : number,
        placeOverlay {| west := w; east := w; south := s; north := n |}
        = [ (w, n); (w, n); (w, s); (w, s) ])
  /\ (forall w e s : number,
        placeOverlay {| west := w; east := e; south := s; north := s |}
        = [ (w, s); (e, s); (e, s); (w, s) ])
  /\ forall (overlayUrl : string) (st : State),
       fst (addPNGOverlay engine shortest_decimal string_to_number
              overlayUrl (weather_of [x] [y]) st) = Normal tt
       /\ Renderer.imageLayer
            (this (snd (addPNGOverlay engine shortest_decimal string_to_number
                          overlayUrl (weather_of [x] [y]) st)))
          = Some (ImageLayer {| url := overlayUrl;
                                coordinates := [ (x, y); (x, y); (x, y); (x, y) ];
                                opacity := lit 0.9 |}).
Proof.
  assert (B : computeBounds engine shortest_decimal string_to_number (weather_of [x] [y])
              = Normal {| west := x; east := x; south := y; north := y |}).
  { rewrite computeBounds_few by (simpl; lia). unfold extent.
    now rewrite (Math_min_single x), (Math_max_single x),
                (Math_min_single y), (Math_max_single y). }
  split; [exact B|]. split; [reflexivity|].
  split; [reflexivity|]. split; [reflexivity|].
  intros overlayUrl st. split; [apply addPNGOverlay_never_throws|].
  now rewrite (addPNGOverlay_imageLayer _ _ _ _ _ _ st B).
Qed.

(** For the operator [==] of the language the two ends of a single-point
    bound are equal as soon as the coordinate is a number (NaN is equal to
    nothing, itself included). *)
Lemma single_point_equal_ends (x y : number) :
  isNaN x = false -> isNaN y = false ->
  eq (west (extent [x] [y])) (east (extent [x] [y])) = true /\
  eq (south (extent [x] [y])) (north (extent [x] [y])) = true.
Proof.
  intros Hx Hy. cbn [extent west east south north].
  rewrite (Math_min_single x), (Math_max_single x),
          (Math_min_single y), (Math_max_single y).
  pose proof (le_refl x Hx) as Lx. pose proof (le_refl y Hy) as Ly.
  unfold eq, SFeqb, le, SFleb in *.
  pose proof (SFcompare_antisym x x) as Ax.
  pose proof (SFcompare_antisym y y) as Ay.
  destruct (SFcompare x x) as [[ | | ]|]; try discriminate;
    destruct (SFcompare y y) as [[ | | ]|]; try discriminate; auto.
Qed.

End Degenerate.

(** An exception inside is what [console.error] receives, as when the map is
    not there yet. *)
Example addPNGOverlay_on_no_map :
  addPNGOverlay sample_engine sample_shortest_decimal sample_string_to_number
    "overlay.png" sample_weather
    {| this := Renderer.mk "key" None None; console_errors := [] |}
  = (Normal tt,
     {| this :=
          Renderer.mk "key" None
            (Some (overlay_layer "overlay.png" (extent sample_lons sample_lats)));
        console_errors := [TypeError] |}).
Proof. reflexivity. Qed.

(** C3, as the specification states it, fails: on a payload with no sample
    point [addPNGOverlay] does not fail with EmptyInputError. *)
Lemma empty_points_no_EmptyInputError :
  fst (addPNGOverlay sample_engine sample_shortest_decimal sample_string_to_number
         "overlay.png" empty_weather ready_state)
  <> Throw EmptyInputError.
Proof. rewrite addPNGOverlay_never_throws. discriminate. Qed.

(** ** Colour gradients *)

Section Gradients.

Lemma getColorGradient_cases (colorScheme valueRange : jsval) :
  getColorGradient colorScheme valueRange = temperature_gradient \/
  getColorGradient colorScheme valueRange = precipitation_gradient \/
  getColorGradient colorScheme valueRange = drought_gradient \/
  getColorGradient colorScheme valueRange = default_gradient.
Proof.
  unfold getColorGradient.
  destruct (strict_eq_string colorScheme "temperature"); [auto|].
  destruct (strict_eq_string colorScheme "precipitation"); [auto|].
  destruct (strict_eq_string colorScheme "drought"); auto.
Qed.

Lemma strict_eq_string_true (v : jsval) (literal : string) :
  strict_eq_string v literal = true -> v = VStr literal.
Proof.
  destruct v; simpl; try discriminate.
  intros H. apply String.eqb_eq in H. now subst.
Qed.

(** C6. [getColorGradient] has a result for every scheme name: one of the
    four gradients; for a name that is none of the three [case] labels
    (temperature, precipitation, drought) the result is exactly the
    default gradient, as for the name default itself and for
    unknown-scheme-xyz. *)
Theorem getColorGradient_total_default (colorScheme valueRange : jsval) :
  In (getColorGradient colorScheme valueRange)
     [ temperature_gradient; precipitation_gradient;
       drought_gradient; default_gradient ]
  /\ (In colorScheme [ VStr "temperature"; VStr "precipitation"; VStr "drought" ]
      \/ getColorGradient colorScheme valueRange = default_gradient)
  /\ getColorGradient (VStr "default") valueRange = default_gradient
  /\ getColorGradient (VStr "unknown-scheme-xyz") valueRange = default_gradient.
Proof.
  split.
  - destruct (getColorGradient_cases colorScheme valueRange) as [H|[H|[H|H]]];
      rewrite H; simpl; auto.
  - split; [|split; reflexivity].
    unfold getColorGradient.
    destruct (strict_eq_string colorScheme "temperature") eqn:T.
    { left. apply strict_eq_string_true in T. subst. simpl. auto. }
    destruct (strict_eq_string colorScheme "precipitation") eqn:P.
    { left. apply strict_eq_string_true in P. subst. simpl. auto. }
    destruct (strict_eq_string colorScheme "drought") eqn:D.
    { left. apply strict_eq_string_true in D. subst. simpl. auto. }
    now right.
Qed.

(** C7. Whatever the scheme name, known or not, the gradient returned is a
    non-empty sequence of (stop, colour) pairs whose stops lie within
    [0, 1], increase strictly, start at 0 and end at 1. *)
Theorem getColorGradient_well_formed (colorScheme valueRange : jsval) :
  exists pairs : list (number * string),
    gradient_stops (getColorGradient colorScheme valueRange) = Some pairs
    /\ well_formed_stops pairs = true.
Proof.
  destruct (getColorGradient_cases colorScheme valueRange) as [H|[H|[H|H]]];
    rewrite H; eexists; (split; [vm_compute; reflexivity | vm_compute; reflexivity]).
Qed.

(** C10. The result of [getColorGradient] does not depend on its
    [valueRange] argument. *)
Theorem getColorGradient_ignores_valueRange (colorScheme r1 r2 : jsval) :
  getColorGradient colorScheme r1 = getColorGradient colorScheme r2.
Proof. reflexivity. Qed.

End Gradients.

(** ** [toFixed] *)

Section Formatting.

Variable shortest_decimal : positive -> Z -> string.

Lemma length_append (s t : string) :
  String.length (s ++ t) = (String.length s + String.length t)%nat.
Proof. induction s as [|c s IH]; simpl; [reflexivity | now rewrite IH]. Qed.

Lemma length_zeros (count : nat) : String.length (zeros count) = count.
Proof. induction count as [|k IH]; simpl; [reflexivity | now rewrite IH]. Qed.

Lemma length_substring (s : string) :
  forall n m : nat,
    (n + m <= String.length s)%nat -> String.length (substring n m s) = m.
Proof.
  induction s as [|c s IH]; intros n m H; simpl in H.
  - assert (n = 0%nat /\ m = 0%nat) as [-> ->] by lia. reflexivity.
  - destruct n as [|n]; simpl.
    + destruct m as [|m]; simpl; [reflexivity|].
      rewrite (IH 0%nat m); [reflexivity | lia].
    + apply IH. lia.
Qed.

(** With [f > 0] fraction digits the text is an integer part of at least
    one character, a point, and exactly [f] characters after it. *)
Lemma fixed_digits_shape (n : Z) (f : nat) :
  (0 < f)%nat ->
  exists a b : string,
    fixed_digits n f = a ++ "." ++ b
    /\ String.length b = f /\ (1 <= String.length a)%nat.
Proof.
  intros Hf. unfold fixed_digits.
  destruct f as [|f']; [lia|].
  set (f := S f') in *.
  set (m := decimal n).
  set (m' := if Nat.leb (String.length m) f
             then zeros (f + 1 - String.length m) ++ m else m).
  assert (Hlen : (f + 1 <= String.length m')%nat).
  { unfold m'. destruct (Nat.leb (String.length m) f) eqn:L.
    - apply Nat.leb_le in L. rewrite length_append, length_zeros. lia.
    - apply Nat.leb_gt in L. lia. }
  exists (substring 0 (String.length m' - f) m'),
         (substring (String.length m' - f) f m').
  split; [reflexivity|]. split.
  - apply length_substring. lia.
  - rewrite length_substring; lia.
Qed.

(** A value [m * 2^e] with [e >= 0] is an integer: scaling by [10^f] is
    exact. *)
Lemma nearest_scaled_integer (m : positive) (e : Z) (f : nat) :
  (0 <= e)%Z ->
  nearest_scaled m e f = (Z.pos m * 10 ^ Z.of_nat f * 2 ^ e)%Z.
Proof.
  intros He. unfold nearest_scaled.
  destruct (Z.leb_spec 0 e); [reflexivity | lia].
Qed.

(** For [e < 0] the value is [m / 2^(-e)]; the integer [n] chosen is within
    one half of the scaled value [m * 10^f / 2^(-e)], the upper one when
    two integers are at one half:
    [scaled - 1/2 < n <= scaled + 1/2], here multiplied by [2 * 2^(-e)]. *)
Lemma nearest_scaled_nearest (m : positive) (e : Z) (f : nat) :
  (e < 0)%Z ->
  (2 * (Z.pos m * 10 ^ Z.of_nat f) - 2 ^ (- e)
     < 2 * 2 ^ (- e) * nearest_scaled m e f
   <= 2 * (Z.pos m * 10 ^ Z.of_nat f) + 2 ^ (- e))%Z.
Proof.
  intros He. unfold nearest_scaled.
  destruct (Z.leb_spec 0 e); [lia|].
  replace (1 - e)%Z with (Z.succ (- e)) by lia.
  rewrite Z.pow_succ_r by lia.
  set (d := (2 ^ (- e))%Z).
  assert (Hd : (0 < d)%Z) by (apply Z.pow_pos_nonneg; lia).
  set (a := (2 * (Z.pos m * 10 ^ Z.of_nat f) + d)%Z).
  pose proof (Z.mul_div_le a (2 * d) ltac:(lia)).
  pose proof (Z.mul_succ_div_gt a (2 * d) ltac:(lia)).
  lia.
Qed.

(** On a finite number below [10^21], [toFixed(1)] writes an optional minus
    sign, an integer part, a point and exactly one more character. *)
Lemma toFixed_1_one_decimal (x : number) :
  below_1e21 x = true ->
  exists sign a b : string,
    toFixed shortest_decimal x 1 = Normal (sign ++ a ++ "." ++ b)
    /\ (sign = EmptyString \/ sign = "-")
    /\ String.length b = 1%nat /\ (1 <= String.length a)%nat.
Proof.
  intros Hx. unfold toFixed. cbn [Z.ltb Z.compare orb].
  change (Z.to_nat 1) with 1%nat.
  destruct x as [s|s| |s m e]; try discriminate.
  - destruct (fixed_digits_shape 0 1 ltac:(lia)) as (a & b & E & Hb & Ha).
    exists EmptyString, a, b. rewrite E. auto.
  - simpl in Hx. apply negb_true_iff in Hx. rewrite Hx.
    destruct (fixed_digits_shape (nearest_scaled m e 1) 1 ltac:(lia))
      as (a & b & E & Hb & Ha).
    exists (if s then "-" else EmptyString), a, b. rewrite E.
    repeat split; auto. destruct s; auto.
Qed.

End Formatting.

(** ** The legend *)

Section LegendProperties.

Variable shortest_decimal : positive -> Z -> string.
Variable invoke : string -> list jsval -> M jsval.

(** The class declares no method of the name that the template calls. *)
Lemma getLegendGradient_not_declared :
  ~ In "getLegendGradient" AzureMapsRenderer_methods
  /\ has_method "getLegendGradient" = false.
Proof.
  split; [|reflexivity].
  simpl. intros H.
  repeat (destruct H as [H|H]; [discriminate H|]). exact H.
Qed.

(** With one fraction digit [toFixed] does not throw. *)
Lemma toFixed_1_normal (x : number) :
  exists label : string, toFixed shortest_decimal x 1 = Normal label.
Proof.
  unfold toFixed. cbn [Z.ltb Z.compare orb].
  destruct x as [s|s| |s m e]; try (eexists; reflexivity).
  destruct (at_least_1e21 m e); eexists; reflexivity.
Qed.

(** On a pair of numbers the two labels are the two ends, each formatted
    on its own. *)
Lemma legendLabels_pair (lo hi : number) :
  exists a b : string,
    toFixed shortest_decimal lo 1 = Normal a /\
    toFixed shortest_decimal hi 1 = Normal b /\
    legendLabels shortest_decimal (VArr [VNum lo; VNum hi]) = Normal (a, b).
Proof.
  destruct (toFixed_1_normal lo) as [a Ha], (toFixed_1_normal hi) as [b Hb].
  exists a, b. repeat split; try assumption.
  unfold legendLabels. cbn [getIndex nth call_toFixed].
  now rewrite Ha, Hb.
Qed.

Lemma addLegend_throws (legend colorScheme valueRange : jsval) (s : State) :
  addLegend shortest_decimal invoke legend colorScheme valueRange s
  = (Throw TypeError, s).
Proof.
  unfold addLegend, bind, lift.
  pose proof (getProp_ok legend "title") as G1.
  destruct (getProp legend "title") as [title|e]; [|simpl in G1; now subst].
  pose proof (ToString_ok shortest_decimal title) as T1.
  destruct (ToString shortest_decimal title) as [title'|e];
    [|simpl in T1; now subst].
  pose proof (getProp_ok legend "date") as G2.
  destruct (getProp legend "date") as [date|e]; [|simpl in G2; now subst].
  pose proof (ToString_ok shortest_decimal date) as T2.
  destruct (ToString shortest_decimal date) as [date'|e];
    [|simpl in T2; now subst].
  pose proof (getProp_ok legend "region") as G3.
  destruct (getProp legend "region") as [region|e]; [|simpl in G3; now subst].
  pose proof (ToString_ok shortest_decimal region) as T3.
  destruct (ToString shortest_decimal region) as [region'|e];
    [|simpl in T3; now subst].
  reflexivity.
Qed.

(** C4. Every call of [addLegend] ends in a TypeError and leaves the state
    as it was, the map container included: when [legend] is [undefined] or
    [null] the first substitution throws, as does one of the first three
    on a title, date or region that has no string, and otherwise the
    template reaches the call of [this.getLegendGradient], which is neither
    a method that the class declares nor a field of the instance. *)
Theorem addLegend_always_TypeError (legend colorScheme valueRange : jsval) (s : State) :
  has_method "getLegendGradient" = false
  /\ has_field "getLegendGradient" = false
  /\ addLegend shortest_decimal invoke legend colorScheme valueRange s
     = (Throw TypeError, s).
Proof.
  split; [reflexivity|]. split; [reflexivity|]. apply addLegend_throws.
Qed.

(** C5, amended. [addLegend] has no check of the order of the value range
    and no InvalidRangeError: on an inverted range it does not fail with
    that error, and its two label expressions format each end on its own,
    whatever their order. *)
Theorem inverted_range_not_checked
  (legend colorScheme : jsval) (lo hi : number) (s : State) :
  lt hi lo = true ->
  fst (addLegend shortest_decimal invoke legend colorScheme
         (VArr [VNum lo; VNum hi]) s) <> Throw InvalidRangeError
  /\ exists a b : string,
       toFixed shortest_decimal lo 1 = Normal a /\
       toFixed shortest_decimal hi 1 = Normal b /\
       legendLabels shortest_decimal (VArr [VNum lo; VNum hi]) = Normal (a, b).
Proof.
  intros _. split; [|apply legendLabels_pair].
  rewrite addLegend_throws. discriminate.
Qed.

(** C8, on the code. The two label expressions give 0.0 and 45.0 for the
    value range (0, 45), yet [addLegend] never reaches them: called with
    that range on a ready renderer it throws the TypeError of the
    undeclared [getLegendGradient] and appends nothing to the container. *)
Theorem legend_labels_not_reached :
  legendLabels shortest_decimal (VArr [VNum (lit 0); VNum (lit 45)])
  = Normal ("0.0", "45.0")
  /\ addLegend shortest_decimal invoke sample_legend (VStr "precipitation")
       (VArr [VNum (lit 0); VNum (lit 45)]) ready_state
     = (Throw TypeError, ready_state).
Proof. split; reflexivity. Qed.

End LegendProperties.

(** C5, as the specification states it, fails: with the inverted range
    (10, 5) [addLegend] does not fail with InvalidRangeError. *)
Lemma inverted_range_no_InvalidRangeError :
  fst (addLegend sample_shortest_decimal sample_invoke sample_legend
         (VStr "precipitation") (VArr [VNum (lit 10); VNum (lit 5)]) ready_state)
  <> Throw InvalidRangeError.
Proof. vm_compute. discriminate. Qed.

Lemma inverted_range_not_checked_witness :
  lt (lit 5) (lit 10) = true /\
  (fst (addLegend sample_shortest_decimal sample_invoke sample_legend
          (VStr "precipitation") (VArr [VNum (lit 10); VNum (lit 5)]) ready_state)
   <> Throw InvalidRangeError
   /\ exists a b : string,
        toFixed sample_shortest_decimal (lit 10) 1 = Normal a /\
        toFixed sample_shortest_decimal (lit 5) 1 = Normal b /\
        legendLabels sample_shortest_decimal (VArr [VNum (lit 10); VNum (lit 5)])
        = Normal (a, b)).
Proof.
  assert (H : lt (lit 5) (lit 10) = true) by reflexivity.
  split; [exact H|].
  exact (inverted_range_not_checked sample_shortest_decimal sample_invoke
           sample_legend (VStr "precipitation") (lit 10) (lit 5) ready_state H).
Defined.

(** The labels of the inverted range (10, 5): 10.0 and 5.0. *)
Example inverted_range_labels :
  legendLabels sample_shortest_decimal (VArr [VNum (lit 10); VNum (lit 5)])
  = Normal ("10.0", "5.0").
Proof. reflexivity. Qed.

(* ================================================================== *)
(** * Part III: further properties of the overlay and legend code      *)
(* ================================================================== *)

(** ** More on the order of the numbers *)

Section NumberOrderMore.

Lemma le_not_NaN (x y : number) :
  le x y = true -> isNaN x = false /\ isNaN y = false.
Proof.
  unfold le, SFleb.
  destruct x as [sx|sx| |sx mx ex], y as [sy|sy| |sy my ey];
    simpl; try discriminate; auto.
Qed.

Lemma le_antisym (x y : number) :
  le x y = true -> le y x = true -> eq x y = true.
Proof.
  unfold le, eq, SFleb, SFeqb. rewrite (SFcompare_antisym x y).
  destruct (SFcompare x y) as [[ | | ]|]; simpl; congruence.
Qed.

Lemma minimum_unique (m1 m2 : number) (l1 l2 : list number) :
  is_minimum m1 l1 -> is_minimum m2 l2 -> same_elements l1 l2 ->
  eq m1 m2 = true.
Proof.
  intros [I1 L1] [I2 L2] [S12 S21].
  apply le_antisym; [apply L1, S21, I2 | apply L2, S12, I1].
Qed.

Lemma maximum_unique (m1 m2 : number) (l1 l2 : list number) :
  is_maximum m1 l1 -> is_maximum m2 l2 -> same_elements l1 l2 ->
  eq m1 m2 = true.
Proof.
  intros [I1 L1] [I2 L2] [S12 S21].
  apply le_antisym; [apply L2, S12, I1 | apply L1, S21, I2].
Qed.

Lemma nan_free_incl (l1 l2 : list number) :
  incl l1 l2 -> nan_free l2 -> nan_free l1.
Proof.
  unfold nan_free. rewrite !Forall_forall. intros H N x Hx. apply N, H, Hx.
Qed.

Lemma incl_not_nil (l1 l2 : list number) : incl l1 l2 -> l1 <> [] -> l2 <> [].
Proof.
  intros H N ->. destruct l1 as [|a l1]; [congruence|].
  exact (H a (or_introl eq_refl)).
Qed.

End NumberOrderMore.

(** ** The bounds as a function of the set of sample points *)

Section ExtentProperties.

Lemma extent_inside (lons lats : list number) (lon lat : number) :
  nan_free lons -> nan_free lats -> In lon lons -> In lat lats ->
  inside (extent lons lats) lon lat.
Proof.
  intros Nlons Nlats Hlon Hlat.
  assert (Elons : lons <> []) by (intros ->; inversion Hlon).
  assert (Elats : lats <> []) by (intros ->; inversion Hlat).
  destruct (Math_min_is_minimum lons Elons Nlons) as [_ Wmin].
  destruct (Math_max_is_maximum lons Elons Nlons) as [_ Emax].
  destruct (Math_min_is_minimum lats Elats Nlats) as [_ Smin].
  destruct (Math_max_is_maximum lats Elats Nlats) as [_ Nmax].
  unfold inside; simpl. auto.
Qed.

Lemma extent_same_elements (lons lats lons' lats' : list number) :
  lons <> [] -> lats <> [] -> nan_free lons -> nan_free lats ->
  same_elements lons lons' -> same_elements lats lats' ->
  same_bounds (extent lons lats) (extent lons' lats').
Proof.
  intros Elons Elats Nlons Nlats Slons Slats.
  assert (Elons' : lons' <> []) by (eapply incl_not_nil; [apply Slons|exact Elons]).
  assert (Elats' : lats' <> []) by (eapply incl_not_nil; [apply Slats|exact Elats]).
  assert (Nlons' : nan_free lons') by (eapply nan_free_incl; [apply Slons|exact Nlons]).
  assert (Nlats' : nan_free lats') by (eapply nan_free_incl; [apply Slats|exact Nlats]).
  unfold same_bounds; simpl. repeat split.
  - eapply minimum_unique; eauto using Math_min_is_minimum.
  - eapply maximum_unique; eauto using Math_max_is_maximum.
  - eapply minimum_unique; eauto using Math_min_is_minimum.
  - eapply maximum_unique; eauto using Math_max_is_maximum.
Qed.

Lemma extent_grows (lons lats more_lons more_lats : list number) :
  lons <> [] -> lats <> [] ->
  nan_free (lons ++ more_lons) -> nan_free (lats ++ more_lats) ->
  le (west (extent (lons ++ more_lons) (lats ++ more_lats)))
     (west (extent lons lats)) = true /\
  le (east (extent lons lats))
     (east (extent (lons ++ more_lons) (lats ++ more_lats))) = true /\
  le (south (extent (lons ++ more_lons) (lats ++ more_lats)))
     (south (extent lons lats)) = true /\
  le (north (extent lons lats))
     (north (extent (lons ++ more_lons) (lats ++ more_lats))) = true.
Proof.
  intros Elons Elats Nlons Nlats.
  assert (Ilons : incl lons (lons ++ more_lons)) by (apply incl_appl, incl_refl).
  assert (Ilats : incl lats (lats ++ more_lats)) by (apply incl_appl, incl_refl).
  pose proof (nan_free_incl _ _ Ilons Nlons) as Nl.
  pose proof (nan_free_incl _ _ Ilats Nlats) as Nt.
  pose proof (incl_not_nil _ _ Ilons Elons) as El.
  pose proof (incl_not_nil _ _ Ilats Elats) as Et.
  destruct (Math_min_is_minimum lons Elons Nl) as [W1 _].
  destruct (Math_max_is_maximum lons Elons Nl) as [E1 _].
  destruct (Math_min_is_minimum lats Elats Nt) as [S1 _].
  destruct (Math_max_is_maximum lats Elats Nt) as [N1 _].
  destruct (Math_min_is_minimum _ El Nlons) as [_ W2].
  destruct (Math_max_is_maximum _ El Nlons) as [_ E2].
  destruct (Math_min_is_minimum _ Et Nlats) as [_ S2].
  destruct (Math_max_is_maximum _ Et Nlats) as [_ N2].
  simpl. repeat split.
  - apply W2, Ilons, W1.
  - apply E2, Ilons, E1.
  - apply S2, Ilats, S1.
  - apply N2, Ilats, N1.
Qed.

Lemma extent_of_corners (b : GeoBounds) :
  proper_bounds b ->
  same_bounds
    (extent (List.map fst (placeOverlay b)) (List.map snd (placeOverlay b))) b.
Proof.
  intros [WE SN].
  destruct (le_not_NaN _ _ WE) as [Nw Ne], (le_not_NaN _ _ SN) as [Ns Nn].
  assert (Rw := le_refl _ Nw). assert (Re := le_refl _ Ne).
  assert (Rs := le_refl _ Ns). assert (Rn := le_refl _ Nn).
  cbn [placeOverlay List.map fst snd].
  assert (Nlons : nan_free [west b; east b; east b; west b])
    by (repeat constructor; assumption).
  assert (Nlats : nan_free [north b; north b; south b; south b])
    by (repeat constructor; assumption).
  unfold same_bounds; simpl. repeat split.
  - eapply minimum_unique with (l1 := [west b; east b; east b; west b]);
      [apply Math_min_is_minimum; [discriminate|exact Nlons] | | split; apply incl_refl].
    split; [now left|]. intros x [<-|[<-|[<-|[<-|[]]]]]; assumption.
  - eapply maximum_unique with (l1 := [west b; east b; east b; west b]);
      [apply Math_max_is_maximum; [discriminate|exact Nlons] | | split; apply incl_refl].
    split; [right; now left|]. intros x [<-|[<-|[<-|[<-|[]]]]]; assumption.
  - eapply minimum_unique with (l1 := [north b; north b; south b; south b]);
      [apply Math_min_is_minimum; [discriminate|exact Nlats] | | split; apply incl_refl].
    split; [right; right; now left|]. intros x [<-|[<-|[<-|[<-|[]]]]]; assumption.
  - eapply maximum_unique with (l1 := [north b; north b; south b; south b]);
      [apply Math_max_is_maximum; [discriminate|exact Nlats] | | split; apply incl_refl].
    split; [now left|]. intros x [<-|[<-|[<-|[<-|[]]]]]; assumption.
Qed.

End ExtentProperties.

Section BoundsMore.

Variable engine : Engine.
Variable shortest_decimal : positive -> Z -> string.
Variable string_to_number : string -> number.

Lemma computeBounds_accepted (lons lats : list number) :
  accepts engine lons = true -> accepts engine lats = true ->
  computeBounds engine shortest_decimal string_to_number (weather_of lons lats)
  = Normal (extent lons lats).
Proof. intros Hlons Hlats. now rewrite computeBounds_numbers, Hlons, Hlats. Qed.

(** X1. Of coordinate arrays that the engine takes as the arguments of one
    call, every sample point lies inside the rectangle of the bounds
    computed: the overlay and the camera fitted to it cover all the
    data. *)
Theorem sample_points_inside (lons lats : list number) (lon lat : number) :
  accepts engine lons = true -> accepts engine lats = true ->
  nan_free lons -> nan_free lats -> In lon lons -> In lat lats ->
  exists b : GeoBounds,
    computeBounds engine shortest_decimal string_to_number (weather_of lons lats)
    = Normal b
    /\ inside b lon lat.
Proof.
  intros Alons Alats Nlons Nlats Hlon Hlat. exists (extent lons lats).
  split; [now apply computeBounds_accepted | now apply extent_inside].
Qed.

(** X2. The bounds depend on which coordinates occur, not on the order of
    the sample points nor on repetitions, as long as the engine takes the
    arrays: two such payloads with the same longitudes and the same
    latitudes get bounds that [==] cannot tell apart. *)
Theorem computeBounds_order_independent (lons lats lons' lats' : list number) :
  accepts engine lons = true -> accepts engine lats = true ->
  accepts engine lons' = true -> accepts engine lats' = true ->
  lons <> [] -> lats <> [] -> nan_free lons -> nan_free lats ->
  same_elements lons lons' -> same_elements lats lats' ->
  exists b b' : GeoBounds,
    computeBounds engine shortest_decimal string_to_number (weather_of lons lats)
    = Normal b
    /\ computeBounds engine shortest_decimal string_to_number
         (weather_of lons' lats')
       = Normal b'
    /\ same_bounds b b'.
Proof.
  intros A1 A2 A3 A4 Elons Elats Nlons Nlats Slons Slats.
  exists (extent lons lats), (extent lons' lats').
  split; [now apply computeBounds_accepted|].
  split; [now apply computeBounds_accepted|].
  now apply extent_same_elements.
Qed.

(** X3. More sample points never shrink the rectangle: when the engine
    takes the arrays with the further coordinates appended, it takes them
    without, and from the one bounds to the other west and south can only
    go down, east and north only up. *)
Theorem computeBounds_grows (lons lats more_lons more_lats : list number) :
  accepts engine (lons ++ more_lons)%list = true ->
  accepts engine (lats ++ more_lats)%list = true ->
  lons <> [] -> lats <> [] ->
  nan_free (lons ++ more_lons) -> nan_free (lats ++ more_lats) ->
  exists fewer more : GeoBounds,
    computeBounds engine shortest_decimal string_to_number (weather_of lons lats)
    = Normal fewer
    /\ computeBounds engine shortest_decimal string_to_number
         (weather_of (lons ++ more_lons) (lats ++ more_lats))
       = Normal more
    /\ le (west more) (west fewer) = true
    /\ le (east fewer) (east more) = true
    /\ le (south more) (south fewer) = true
    /\ le (north fewer) (north more) = true.
Proof.
  intros A1 A2 Elons Elats Nlons Nlats.
  exists (extent lons lats), (extent (lons ++ more_lons) (lats ++ more_lats)).
  split; [apply computeBounds_accepted; eapply accepts_app_l; eassumption|].
  split; [now apply computeBounds_accepted|].
  now apply extent_grows.
Qed.

(** X4. The corners say all there is in the bounds: for bounds with west
    not above east and south not above north, the bounds recomputed from
    the longitudes and latitudes of the four corners of the placement are
    the same bounds. *)
Theorem bounds_of_corners (b : GeoBounds) :
  proper_bounds b ->
  exists recomputed : GeoBounds,
    computeBounds engine shortest_decimal string_to_number
      (weather_of (List.map fst (placeOverlay b)) (List.map snd (placeOverlay b)))
    = Normal recomputed
    /\ same_bounds recomputed b.
Proof.
  intros H.
  exists (extent (List.map fst (placeOverlay b)) (List.map snd (placeOverlay b))).
  split; [|now apply extent_of_corners].
  apply computeBounds_few; simpl; lia.
Qed.

End BoundsMore.

Lemma sample_points_inside_witness :
  (accepts sample_engine other_lons = true /\
   accepts sample_engine other_lats = true /\
   nan_free other_lons /\ nan_free other_lats /\
   In (lit (-95.25)) other_lons /\ In (lit 35.5) other_lats) /\
  exists b : GeoBounds,
    computeBounds sample_engine sample_shortest_decimal sample_string_to_number
      (weather_of other_lons other_lats)
    = Normal b
    /\ inside b (lit (-95.25)) (lit 35.5).
Proof.
  assert (A1 : accepts sample_engine other_lons = true) by reflexivity.
  assert (A2 : accepts sample_engine other_lats = true) by reflexivity.
  assert (H1 : nan_free other_lons) by (repeat constructor).
  assert (H2 : nan_free other_lats) by (repeat constructor).
  assert (H3 : In (lit (-95.25)) other_lons) by (simpl; right; left; reflexivity).
  assert (H4 : In (lit 35.5) other_lats) by (simpl; right; left; reflexivity).
  split; [exact (conj A1 (conj A2 (conj H1 (conj H2 (conj H3 H4)))))|].
  exact (sample_points_inside sample_engine sample_shortest_decimal
           sample_string_to_number other_lons other_lats
           (lit (-95.25)) (lit 35.5) A1 A2 H1 H2 H3 H4).
Defined.

Lemma computeBounds_order_independent_witness :
  (accepts sample_engine other_lons = true /\
   accepts sample_engine other_lats = true /\
   accepts sample_engine (rev other_lons ++ other_lons)%list = true /\
   accepts sample_engine (rev other_lats) = true /\
   other_lons <> [] /\ other_lats <> [] /\
   nan_free other_lons /\ nan_free other_lats /\
   same_elements other_lons (rev other_lons ++ other_lons) /\
   same_elements other_lats (rev other_lats)) /\
  exists b b' : GeoBounds,
    computeBounds sample_engine sample_shortest_decimal sample_string_to_number
      (weather_of other_lons other_lats)
    = Normal b
    /\ computeBounds sample_engine sample_shortest_decimal sample_string_to_number
         (weather_of (rev other_lons ++ other_lons) (rev other_lats))
       = Normal b'
    /\ same_bounds b b'.
Proof.
  assert (A1 : accepts sample_engine other_lons = true) by reflexivity.
  assert (A2 : accepts sample_engine other_lats = true) by reflexivity.
  assert (A3 : accepts sample_engine (rev other_lons ++ other_lons)%list = true)
    by reflexivity.
  assert (A4 : accepts sample_engine (rev other_lats) = true) by reflexivity.
  assert (H1 : other_lons <> []) by discriminate.
  assert (H2 : other_lats <> []) by discriminate.
  assert (H3 : nan_free other_lons) by (repeat constructor).
  assert (H4 : nan_free other_lats) by (repeat constructor).
  assert (H5 : same_elements other_lons (rev other_lons ++ other_lons)).
  { split; intros x Hx.
    - apply in_or_app. now right.
    - apply in_app_or in Hx as [Hx|Hx]; [now apply in_rev|exact Hx]. }
  assert (H6 : same_elements other_lats (rev other_lats)).
  { split; intros x Hx; [now apply in_rev in Hx | now apply in_rev]. }
  split.
  - exact (conj A1 (conj A2 (conj A3 (conj A4 (conj H1 (conj H2 (conj H3
            (conj H4 (conj H5 H6))))))))).
  - exact (computeBounds_order_independent sample_engine sample_shortest_decimal
             sample_string_to_number _ _ _ _ A1 A2 A3 A4 H1 H2 H3 H4 H5 H6).
Defined.

Lemma computeBounds_grows_witness :
  (accepts sample_engine (sample_lons ++ other_lons)%list = true /\
   accepts sample_engine (sample_lats ++ other_lats)%list = true /\
   sample_lons <> [] /\ sample_lats <> [] /\
   nan_free (sample_lons ++ other_lons) /\
   nan_free (sample_lats ++ other_lats)) /\
  exists fewer more : GeoBounds,
    computeBounds sample_engine sample_shortest_decimal sample_string_to_number
      (weather_of sample_lons sample_lats)
    = Normal fewer
    /\ computeBounds sample_engine sample_shortest_decimal sample_string_to_number
         (weather_of (sample_lons ++ other_lons) (sample_lats ++ other_lats))
       = Normal more
    /\ le (west more) (west fewer) = true
    /\ le (east fewer) (east more) = true
    /\ le (south more) (south fewer) = true
    /\ le (north fewer) (north more) = true.
Proof.
  assert (A1 : accepts sample_engine (sample_lons ++ other_lons)%list = true)
    by reflexivity.
  assert (A2 : accepts sample_engine (sample_lats ++ other_lats)%list = true)
    by reflexivity.
  assert (H1 : sample_lons <> []) by discriminate.
  assert (H2 : sample_lats <> []) by discriminate.
  assert (H3 : nan_free (sample_lons ++ other_lons)) by (repeat constructor).
  assert (H4 : nan_free (sample_lats ++ other_lats)) by (repeat constructor).
  split; [exact (conj A1 (conj A2 (conj H1 (conj H2 (conj H3 H4)))))|].
  exact (computeBounds_grows sample_engine sample_shortest_decimal
           sample_string_to_number _ _ _ _ A1 A2 H1 H2 H3 H4).
Defined.

Lemma bounds_of_corners_witness :
  proper_bounds (extent sample_lons sample_lats) /\
  exists recomputed : GeoBounds,
    computeBounds sample_engine sample_shortest_decimal sample_string_to_number
      (weather_of
         (List.map fst (placeOverlay (extent sample_lons sample_lats)))
         (List.map snd (placeOverlay (extent sample_lons sample_lats))))
    = Normal recomputed
    /\ same_bounds recomputed (extent sample_lons sample_lats).
Proof.
  assert (H : proper_bounds (extent sample_lons sample_lats))
    by (split; reflexivity).
  split; [exact H|].
  exact (bounds_of_corners sample_engine sample_shortest_decimal
           sample_string_to_number _ H).
Defined.

(** ** What [addPNGOverlay] leaves behind *)

Section OverlayState.

Variable engine : Engine.
Variable shortest_decimal : positive -> Z -> string.
Variable string_to_number : string -> number.

(** X5. [addPNGOverlay] returns normally whatever happens inside, and
    reports to the console exactly what made it fail: the error of the
    bounds computation when that throws, one TypeError when the bounds are
    computed and there is no map to draw on, and nothing when the bounds
    are computed and the map is there; the earlier reports stay.  On a
    payload of two arrays of numbers the bounds computation fails exactly
    when the engine does not take one of the arrays as the arguments of a
    call, and then with a RangeError. *)
Theorem addPNGOverlay_failure_report
  (overlayUrl : string) (weatherData : jsval) (s : State) :
  fst (addPNGOverlay engine shortest_decimal string_to_number
         overlayUrl weatherData s) = Normal tt
  /\ console_errors
       (snd (addPNGOverlay engine shortest_decimal string_to_number
               overlayUrl weatherData s))
     = (console_errors s
        ++ overlay_report
             (computeBounds engine shortest_decimal string_to_number weatherData)
             s)%list
  /\ forall lons lats : list number,
       computeBounds engine shortest_decimal string_to_number
         (weather_of lons lats)
       = if accepts engine lons && accepts engine lats
         then Normal (extent lons lats)
         else Throw RangeError.
Proof.
  split; [apply addPNGOverlay_never_throws|].
  split; [|apply computeBounds_numbers].
  unfold overlay_report.
  destruct (computeBounds engine shortest_decimal string_to_number weatherData)
    as [b|e] eqn:B.
  - destruct s as [[key [m|] layer] errors]; cbn [this Renderer.map].
    + rewrite (addPNGOverlay_on_ready_map _ _ _ _ _ _ _ _ _ _ B). cbn.
      now rewrite app_nil_r.
    + now rewrite (addPNGOverlay_without_map _ _ _ _ _ _ _ _ _ B).
  - now rewrite (addPNGOverlay_without_bounds _ _ _ _ _ _ _ B).
Qed.

(** X6. A failing call does not touch the map: no layer is added, the
    camera and the container stay.  When the bounds computation failed,
    [this.imageLayer] stays too; when the bounds were computed and the map
    is missing, it already holds the new layer, one that is on no map. *)
Theorem addPNGOverlay_failure_leaves_map
  (overlayUrl : string) (weatherData : jsval) (s : State) :
  overlay_report
    (computeBounds engine shortest_decimal string_to_number weatherData) s
  <> [] ->
  Renderer.map
    (this (snd (addPNGOverlay engine shortest_decimal string_to_number
                  overlayUrl weatherData s)))
  = Renderer.map (this s)
  /\ Renderer.imageLayer
       (this (snd (addPNGOverlay engine shortest_decimal string_to_number
                     overlayUrl weatherData s)))
     = match computeBounds engine shortest_decimal string_to_number weatherData with
       | Normal b => Some (overlay_layer overlayUrl b)
       | Throw _ => Renderer.imageLayer (this s)
       end.
Proof.
  unfold overlay_report.
  destruct (computeBounds engine shortest_decimal string_to_number weatherData)
    as [b|e] eqn:B.
  - destruct s as [[key [m|] layer] errors]; cbn [this Renderer.map];
      intros H; [congruence|].
    now rewrite (addPNGOverlay_without_map _ _ _ _ _ _ _ _ _ B).
  - intros _. now rewrite (addPNGOverlay_without_bounds _ _ _ _ _ _ _ B).
Qed.

(** X7. [addPNGOverlay] does not take the previous overlay off the map:
    after two calls that computed their bounds on a ready map both layers
    are on it, in the order of the calls and after the layers that were
    there; [this.imageLayer] and the camera are those of the second call,
    the container is untouched and nothing is reported. *)
Theorem addPNGOverlay_twice_stacks
  (url1 url2 : string) (wd1 wd2 : jsval) (b1 b2 : GeoBounds)
  (key : string) (m : AtlasMap.t) (layer : option Layer) (errors : list exn) :
  computeBounds engine shortest_decimal string_to_number wd1 = Normal b1 ->
  computeBounds engine shortest_decimal string_to_number wd2 = Normal b2 ->
  addPNGOverlay engine shortest_decimal string_to_number url2 wd2
    (snd (addPNGOverlay engine shortest_decimal string_to_number url1 wd1
            {| this := Renderer.mk key (Some m) layer; console_errors := errors |}))
  = (Normal tt,
     {| this :=
          Renderer.mk key
            (Some (AtlasMap.mk
                     (AtlasMap.layers m
                      ++ [ overlay_layer url1 b1; overlay_layer url2 b2 ])
                     (Some {| bounds := [ west b2; south b2; east b2; north b2 ];
                              padding := lit 50 |})
                     (AtlasMap.container m)))
            (Some (overlay_layer url2 b2));
        console_errors := errors |}).
Proof.
  intros B1 B2.
  rewrite (addPNGOverlay_on_ready_map _ _ _ url1 wd1 b1 key m layer errors B1).
  cbn [snd]. rewrite (addPNGOverlay_on_ready_map _ _ _ _ _ _ _ _ _ _ B2).
  cbn [AtlasMap.layers AtlasMap.container].
  rewrite <- app_assoc. reflexivity.
Qed.

End OverlayState.

Lemma addPNGOverlay_failure_leaves_map_witness :
  overlay_report
    (computeBounds sample_engine sample_shortest_decimal sample_string_to_number
       (crowded_weather 130000))
    ready_state
  <> [] /\
  (Renderer.map
     (this (snd (addPNGOverlay sample_engine sample_shortest_decimal
                   sample_string_to_number "overlay.png"
                   (crowded_weather 130000) ready_state)))
   = Renderer.map (this ready_state)
   /\ Renderer.imageLayer
        (this (snd (addPNGOverlay sample_engine sample_shortest_decimal
                      sample_string_to_number "overlay.png"
                      (crowded_weather 130000) ready_state)))
      = match computeBounds sample_engine sample_shortest_decimal
                sample_string_to_number (crowded_weather 130000) with
        | Normal b => Some (overlay_layer "overlay.png" b)
        | Throw _ => Renderer.imageLayer (this ready_state)
        end).
Proof.
  assert (B : computeBounds sample_engine sample_shortest_decimal
                sample_string_to_number (crowded_weather 130000)
              = Throw RangeError).
  { unfold crowded_weather. rewrite computeBounds_numbers.
    rewrite (crowded_refused (lit (-87.6)) 130000) by reflexivity. reflexivity. }
  assert (H : overlay_report
                (computeBounds sample_engine sample_shortest_decimal
                   sample_string_to_number (crowded_weather 130000))
                ready_state
              <> []) by (rewrite B; discriminate).
  split; [exact H|].
  exact (addPNGOverlay_failure_leaves_map sample_engine sample_shortest_decimal
           sample_string_to_number "overlay.png" (crowded_weather 130000)
           ready_state H).
Defined.

Lemma addPNGOverlay_twice_stacks_witness :
  (computeBounds sample_engine sample_shortest_decimal sample_string_to_number
     other_weather
   = Normal (extent other_lons other_lats) /\
   computeBounds sample_engine sample_shortest_decimal sample_string_to_number
     sample_weather
   = Normal (extent sample_lons sample_lats)) /\
  addPNGOverlay sample_engine sample_shortest_decimal sample_string_to_number
    "new.png" sample_weather
    (snd (addPNGOverlay sample_engine sample_shortest_decimal
            sample_string_to_number "old.png" other_weather
            {| this := Renderer.mk "key" (Some (AtlasMap.mk [] None [])) None;
               console_errors := [] |}))
  = (Normal tt,
     {| this :=
          Renderer.mk "key"
            (Some (AtlasMap.mk
                     (AtlasMap.layers (AtlasMap.mk [] None [])
                      ++ [ overlay_layer "old.png" (extent other_lons other_lats);
                           overlay_layer "new.png"
                             (extent sample_lons sample_lats) ])
                     (Some {| bounds :=
                                [ west (extent sample_lons sample_lats);
                                  south (extent sample_lons sample_lats);
                                  east (extent sample_lons sample_lats);
                                  north (extent sample_lons sample_lats) ];
                              padding := lit 50 |})
                     (AtlasMap.container (AtlasMap.mk [] None []))))
            (Some (overlay_layer "new.png" (extent sample_lons sample_lats)));
        console_errors := [] |}).
Proof.
  assert (B1 : computeBounds sample_engine sample_shortest_decimal
                 sample_string_to_number other_weather
               = Normal (extent other_lons other_lats)) by reflexivity.
  assert (B2 : computeBounds sample_engine sample_shortest_decimal
                 sample_string_to_number sample_weather
               = Normal (extent sample_lons sample_lats)) by reflexivity.
  split; [exact (conj B1 B2)|].
  exact (addPNGOverlay_twice_stacks sample_engine sample_shortest_decimal
           sample_string_to_number "old.png" "new.png" other_weather
           sample_weather _ _ "key" (AtlasMap.mk [] None []) None [] B1 B2).
Defined.

(** ** The boundary labels of the legend *)

Section LabelsMore.

Variable shortest_decimal : positive -> Z -> string.

(** With any number of fraction digits from 0 to 100 [toFixed] returns. *)
Lemma call_toFixed_1 (v : jsval) :
  (exists x, v = VNum x /\
             exists label, call_toFixed shortest_decimal v 1 = Normal label)
  \/ ((forall x, v <> VNum x) /\
      call_toFixed shortest_decimal v 1 = Throw TypeError).
Proof.
  destruct v; try (right; split; [intros x; discriminate | reflexivity]).
  left. exists n. split; [reflexivity|]. apply toFixed_1_normal.
Qed.

(** X8. The two label expressions [valueRange[0].toFixed(1)] and
    [valueRange[1].toFixed(1)] give labels exactly when [valueRange] holds
    a number at index 0 and a number at index 1; in every other case
    (no value range, too short a range, an entry that is not a number)
    they end in a TypeError. *)
Theorem legendLabels_needs_two_numbers (valueRange : jsval) :
  (exists lo hi : number,
      getIndex valueRange 0 = Normal (VNum lo) /\
      getIndex valueRange 1 = Normal (VNum hi) /\
      exists labels, legendLabels shortest_decimal valueRange = Normal labels)
  \/ (~ (exists lo hi : number,
           getIndex valueRange 0 = Normal (VNum lo) /\
           getIndex valueRange 1 = Normal (VNum hi))
      /\ legendLabels shortest_decimal valueRange = Throw TypeError).
Proof.
  unfold legendLabels.
  destruct (getIndex valueRange 0) as [v0|e0] eqn:G0.
  2:{ right. split; [intros (lo & hi & H & _); discriminate|].
      destruct valueRange; simpl in G0; try discriminate; now inversion G0. }
  destruct (call_toFixed_1 v0) as [(lo & -> & a & Ha)|[N0 T0]].
  2:{ right. rewrite T0. split; [|reflexivity].
      intros (lo & hi & H & _). inversion H. eapply N0; eauto. }
  rewrite Ha.
  destruct (getIndex valueRange 1) as [v1|e1] eqn:G1.
  2:{ destruct valueRange; simpl in G0, G1; discriminate. }
  destruct (call_toFixed_1 v1) as [(hi & -> & b & Hb)|[N1 T1]].
  - left. exists lo, hi. rewrite Hb. repeat split. now exists (a, b).
  - right. rewrite T1. split; [|reflexivity].
    intros (lo' & hi & _ & H). inversion H. eapply N1; eauto.
Qed.

(** X9. For a value range of two finite numbers below 10^21 in magnitude
    each label is an optional minus sign, an integer part of at least one
    character, a point and exactly one more character. *)
Theorem legendLabels_one_decimal (lo hi : number) :
  below_1e21 lo = true -> below_1e21 hi = true ->
  exists sign1 int1 frac1 sign2 int2 frac2 : string,
    legendLabels shortest_decimal (VArr [VNum lo; VNum hi])
    = Normal (sign1 ++ int1 ++ "." ++ frac1, sign2 ++ int2 ++ "." ++ frac2)
    /\ (sign1 = EmptyString \/ sign1 = "-") /\ (sign2 = EmptyString \/ sign2 = "-")
    /\ String.length frac1 = 1%nat /\ String.length frac2 = 1%nat
    /\ (1 <= String.length int1)%nat /\ (1 <= String.length int2)%nat.
Proof.
  intros Hlo Hhi.
  destruct (toFixed_1_one_decimal shortest_decimal lo Hlo)
    as (s1 & a1 & b1 & E1 & S1 & B1 & A1).
  destruct (toFixed_1_one_decimal shortest_decimal hi Hhi)
    as (s2 & a2 & b2 & E2 & S2 & B2 & A2).
  exists s1, a1, b1, s2, a2, b2.
  unfold legendLabels. cbn [getIndex nth call_toFixed].
  rewrite E1, E2. repeat split; assumption.
Qed.

End LabelsMore.

Lemma legendLabels_one_decimal_witness :
  (below_1e21 (lit (-12.34)) = true /\ below_1e21 (lit 987.65) = true) /\
  exists sign1 int1 frac1 sign2 int2 frac2 : string,
    legendLabels sample_shortest_decimal (VArr [VNum (lit (-12.34)); VNum (lit 987.65)])
    = Normal (sign1 ++ int1 ++ "." ++ frac1, sign2 ++ int2 ++ "." ++ frac2)
    /\ (sign1 = EmptyString \/ sign1 = "-") /\ (sign2 = EmptyString \/ sign2 = "-")
    /\ String.length frac1 = 1%nat /\ String.length frac2 = 1%nat
    /\ (1 <= String.length int1)%nat /\ (1 <= String.length int2)%nat.
Proof.
  assert (H1 : below_1e21 (lit (-12.34)) = true) by reflexivity.
  assert (H2 : below_1e21 (lit 987.65) = true) by reflexivity.
  split; [exact (conj H1 H2)|].
  exact (legendLabels_one_decimal sample_shortest_decimal
           (lit (-12.34)) (lit 987.65) H1 H2).
Defined.

Example legendLabels_rounding :
  legendLabels sample_shortest_decimal (VArr [VNum (lit (-12.34)); VNum (lit 987.65)])
  = Normal ("-12.3", "987.6").
Proof. reflexivity. Qed.

(* ================================================================== *)
(** * Part IV: properties of the rest of the class                     *)
(* ================================================================== *)

(** ** [addGeoTIFFOverlay] *)

Section GeoTIFF.

(** X10. Given the bounds array [west, south, east, north] of some bounds,
    such as the one [addPNGOverlay] hands to the camera,
    [addGeoTIFFOverlay] puts its image on the very corners that
    [addPNGOverlay] uses for these bounds, with opacity 0.7; it returns
    normally, and it leaves the camera and the container of the map as
    they were. *)
Theorem addGeoTIFFOverlay_same_corners (geotiffUrl : string) (b : GeoBounds) (s : State) :
  fst (addGeoTIFFOverlay geotiffUrl (Some (bounds_array b)) s) = Normal tt
  /\ Renderer.imageLayer
       (this (snd (addGeoTIFFOverlay geotiffUrl (Some (bounds_array b)) s)))
     = Some (ImageLayer {| url := geotiffUrl;
                           coordinates := placeOverlay b;
                           opacity := lit 0.7 |})
  /\ option_map AtlasMap.camera
       (Renderer.map (this (snd (addGeoTIFFOverlay geotiffUrl
                                   (Some (bounds_array b)) s))))
     = option_map AtlasMap.camera (Renderer.map (this s))
  /\ option_map AtlasMap.container
       (Renderer.map (this (snd (addGeoTIFFOverlay geotiffUrl
                                   (Some (bounds_array b)) s))))
     = option_map AtlasMap.container (Renderer.map (this s)).
Proof.
  destruct s as [[key [m|] layer] errors]; repeat split.
Qed.

(** X11. [addGeoTIFFOverlay] stacks like [addPNGOverlay]: on a ready map
    the new image layer goes after the layers already there, none of which
    is taken off, and nothing is reported. *)
Theorem addGeoTIFFOverlay_stacks
  (geotiffUrl : string) (bounds : BoundsArray)
  (key : string) (m : AtlasMap.t) (layer : option Layer) (errors : list exn) :
  exists added : Layer,
    addGeoTIFFOverlay geotiffUrl (Some bounds)
      {| this := Renderer.mk key (Some m) layer; console_errors := errors |}
    = (Normal tt,
       {| this :=
            Renderer.mk key
              (Some (AtlasMap.mk (AtlasMap.layers m ++ [added])
                                 (AtlasMap.camera m) (AtlasMap.container m)))
              (Some added);
          console_errors := errors |}).
Proof.
  destruct bounds as [[[b0 b1] b2] b3]. eexists. reflexivity.
Qed.

End GeoTIFF.

(** ** Popups *)

Section Popups.

Variable shortest_decimal : positive -> Z -> string.

#[local] Arguments toFixed : simpl never.
#[local] Arguments ToString : simpl never.
#[local] Arguments weatherPopupHtml : simpl never.
#[local] Arguments popupHtml : simpl never.

Lemma toFixed_normal (x : number) (digits : Z) :
  (0 <= digits <= 100)%Z ->
  exists label : string, toFixed shortest_decimal x digits = Normal label.
Proof.
  intros [H0 H100]. unfold toFixed.
  destruct (Z.ltb_spec digits 0); [lia|].
  destruct (Z.ltb_spec 100 digits); [lia|]. cbn [orb].
  destruct x as [s|s| |s m e]; try (eexists; reflexivity).
  destruct (at_least_1e21 m e); eexists; reflexivity.
Qed.

(** X12. Hovering a data point whose longitude and latitude are numbers
    and whose title has a string opens a popup at [longitude, latitude]
    whose text shows that string, the latitude on the Lat line and the
    longitude on the Lon line, each with four fraction digits.  When the
    title has no string (an object with a property [toString] of its own),
    hovering throws the error of that conversion and opens no popup. *)
Theorem weatherPopup_of_point (point : list (string * jsval)) (x y : number) :
  lookup "longitude" point = VNum x ->
  lookup "latitude" point = VNum y ->
  exists (f : Feature) (lat lon : string),
    make_feature (VObj point) = Normal f
    /\ toFixed shortest_decimal y 4 = Normal lat
    /\ toFixed shortest_decimal x 4 = Normal lon
    /\ (forall title : string,
          ToString shortest_decimal (lookup "title" point) = Normal title ->
          weatherPopup_mouseover shortest_decimal [shape_of_feature f]
          = Normal (Some {| content := weatherPopupHtml title lat lon;
                            position := VArr [VNum x; VNum y] |}))
    /\ (forall e : exn,
          ToString shortest_decimal (lookup "title" point) = Throw e ->
          weatherPopup_mouseover shortest_decimal [shape_of_feature f]
          = Throw e).
Proof.
  intros Hx Hy.
  destruct (toFixed_normal y 4 ltac:(lia)) as [lat Hlat].
  destruct (toFixed_normal x 4 ltac:(lia)) as [lon Hlon].
  eexists. exists lat, lon.
  split; [reflexivity|]. split; [exact Hlat|]. split; [exact Hlon|].
  cbn. rewrite Hx, Hy.
  split; [intros title Ht | intros e Ht]; rewrite Ht; cbn; [|reflexivity].
  unfold call_toFixed. rewrite Hlat. cbn. rewrite Hlon. reflexivity.
Qed.

(** X13. A data point whose latitude or longitude is not a number (a
    coordinate sent as text, or left out) still becomes a feature, but
    hovering it throws a TypeError and opens no popup. *)
Theorem weatherPopup_of_bad_point (point : list (string * jsval)) :
  (forall y : number, lookup "latitude" point <> VNum y)
  \/ (forall x : number, lookup "longitude" point <> VNum x) ->
  exists f : Feature,
    make_feature (VObj point) = Normal f
    /\ weatherPopup_mouseover shortest_decimal [shape_of_feature f]
       = Throw TypeError.
Proof.
  intros H. eexists. split; [reflexivity|]. cbn.
  pose proof (ToString_ok shortest_decimal (lookup "title" point)) as T.
  destruct (ToString shortest_decimal (lookup "title" point)) as [title|e];
    [|simpl in T; now subst].
  cbn.
  destruct (lookup "latitude" point) as [ | | | y | | | ] eqn:Elat;
    try reflexivity.
  destruct (toFixed_normal y 4 ltac:(lia)) as [lat Hlat].
  unfold call_toFixed at 1. rewrite Hlat. cbn.
  destruct (lookup "longitude" point) as [ | | | x | | | ] eqn:Elon;
    try reflexivity.
  destruct H as [H|H]; [exfalso; eapply H | exfalso; eapply H]; reflexivity.
Qed.

(** X14. In the popup of [addPopups] a value of 0 (or NaN) is not shown:
    the popup of a marker with such a value is the popup of the same
    marker without a value. *)
Theorem popup_hides_zero_value (properties : list (string * jsval)) (z : number) :
  lookup "value" properties = VUndefined ->
  isPosZero z || isNegZero z || isNaN z = true ->
  popup_content shortest_decimal (VObj (("value", VNum z) :: properties))
  = popup_content shortest_decimal (VObj properties).
Proof.
  intros Hv Hz. unfold popup_content. cbn.
  rewrite Hv. cbn.
  replace (isNaN z || isPosZero z || isNegZero z) with true
    by (destruct (isNaN z), (isPosZero z), (isNegZero z); simpl in *; congruence).
  reflexivity.
Qed.

End Popups.

Lemma weatherPopup_of_point_witness :
  (lookup "longitude" sample_point = VNum (lit (-87.6)) /\
   lookup "latitude" sample_point = VNum (lit 24.5)) /\
  exists (f : Feature) (lat lon : string),
    make_feature (VObj sample_point) = Normal f
    /\ toFixed sample_shortest_decimal (lit 24.5) 4 = Normal lat
    /\ toFixed sample_shortest_decimal (lit (-87.6)) 4 = Normal lon
    /\ (forall title : string,
          ToString sample_shortest_decimal (lookup "title" sample_point)
          = Normal title ->
          weatherPopup_mouseover sample_shortest_decimal [shape_of_feature f]
          = Normal (Some {| content := weatherPopupHtml title lat lon;
                            position :=
                              VArr [VNum (lit (-87.6)); VNum (lit 24.5)] |}))
    /\ (forall e : exn,
          ToString sample_shortest_decimal (lookup "title" sample_point)
          = Throw e ->
          weatherPopup_mouseover sample_shortest_decimal [shape_of_feature f]
          = Throw e).
Proof.
  assert (H1 : lookup "longitude" sample_point = VNum (lit (-87.6))) by reflexivity.
  assert (H2 : lookup "latitude" sample_point = VNum (lit 24.5)) by reflexivity.
  split; [exact (conj H1 H2)|].
  exact (weatherPopup_of_point sample_shortest_decimal sample_point
           (lit (-87.6)) (lit 24.5) H1 H2).
Defined.

Example weatherPopup_of_sample_point_labels :
  toFixed sample_shortest_decimal (lit 24.5) 4 = Normal "24.5000"
  /\ toFixed sample_shortest_decimal (lit (-87.6)) 4 = Normal "-87.6000".
Proof. split; reflexivity. Qed.

Lemma weatherPopup_of_bad_point_witness :
  ((forall y : number, lookup "latitude" text_point <> VNum y)
   \/ (forall x : number, lookup "longitude" text_point <> VNum x)) /\
  exists f : Feature,
    make_feature (VObj text_point) = Normal f
    /\ weatherPopup_mouseover sample_shortest_decimal [shape_of_feature f]
       = Throw TypeError.
Proof.
  assert (H : (forall y : number, lookup "latitude" text_point <> VNum y)
              \/ (forall x : number, lookup "longitude" text_point <> VNum x))
    by (left; intros y; discriminate).
  split; [exact H|].
  exact (weatherPopup_of_bad_point sample_shortest_decimal text_point H).
Defined.

Lemma popup_hides_zero_value_witness :
  (lookup "value" zero_value_marker = VUndefined /\
   isPosZero (lit 0) || isNegZero (lit 0) || isNaN (lit 0) = true) /\
  popup_content sample_shortest_decimal
    (VObj (("value", VNum (lit 0)) :: zero_value_marker))
  = popup_content sample_shortest_decimal (VObj zero_value_marker).
Proof.
  assert (H1 : lookup "value" zero_value_marker = VUndefined) by reflexivity.
  assert (H2 : isPosZero (lit 0) || isNegZero (lit 0) || isNaN (lit 0) = true)
    by reflexivity.
  split; [exact (conj H1 H2)|].
  exact (popup_hides_zero_value sample_shortest_decimal zero_value_marker
           (lit 0) H1 H2).
Defined.

(** ** Statements over the world *)

Section WorldLemmas.

Lemma with_base_base (m : MapControl) : with_base (base m) m = m.
Proof. destruct m; reflexivity. Qed.

Lemma with_core_core (w : World) : with_core (core w) w = w.
Proof.
  destruct w as [key [m|] ds heat image point errors]; unfold with_core; cbn;
    [rewrite with_base_base|]; reflexivity.
Qed.

Lemma safe_wret {A : Type} (a : A) : safe (wret a).
Proof. intros w. exact I. Qed.

Lemma safe_wlift {A : Type} (c : completion A) : ok_or_TypeError c -> safe (wlift c).
Proof. intros H w. exact H. Qed.

Lemma safe_wbind {A B : Type} (c : W A) (k : A -> W B) :
  safe c -> (forall a, safe (k a)) -> safe (wbind c k).
Proof.
  intros Hc Hk w. unfold wbind. specialize (Hc w).
  destruct (c w) as [[a|e] w']; simpl in *; [apply Hk | exact Hc].
Qed.

Lemma safe_with_map (update : MapControl -> MapControl) : safe (with_map update).
Proof. intros w. unfold with_map. destruct (w_map w); simpl; auto. Qed.

Lemma safe_for_each {A : Type} (f : A -> W unit) (l : list A) :
  (forall x, safe (f x)) -> safe (for_each f l).
Proof.
  intros Hf. induction l as [|x rest IH]; simpl.
  - apply safe_wret.
  - apply safe_wbind; [apply Hf | intros _; exact IH].
Qed.

Lemma never_normal_wbind_l {A B : Type} (c : W A) (k : A -> W B) :
  never_normal c -> never_normal (wbind c k).
Proof.
  intros Hc w. unfold wbind. specialize (Hc w).
  destruct (c w) as [[a|e] w']; simpl in *; [discriminate | congruence].
Qed.

Lemma never_normal_wbind_r {A B : Type} (c : W A) (k : A -> W B) :
  safe c -> (forall a, never_normal (k a)) -> never_normal (wbind c k).
Proof.
  intros Hc Hk w. unfold wbind. specialize (Hc w).
  destruct (c w) as [[a|e] w']; simpl in *; [apply Hk | now subst].
Qed.

Lemma preserves_wret {A X : Type} (part : World -> X) (a : A) :
  preserves part (wret a).
Proof. intros w. reflexivity. Qed.

Lemma preserves_wlift {A X : Type} (part : World -> X) (c : completion A) :
  preserves part (wlift c).
Proof. intros w. reflexivity. Qed.

Lemma preserves_wbind {A B X : Type} (part : World -> X) (c : W A) (k : A -> W B) :
  preserves part c -> (forall a, preserves part (k a)) -> preserves part (wbind c k).
Proof.
  intros Hc Hk w. unfold wbind. specialize (Hc w).
  destruct (c w) as [[a|e] w']; simpl in *; [rewrite Hk | ]; exact Hc.
Qed.

Lemma preserves_for_each {A X : Type} (part : World -> X) (f : A -> W unit) (l : list A) :
  (forall x, preserves part (f x)) -> preserves part (for_each f l).
Proof.
  intros Hf. induction l as [|x rest IH]; simpl.
  - apply preserves_wret.
  - apply preserves_wbind; [apply Hf | intros _; exact IH].
Qed.

(** After a statement that never returns, what follows does not run. *)
Lemma wbind_never_normal {A B : Type} (c : W A) (k : A -> W B) (w : World) :
  never_normal c -> snd (wbind c k w) = snd (c w).
Proof.
  intros Hc. unfold wbind. specialize (Hc w).
  destruct (c w) as [[a|e] w']; simpl in *; [discriminate | reflexivity].
Qed.

End WorldLemmas.

(** ** [initializeMap] and [initializeWeatherMap] *)

Section Initialize.

(** X15. [initializeMap] never gives the map a falsy centre, zoom or
    style: each option is the configured value when that is truthy and the
    default ([0, 0], 10, satellite) otherwise, so that a configured zoom of
    0 becomes 10.  The map is made for the container and with the key of
    the renderer; it is empty, waits for [ready] with the one handler of
    this call, and replaces any map the renderer had, while the other
    fields of the renderer keep what they held. *)
Theorem initializeMap_defaults
  (containerId : jsval) (config : list (string * jsval)) (w : World) :
  exists m : MapControl,
    initializeMap containerId (VObj config) w = (Normal tt, set_map (Some m) w)
    /\ center (map_options m)
       = (if ToBoolean (lookup "center" config) then lookup "center" config
          else VArr [VNum (lit 0); VNum (lit 0)])
    /\ zoom (map_options m)
       = (if ToBoolean (lookup "zoom" config) then lookup "zoom" config
          else VNum (lit 10))
    /\ style (map_options m)
       = (if ToBoolean (lookup "style" config) then lookup "style" config
          else VStr "satellite")
    /\ ToBoolean (center (map_options m)) = true
    /\ ToBoolean (zoom (map_options m)) = true
    /\ ToBoolean (style (map_options m)) = true
    /\ container_id (map_options m) = containerId
    /\ auth_key (map_options m) = w_subscriptionKey w
    /\ ready_handlers m = [ReadyMap (VObj config)]
    /\ AtlasMap.layers (base m) = [] /\ vector_layers m = [] /\ sources m = []
    /\ camera_center m = None /\ camera_zoom m = None /\ hover_popups m = [].
Proof.
  eexists. split; [reflexivity|]. cbn. unfold js_or.
  destruct (ToBoolean (lookup "center" config)) eqn:C,
           (ToBoolean (lookup "zoom" config)) eqn:Z,
           (ToBoolean (lookup "style" config)) eqn:S;
    repeat split; auto.
Qed.

(** A configured zoom of 0 becomes 10, a configured zoom of 6 stays. *)
Example initializeMap_zoom :
  option_map (fun m => zoom (map_options m))
    (w_map (snd (initializeMap (VStr "map") (VObj [ ("zoom", VNum (lit 0)) ])
                   (new_AzureMapsRenderer "key"))))
  = Some (VNum (lit 10))
  /\ option_map (fun m => zoom (map_options m))
       (w_map (snd (initializeMap (VStr "map") (VObj [ ("zoom", VNum (lit 6)) ])
                      (new_AzureMapsRenderer "key"))))
     = Some (VNum (lit 6)).
Proof. split; reflexivity. Qed.

(** X16. Without a configuration to read, no map is made: [initializeMap]
    on a configuration that is [undefined] or [null], and
    [initializeWeatherMap] on a response without [data] or whose
    [map_config] is [undefined] or [null], end in a TypeError and leave the
    renderer, and the map it may have had, untouched. *)
Theorem initialize_without_config
  (containerId config : jsval) (overlayUrl : option string)
  (weatherData : jsval) (w : World) :
  config = VUndefined \/ config = VNull ->
  initializeMap containerId config w = (Throw TypeError, w)
  /\ initializeWeatherMap containerId None w = (Throw TypeError, w)
  /\ initializeWeatherMap containerId
       (Some {| map_config := config;
                overlay_url := overlayUrl;
                weather_data := weatherData |}) w
     = (Throw TypeError, w).
Proof.
  intros [-> | ->]; repeat split.
Qed.

End Initialize.

Lemma initialize_without_config_witness :
  (VUndefined = VUndefined \/ VUndefined = VNull) /\
  (initializeMap (VStr "map") VUndefined ready_world = (Throw TypeError, ready_world)
   /\ initializeWeatherMap (VStr "map") None ready_world
      = (Throw TypeError, ready_world)
   /\ initializeWeatherMap (VStr "map")
        (Some {| map_config := VUndefined;
                 overlay_url := Some "overlay.png";
                 weather_data := sample_weather |}) ready_world
      = (Throw TypeError, ready_world)).
Proof.
  assert (H : VUndefined = VUndefined \/ VUndefined = VNull) by (left; reflexivity).
  split; [exact H|].
  exact (initialize_without_config (VStr "map") VUndefined (Some "overlay.png")
           sample_weather ready_world H).
Defined.

(** ** [addLayers] and [addDataSources] *)

Section LayersAndSources.

Lemma set_map_same (w : World) (m : MapControl) :
  w_map w = Some m -> set_map (Some (map_with_added [] [] m)) w = w.
Proof.
  destruct w as [key wm ds heat image point errors]; cbn. intros ->.
  destruct m; unfold set_map, map_with_added; cbn.
  now rewrite !app_nil_r.
Qed.

Lemma addLayers_each_on_ready_map
  (config : list (string * jsval)) (w : World) (m : MapControl) :
  w_map w = Some m ->
  addLayers_each (VObj config) w
  = (Normal tt,
     set_map (Some (map_with_added
                      (layers_of_configs (w_dataSources w) [config]) [] m)) w).
Proof.
  intros Hm. unfold addLayers_each, layers_of_configs, layer_of_config.
  cbn [wbind wlift getProp].
  destruct (kind_of_type (lookup "type" config)) as [k|].
  - cbn. unfold map_layers_add_vector, with_map. rewrite Hm.
    unfold stored_source, map_with_added. now rewrite app_nil_r.
  - cbn. now rewrite set_map_same.
Qed.

Lemma addLayers_loop_on_ready_map (configs : list (list (string * jsval))) :
  forall (w : World) (m : MapControl),
    w_map w = Some m ->
    for_each addLayers_each (List.map VObj configs) w
    = (Normal tt,
       set_map (Some (map_with_added
                        (layers_of_configs (w_dataSources w) configs) [] m)) w).
Proof.
  induction configs as [|config rest IH]; intros w m Hm.
  - cbn. now rewrite set_map_same.
  - cbn [List.map for_each]. unfold wbind.
    rewrite (addLayers_each_on_ready_map config w m Hm).
    erewrite IH by reflexivity. cbn [layers_of_configs].
    destruct (layer_of_config (w_dataSources w) config) as [layer|];
      destruct w as [key wm ds heat image point errors], m;
      unfold set_map, map_with_added; cbn;
      rewrite ?app_nil_r, <- ?app_assoc; reflexivity.
Qed.

(** X17. On a renderer whose map is there, [addLayers] on layer
    configurations that are objects returns normally and adds, after the
    layers already on the map and in the order of the configurations, one
    layer for each configuration of type symbol, line or polygon, bound to
    the data source that [this.dataSources] holds for its [source]; the
    configurations of any other type are passed over, and nothing else of
    the renderer changes. *)
Theorem addLayers_on_ready_map
  (configs : list (list (string * jsval))) (w : World) (m : MapControl) :
  w_map w = Some m ->
  addLayers (VArr (List.map VObj configs)) w
  = (Normal tt,
     set_map (Some (map_with_added
                      (layers_of_configs (w_dataSources w) configs) [] m)) w).
Proof.
  intros Hm. unfold addLayers. cbn [wbind wlift as_array].
  now apply addLayers_loop_on_ready_map.
Qed.

Lemma addLayers_loop_without_map (configs : list (list (string * jsval))) (w : World) :
  w_map w = None ->
  for_each addLayers_each (List.map VObj configs) w
  = (if existsb has_known_type configs then Throw TypeError else Normal tt, w).
Proof.
  intros Hm. induction configs as [|config rest IH]; [reflexivity|].
  cbn [List.map for_each existsb]. unfold wbind, addLayers_each at 1, has_known_type at 1.
  cbn [wbind wlift getProp].
  destruct (kind_of_type (lookup "type" config)) as [k|]; cbn.
  - unfold map_layers_add_vector, with_map. now rewrite Hm.
  - exact IH.
Qed.

(** X18. On a renderer that has no map yet, [addLayers] changes nothing;
    it ends in a TypeError as soon as one configuration has a type it
    knows, and returns normally when none has. *)
Theorem addLayers_without_map
  (configs : list (list (string * jsval))) (w : World) :
  w_map w = None ->
  addLayers (VArr (List.map VObj configs)) w
  = (if existsb has_known_type configs then Throw TypeError else Normal tt, w).
Proof.
  intros Hm. unfold addLayers. cbn [wbind wlift as_array].
  now apply addLayers_loop_without_map.
Qed.

End LayersAndSources.

Lemma addLayers_on_ready_map_witness :
  w_map ready_world = Some empty_map /\
  addLayers (VArr (List.map VObj sample_layer_configs)) ready_world
  = (Normal tt,
     set_map (Some (map_with_added
                      (layers_of_configs (w_dataSources ready_world)
                                         sample_layer_configs) [] empty_map))
             ready_world).
Proof.
  assert (H : w_map ready_world = Some empty_map) by reflexivity.
  split; [exact H|].
  exact (addLayers_on_ready_map sample_layer_configs ready_world empty_map H).
Defined.

(** Of the three sample configurations the one of type raster is passed
    over. *)
Example sample_layers_added :
  List.map kind (layers_of_configs [] sample_layer_configs) = [Line; Symbol].
Proof. reflexivity. Qed.

Lemma addLayers_without_map_witness :
  w_map (new_AzureMapsRenderer "key") = None /\
  addLayers (VArr (List.map VObj sample_layer_configs)) (new_AzureMapsRenderer "key")
  = (if existsb has_known_type sample_layer_configs
     then Throw TypeError else Normal tt,
     new_AzureMapsRenderer "key").
Proof.
  assert (H : w_map (new_AzureMapsRenderer "key") = None) by reflexivity.
  split; [exact H|].
  exact (addLayers_without_map sample_layer_configs (new_AzureMapsRenderer "key") H).
Defined.

Section SourcesRoundTrip.

Lemma same_number_sym (x y : number) : same_number x y = same_number y x.
Proof.
  destruct x as [a|a| |a m e], y as [b|b| |b n f]; cbn; try reflexivity.
  - destruct a, b; reflexivity.
  - rewrite (Pos.eqb_sym m n), (Z.eqb_sym e f). destruct a, b; reflexivity.
Qed.

Lemma same_number_trans (x y z : number) :
  same_number x y = true -> same_number y z = true -> same_number x z = true.
Proof.
  destruct x as [a|a| |a m e], y as [b|b| |b n f], z as [c|c| |c o g];
    cbn; try congruence.
  - intros H1 H2. apply Bool.eqb_prop in H1, H2. subst. apply Bool.eqb_reflx.
  - rewrite !andb_true_iff. intros [[A1 A2] A3] [[B1 B2] B3].
    apply Bool.eqb_prop in A1, B1. apply Pos.eqb_eq in A2, B2.
    apply Z.eqb_eq in A3, B3. subst.
    now rewrite Bool.eqb_reflx, Pos.eqb_refl, Z.eqb_refl.
Qed.

Lemma SameValueZero_sym (a b : jsval) : SameValueZero a b = SameValueZero b a.
Proof.
  destruct a as [ | |x|x|x|x|x], b as [ | |y|y|y|y|y]; cbn; try reflexivity.
  - destruct x, y; reflexivity.
  - apply same_number_sym.
  - apply String.eqb_sym.
Qed.

Lemma SameValueZero_trans (a b c : jsval) :
  SameValueZero a b = true -> SameValueZero b c = true -> SameValueZero a c = true.
Proof.
  destruct a, b, c; cbn; try congruence.
  - intros H1 H2. apply Bool.eqb_prop in H1, H2. subst. apply Bool.eqb_reflx.
  - apply same_number_trans.
  - intros H1 H2. apply String.eqb_eq in H1, H2. subst. apply String.eqb_refl.
Qed.

(** What was set under a key is what a key that is the same gets. *)
Lemma JsMap_get_set {V : Type} (key key' : jsval) (value : V) (m : JsMap V) :
  SameValueZero key key' = true ->
  JsMap_get key' (JsMap_set key value m) = Some value.
Proof.
  intros Hk. induction m as [|[k v] rest IH]; cbn.
  - now rewrite Hk.
  - destruct (SameValueZero k key) eqn:E; cbn.
    + now rewrite (SameValueZero_trans k key key' E Hk).
    + destruct (SameValueZero k key') eqn:E'; [|exact IH].
      rewrite (SameValueZero_sym key key') in Hk.
      now rewrite (SameValueZero_trans k key' key E' Hk) in E.
Qed.

Lemma addDataSources_each_geojson
  (config : list (string * jsval)) (w : World) (m : MapControl) :
  w_map w = Some m -> is_geojson config = true ->
  addDataSources_each (VObj config) w
  = (Normal tt,
     set_dataSources
       (register_sources [config] (w_dataSources w))
       (set_map (Some (map_with_added [] [Some (geojson_source config)] m)) w)).
Proof.
  intros Hm Hg. unfold addDataSources_each, is_geojson in *.
  cbn [wbind wlift getProp]. rewrite Hg.
  unfold wbind, map_sources_add, with_map. rewrite Hm.
  destruct w as [key wm ds heat image point errors], m; cbn.
  unfold set_dataSources, set_map, map_with_added; cbn.
  now rewrite app_nil_r.
Qed.

Lemma addDataSources_loop_geojson (configs : list (list (string * jsval))) :
  forall (w : World) (m : MapControl),
    w_map w = Some m -> forallb is_geojson configs = true ->
    for_each addDataSources_each (List.map VObj configs) w
    = (Normal tt,
       set_dataSources
         (register_sources configs (w_dataSources w))
         (set_map (Some (map_with_added []
                           (List.map (fun c => Some (geojson_source c)) configs)
                           m)) w)).
Proof.
  induction configs as [|config rest IH]; intros w m Hm Hg.
  - cbn. rewrite set_map_same by exact Hm. now destruct w.
  - cbn in Hg. apply andb_prop in Hg as [Hc Hrest].
    cbn [List.map for_each]. unfold wbind.
    rewrite (addDataSources_each_geojson config w m Hm Hc).
    erewrite IH; [|reflexivity|exact Hrest].
    destruct w as [key wm ds heat image point errors], m;
      unfold set_dataSources, set_map, map_with_added, register_sources; cbn;
      rewrite ?app_nil_r, <- ?app_assoc; reflexivity.
Qed.

(** X19. On a renderer whose map is there, [addDataSources] on GeoJSON
    source configurations returns normally, hands the map one data source
    per configuration, in their order, each made of the [id] and the
    [data] of its configuration, and registers each under its [id] in
    [this.dataSources], a later configuration replacing an earlier one of
    the same [id]; nothing else of the renderer changes. *)
Theorem addDataSources_on_ready_map
  (configs : list (list (string * jsval))) (w : World) (m : MapControl) :
  w_map w = Some m -> forallb is_geojson configs = true ->
  addDataSources (VArr (List.map VObj configs)) w
  = (Normal tt,
     set_dataSources
       (register_sources configs (w_dataSources w))
       (set_map (Some (map_with_added []
                         (List.map (fun c => Some (geojson_source c)) configs)
                         m)) w)).
Proof.
  intros Hm Hg. unfold addDataSources. cbn [wbind wlift as_array].
  now apply addDataSources_loop_geojson.
Qed.

(** X20. What [addDataSources] registers, [addLayers] finds: after the
    GeoJSON source configurations [before] and then [config] were added, a
    layer configuration of a known type whose [source] is the [id] of
    [config] gets a layer bound to the data source made of [config], also
    when a configuration of [before] has the same [id]. *)
Theorem layer_finds_registered_source
  (before : list (list (string * jsval))) (config layerConfig : list (string * jsval))
  (k : VectorKind) (w : World) (m : MapControl) :
  w_map w = Some m ->
  forallb is_geojson (before ++ [config]) = true ->
  SameValueZero (lookup "id" config) (lookup "source" layerConfig) = true ->
  kind_of_type (lookup "type" layerConfig) = Some k ->
  exists w' : World,
    wbind (addDataSources (VArr (List.map VObj (before ++ [config]))))
          (fun _ => addLayers (VArr [VObj layerConfig])) w
    = (Normal tt, w')
    /\ option_map vector_layers (w_map w')
       = Some (vector_layers m
               ++ [ {| kind := k;
                       layer_source := Some (geojson_source config);
                       layer_id := lookup "id" layerConfig;
                       layer_options := lookup "options" layerConfig |} ])%list.
Proof.
  intros Hm Hg Hid Hk. unfold addDataSources, addLayers, wbind.
  cbn [wlift as_array].
  rewrite (addDataSources_loop_geojson _ w m Hm Hg).
  change [VObj layerConfig] with (List.map VObj [layerConfig]).
  erewrite addLayers_loop_on_ready_map by (destruct w; reflexivity).
  eexists. split; [reflexivity|].
  destruct w as [key wm ds heat image point errors], m. cbn.
  unfold layer_of_config, stored_source. rewrite Hk.
  unfold register_sources. rewrite fold_left_app. cbn [fold_left].
  rewrite (JsMap_get_set _ _ _ _ Hid). rewrite app_nil_r. reflexivity.
Qed.

End SourcesRoundTrip.

Lemma addDataSources_on_ready_map_witness :
  (w_map ready_world = Some empty_map /\
   forallb is_geojson sample_source_configs = true) /\
  addDataSources (VArr (List.map VObj sample_source_configs)) ready_world
  = (Normal tt,
     set_dataSources
       (register_sources sample_source_configs (w_dataSources ready_world))
       (set_map (Some (map_with_added []
                         (List.map (fun c => Some (geojson_source c))
                                   sample_source_configs)
                         empty_map)) ready_world)).
Proof.
  assert (H1 : w_map ready_world = Some empty_map) by reflexivity.
  assert (H2 : forallb is_geojson sample_source_configs = true) by reflexivity.
  split; [exact (conj H1 H2)|].
  exact (addDataSources_on_ready_map sample_source_configs ready_world empty_map H1 H2).
Defined.

Lemma layer_finds_registered_source_witness :
  (w_map ready_world = Some empty_map /\
   forallb is_geojson
     (sample_source_configs
      ++ [ [ ("type", VStr "geojson"); ("id", VStr "rivers");
             ("data", VArr [VStr "updated"]) ] ]) = true /\
   SameValueZero
     (lookup "id" [ ("type", VStr "geojson"); ("id", VStr "rivers");
                    ("data", VArr [VStr "updated"]) ])
     (lookup "source" [ ("type", VStr "line"); ("source", VStr "rivers");
                        ("id", VStr "river-lines") ]) = true /\
   kind_of_type
     (lookup "type" [ ("type", VStr "line"); ("source", VStr "rivers");
                      ("id", VStr "river-lines") ]) = Some Line) /\
  exists w' : World,
    wbind (addDataSources
             (VArr (List.map VObj
                      (sample_source_configs
                       ++ [ [ ("type", VStr "geojson"); ("id", VStr "rivers");
                              ("data", VArr [VStr "updated"]) ] ]))))
          (fun _ => addLayers
                      (VArr [VObj [ ("type", VStr "line");
                                    ("source", VStr "rivers");
                                    ("id", VStr "river-lines") ]])) ready_world
    = (Normal tt, w')
    /\ option_map vector_layers (w_map w')
       = Some (vector_layers empty_map
               ++ [ {| kind := Line;
                       layer_source :=
                         Some (geojson_source
                                 [ ("type", VStr "geojson"); ("id", VStr "rivers");
                                   ("data", VArr [VStr "updated"]) ]);
                       layer_id :=
                         lookup "id" [ ("type", VStr "line");
                                       ("source", VStr "rivers");
                                       ("id", VStr "river-lines") ];
                       layer_options :=
                         lookup "options" [ ("type", VStr "line");
                                            ("source", VStr "rivers");
                                            ("id", VStr "river-lines") ] |} ])%list.
Proof.
  assert (H1 : w_map ready_world = Some empty_map) by reflexivity.
  assert (H2 : forallb is_geojson
                 (sample_source_configs
                  ++ [ [ ("type", VStr "geojson"); ("id", VStr "rivers");
                         ("data", VArr [VStr "updated"]) ] ]) = true)
    by reflexivity.
  assert (H3 : SameValueZero
                 (lookup "id" [ ("type", VStr "geojson"); ("id", VStr "rivers");
                                ("data", VArr [VStr "updated"]) ])
                 (lookup "source" [ ("type", VStr "line"); ("source", VStr "rivers");
                                    ("id", VStr "river-lines") ]) = true)
    by reflexivity.
  assert (H4 : kind_of_type
                 (lookup "type" [ ("type", VStr "line"); ("source", VStr "rivers");
                                  ("id", VStr "river-lines") ]) = Some Line)
    by reflexivity.
  split; [exact (conj H1 (conj H2 (conj H3 H4)))|].
  exact (layer_finds_registered_source sample_source_configs _ _ Line
           ready_world empty_map H1 H2 H3 H4).
Defined.

(** ** [addInteractivePoints] *)

Section InteractivePoints.

Lemma map_each_make_feature (points : list (list (string * jsval))) :
  map_each make_feature (List.map VObj points)
  = Normal (List.map feature_of_point points).
Proof.
  induction points as [|point rest IH]; [reflexivity|].
  cbn [List.map map_each]. rewrite IH. reflexivity.
Qed.

Lemma make_feature_ok (point : jsval) : ok_or_TypeError (make_feature point).
Proof. destruct point; cbn; auto. Qed.

(** X21. With data points that are objects, on a renderer whose map is
    there, [addInteractivePoints] returns normally after handing the map
    one data source with one feature per data point, in their order, each
    with the longitude, latitude, value and title of its point; the symbol
    layer on that source is the last layer of the map and is kept in
    [this.pointLayer], and one popup is attached to it. *)
Theorem addInteractivePoints_on_ready_map
  (config : list (string * jsval)) (points : list (list (string * jsval)))
  (w : World) (m : MapControl) :
  w_map w = Some m ->
  points <> [] ->
  lookup "data_points" config = VArr (List.map VObj points) ->
  exists w' : World,
    addInteractivePoints (VObj config) w = (Normal tt, w')
    /\ w_pointLayer w' = Some (point_layer points)
    /\ w_map w'
       = Some {| base := base m;
                 map_options := map_options m;
                 camera_center := camera_center m;
                 camera_zoom := camera_zoom m;
                 vector_layers := vector_layers m ++ [point_layer points];
                 sources := sources m ++ [Some (point_source points)];
                 ready_handlers := ready_handlers m;
                 hover_popups :=
                   hover_popups m ++ [HoverLayer (Some (point_layer points))] |}
    /\ w_imageLayer w' = w_imageLayer w
    /\ w_dataSources w' = w_dataSources w.
Proof.
  intros Hm Hne Hdp. unfold addInteractivePoints.
  cbn [wbind wlift getProp]. rewrite Hdp.
  assert (G : negb (ToBoolean (VArr (List.map VObj points)))
              || length_is_zero (VArr (List.map VObj points)) = false)
    by (destruct points; [congruence | reflexivity]).
  rewrite G. unfold wbind at 1. cbn [wlift as_array].
  unfold wbind at 1. cbn [wlift]. rewrite map_each_make_feature.
  destruct w as [key wm ds heat image point errors]. cbn in Hm. subst wm.
  eexists. split; [reflexivity|].
  cbn. repeat split.
Qed.

(** X22. Without data points there is nothing to do: when the
    configuration has no [data_points], or a falsy one, or an empty array,
    [addInteractivePoints] returns normally and changes nothing, whether
    the renderer has a map or not. *)
Theorem addInteractivePoints_without_points (config : list (string * jsval)) (w : World) :
  ToBoolean (lookup "data_points" config) = false
  \/ lookup "data_points" config = VArr [] ->
  addInteractivePoints (VObj config) w = (Normal tt, w).
Proof.
  intros H. unfold addInteractivePoints. cbn [wbind wlift getProp].
  destruct H as [H| ->]; [rewrite H|]; reflexivity.
Qed.

End InteractivePoints.

Lemma addInteractivePoints_on_ready_map_witness :
  (w_map ready_world = Some empty_map /\
   [sample_point; text_point] <> [] /\
   lookup "data_points"
     [ ("data_points", VArr (List.map VObj [sample_point; text_point])) ]
   = VArr (List.map VObj [sample_point; text_point])) /\
  exists w' : World,
    addInteractivePoints
      (VObj [ ("data_points", VArr (List.map VObj [sample_point; text_point])) ])
      ready_world
    = (Normal tt, w')
    /\ w_pointLayer w' = Some (point_layer [sample_point; text_point])
    /\ w_map w'
       = Some {| base := base empty_map;
                 map_options := map_options empty_map;
                 camera_center := camera_center empty_map;
                 camera_zoom := camera_zoom empty_map;
                 vector_layers :=
                   vector_layers empty_map ++ [point_layer [sample_point; text_point]];
                 sources :=
                   sources empty_map ++ [Some (point_source [sample_point; text_point])];
                 ready_handlers := ready_handlers empty_map;
                 hover_popups :=
                   hover_popups empty_map
                   ++ [HoverLayer (Some (point_layer [sample_point; text_point]))] |}
    /\ w_imageLayer w' = w_imageLayer ready_world
    /\ w_dataSources w' = w_dataSources ready_world.
Proof.
  assert (H1 : w_map ready_world = Some empty_map) by reflexivity.
  assert (H2 : [sample_point; text_point] <> []) by discriminate.
  assert (H3 : lookup "data_points"
                 [ ("data_points", VArr (List.map VObj [sample_point; text_point])) ]
               = VArr (List.map VObj [sample_point; text_point])) by reflexivity.
  split; [exact (conj H1 (conj H2 H3))|].
  exact (addInteractivePoints_on_ready_map _ _ ready_world empty_map H1 H2 H3).
Defined.

Lemma addInteractivePoints_without_points_witness :
  (ToBoolean (lookup "data_points" [ ("zoom", VNum (lit 4)) ]) = false
   \/ lookup "data_points" [ ("zoom", VNum (lit 4)) ] = VArr []) /\
  addInteractivePoints (VObj [ ("zoom", VNum (lit 4)) ]) (new_AzureMapsRenderer "key")
  = (Normal tt, new_AzureMapsRenderer "key").
Proof.
  assert (H : ToBoolean (lookup "data_points" [ ("zoom", VNum (lit 4)) ]) = false
              \/ lookup "data_points" [ ("zoom", VNum (lit 4)) ] = VArr [])
    by (left; reflexivity).
  split; [exact H|].
  exact (addInteractivePoints_without_points _ (new_AzureMapsRenderer "key") H).
Defined.

(** ** The weather methods and the legend *)

Section Weather.

Variable engine : Engine.
Variable shortest_decimal : positive -> Z -> string.
Variable invoke : string -> list jsval -> M jsval.
Variable string_to_number : string -> number.

Lemma on_core_addLegend (legend colorScheme valueRange : jsval) (w : World) :
  on_core (addLegend shortest_decimal invoke legend colorScheme valueRange) w
  = (Throw TypeError, w).
Proof.
  unfold on_core. rewrite addLegend_throws. now rewrite with_core_core.
Qed.

Lemma never_normal_addLegend (legend colorScheme valueRange : jsval) :
  never_normal
    (on_core (addLegend shortest_decimal invoke legend colorScheme valueRange)).
Proof. intros w. now rewrite on_core_addLegend. Qed.

Lemma on_core_addPNGOverlay_normal
  (overlayUrl : string) (weatherData : jsval) (w : World) :
  fst (on_core (addPNGOverlay engine shortest_decimal string_to_number
                           overlayUrl weatherData) w) = Normal tt.
Proof.
  unfold on_core.
  pose proof (addPNGOverlay_never_throws engine shortest_decimal string_to_number
                overlayUrl weatherData (core w)) as H.
  destruct (addPNGOverlay engine shortest_decimal string_to_number
                           overlayUrl weatherData (core w)) as [r s]. exact H.
Qed.

Lemma safe_on_core_addPNGOverlay
  (overlayUrl : string) (weatherData : jsval) :
  safe (on_core (addPNGOverlay engine shortest_decimal string_to_number
                           overlayUrl weatherData)).
Proof. intros w. now rewrite on_core_addPNGOverlay_normal. Qed.

Lemma safe_total {A : Type} (c : W A) :
  (forall w, exists a, fst (c w) = Normal a) -> safe c.
Proof. intros H w. destruct (H w) as [a ->]. exact I. Qed.

Ltac safe_step :=
  first
    [ apply safe_wret
    | apply safe_on_core_addPNGOverlay
    | apply safe_with_map
    | apply safe_wlift;
      first [ apply getProp_ok | apply as_array_ok
            | apply map_each_ok; apply make_feature_ok ]
    | apply safe_wbind; [|intros ?]
    | apply safe_total; intros ?; eexists; reflexivity ].

Lemma safe_addWeatherPopups (dataSource : DataSource) :
  safe (addWeatherPopups dataSource).
Proof.
  intros w. unfold addWeatherPopups, map_events_add_hover, with_map.
  destruct (w_map w); simpl; auto.
Qed.

Lemma safe_addInteractivePoints (config : jsval) : safe (addInteractivePoints config).
Proof.
  unfold addInteractivePoints.
  apply safe_wbind; [apply safe_wlift, getProp_ok|intros data_points].
  destruct (negb (ToBoolean data_points) || length_is_zero data_points);
    [safe_step|].
  repeat first [apply safe_addWeatherPopups | safe_step].
Qed.

Lemma never_normal_show_weather (data : ResponseData) :
  never_normal (show_weather engine shortest_decimal invoke string_to_number data).
Proof.
  unfold show_weather.
  apply never_normal_wbind_r;
    [destruct (truthy_url (overlay_url data)); safe_step|intros _].
  apply never_normal_wbind_r; [apply safe_addInteractivePoints|intros _].
  apply never_normal_wbind_r; [safe_step|intros legend].
  apply never_normal_wbind_r; [safe_step|intros color_scheme].
  apply never_normal_wbind_r; [safe_step|intros value_range].
  apply never_normal_addLegend.
Qed.

Lemma safe_drop_imageLayer : safe drop_imageLayer.
Proof.
  intros w. unfold drop_imageLayer. destruct (w_imageLayer w); [|exact I].
  unfold wbind, with_map. destruct (w_map w); simpl; auto.
Qed.

Lemma safe_drop_pointLayer : safe drop_pointLayer.
Proof.
  intros w. unfold drop_pointLayer. destruct (w_pointLayer w); [|exact I].
  unfold wbind, with_map. destruct (w_map w); simpl; auto.
Qed.

(** X23. None of the methods that show weather data returns normally:
    [updateWeatherData], [addWeatherData] and the [ready] handler of
    [initializeWeatherMap] end in a TypeError for every response, every
    configuration and every state of the renderer, each of them either
    before it reaches [addLegend] or in it. *)
Theorem weather_methods_never_return
  (data : ResponseData) (response : option ResponseData) (config : jsval) (w : World) :
  fst (run_ready engine shortest_decimal invoke string_to_number
         (ReadyWeatherMap data) w) = Throw TypeError
  /\ fst (updateWeatherData engine shortest_decimal invoke string_to_number
            response w) = Throw TypeError
  /\ fst (addWeatherData shortest_decimal invoke config w) = Throw TypeError.
Proof.
  split; [apply never_normal_show_weather|]. split.
  - revert w.
    change (never_normal (updateWeatherData engine shortest_decimal invoke
                            string_to_number response)).
    unfold updateWeatherData.
    apply never_normal_wbind_r; [apply safe_drop_imageLayer|intros _].
    apply never_normal_wbind_r; [apply safe_drop_pointLayer|intros _].
    apply never_normal_wbind_r; [safe_step|intros _].
    apply never_normal_wbind_r;
      [apply safe_wlift; destruct response; simpl; auto|intros d].
    apply never_normal_show_weather.
  - revert w. change (never_normal (addWeatherData shortest_decimal invoke config)).
    unfold addWeatherData.
    repeat (apply never_normal_wbind_r; [safe_step|intros ?]).
    apply never_normal_wbind_l. apply never_normal_addLegend.
Qed.

End Weather.

Section WeatherState.

Variable engine : Engine.
Variable shortest_decimal : positive -> Z -> string.
Variable invoke : string -> list jsval -> M jsval.
Variable string_to_number : string -> number.

Lemma wbind_normal {A B : Type} (c : W A) (k : A -> W B) (w : World) (a : A) :
  fst (c w) = Normal a -> wbind c k w = k a (snd (c w)).
Proof. unfold wbind. destruct (c w) as [[a'|e] w']; simpl; congruence. Qed.

Lemma preserves_wbind_never {A B X : Type}
  (part : World -> X) (c : W A) (k : A -> W B) :
  never_normal c -> preserves part c -> preserves part (wbind c k).
Proof.
  intros Hn Hp w. rewrite (wbind_never_normal c k w Hn). apply Hp.
Qed.

Lemma preserves_with_map {X : Type} (part : World -> X)
  (update : MapControl -> MapControl) :
  (forall w m, w_map w = Some m -> part (set_map (Some (update m)) w) = part w) ->
  preserves part (with_map update).
Proof.
  intros H w. unfold with_map. destruct (w_map w) as [m|] eqn:E; [|reflexivity].
  cbn. now apply H.
Qed.

Lemma preserves_addLegend {X : Type} (part : World -> X)
  (legend colorScheme valueRange : jsval) :
  preserves part
    (on_core (addLegend shortest_decimal invoke legend colorScheme valueRange)).
Proof. intros w. now rewrite on_core_addLegend. Qed.

Ltac hover_step :=
  first
    [ apply preserves_wret
    | apply preserves_wlift
    | apply preserves_with_map; intros ? ? E; unfold hover_of; cbn; rewrite E;
      reflexivity
    | (intros ?; reflexivity)
    | apply preserves_wbind; [|intros ?] ].

(** X24. [addWeatherData] never attaches the popups of its data points:
    whatever the configuration and the state, the popups attached to the
    map after the call are those attached before, as the call ends in
    [addLegend] or earlier and never comes to [addWeatherPopups]. *)
Theorem addWeatherData_attaches_no_popup (config : jsval) (w : World) :
  hover_of (snd (addWeatherData shortest_decimal invoke config w)) = hover_of w.
Proof.
  revert w.
  change (preserves hover_of (addWeatherData shortest_decimal invoke config)).
  unfold addWeatherData.
  do 13 (apply preserves_wbind; [hover_step|intros ?]).
  apply preserves_wbind_never;
    [apply never_normal_addLegend | apply preserves_addLegend].
Qed.

(** X25. With data points that are objects and a [heat_map_config] that is
    an object, on a renderer whose map is there, [addWeatherData] has put
    the heat map layer on the map, coloured by the gradient that
    [getColorGradient] gives for the colour scheme of the configuration,
    and has kept it in [this.heatMapLayer], when it fails in [addLegend]. *)
Theorem addWeatherData_heat_layer
  (config : list (string * jsval)) (points : list (list (string * jsval)))
  (heat : list (string * jsval)) (w : World) (m : MapControl) :
  w_map w = Some m ->
  lookup "data_points" config = VArr (List.map VObj points) ->
  lookup "heat_map_config" config = VObj heat ->
  exists w' : World,
    addWeatherData shortest_decimal invoke (VObj config) w = (Throw TypeError, w')
    /\ w_heatMapLayer w' = Some (heat_layer config points heat)
    /\ option_map vector_layers (w_map w')
       = Some (vector_layers m ++ [heat_layer config points heat])%list
    /\ option_map sources (w_map w')
       = Some (sources m ++ [Some (point_source points)])%list.
Proof.
  intros Hm Hdp Hheat. unfold addWeatherData.
  cbn [wbind wlift getProp]. rewrite Hdp.
  unfold wbind at 1. cbn [wlift as_array].
  unfold wbind at 1. cbn [wlift]. rewrite map_each_make_feature.
  destruct w as [key wm ds heat0 image point errors]. cbn in Hm. subst wm.
  unfold wbind at 1. cbn [map_sources_add with_map w_map fst snd].
  cbn [wbind wlift getProp]. rewrite Hheat. cbn [wbind wlift getProp].
  unfold wbind at 1. cbn [map_layers_add_vector with_map w_map set_map].
  unfold wbind at 1. cbn [set_heatMapLayer].
  cbn [wbind wlift getProp].
  unfold wbind. rewrite on_core_addLegend.
  eexists. split; [reflexivity|]. repeat split.
Qed.

Lemma identical_number_refl (x : number) : identical_number x x = true.
Proof.
  destruct x as [s|s| |s m e]; cbn; try reflexivity;
    try (destruct s; reflexivity).
  now rewrite Bool.eqb_reflx, Pos.eqb_refl, Z.eqb_refl.
Qed.

Lemma same_image_layer_refl (l : Layer) : same_image_layer l l = true.
Proof.
  destruct l as [[u cs o]]. cbn.
  rewrite String.eqb_refl, identical_number_refl. rewrite andb_true_r. cbn.
  induction cs as [|[a b] rest IH]; cbn; [reflexivity|].
  now rewrite !identical_number_refl, IH.
Qed.

Lemma remove_last_app_last {A : Type} (same : A -> A -> bool) (x : A) (l : list A) :
  same x x = true -> remove_last same x (l ++ [x]) = l.
Proof.
  intros Hx. induction l as [|y rest IH]; cbn.
  - now rewrite Hx.
  - rewrite existsb_app. cbn [existsb]. rewrite Hx. cbn [orb].
    rewrite orb_true_r. cbn [negb]. rewrite andb_false_r. now rewrite IH.
Qed.

Ltac overlay_step :=
  first
    [ apply preserves_wret
    | apply preserves_wlift
    | apply preserves_with_map; intros ? ? E; unfold overlay_of, image_layers_of;
      cbn; rewrite E; reflexivity
    | (intros ?; reflexivity)
    | apply preserves_wbind; [|intros ?] ].

Lemma preserves_overlay_addWeatherPopups (dataSource : DataSource) :
  preserves overlay_of (addWeatherPopups dataSource).
Proof.
  intros w. unfold addWeatherPopups, map_events_add_hover, with_map.
  destruct (w_map w) as [m|] eqn:E; [|reflexivity].
  unfold overlay_of, image_layers_of. cbn. now rewrite E.
Qed.

Lemma preserves_overlay_addInteractivePoints (config : jsval) :
  preserves overlay_of (addInteractivePoints config).
Proof.
  unfold addInteractivePoints.
  apply preserves_wbind; [apply preserves_wlift|intros data_points].
  destruct (negb (ToBoolean data_points) || length_is_zero data_points);
    [overlay_step|].
  repeat first [apply preserves_overlay_addWeatherPopups | overlay_step].
Qed.

Lemma show_weather_overlay (data : ResponseData) (w : World) :
  overlay_of (snd (show_weather engine shortest_decimal invoke string_to_number data w))
  = match truthy_url (overlay_url data) with
    | Some overlayUrl =>
        overlay_of (snd (on_core (addPNGOverlay engine shortest_decimal string_to_number
                           overlayUrl (weather_data data)) w))
    | None => overlay_of w
    end.
Proof.
  unfold show_weather.
  assert (T : preserves overlay_of
                (wbind (addInteractivePoints (map_config data)) (fun _ =>
                 wbind (wlift (getProp (map_config data) "legend")) (fun legend =>
                 wbind (wlift (getProp (map_config data) "color_scheme"))
                       (fun color_scheme =>
                 wbind (wlift (getProp (map_config data) "value_range"))
                       (fun value_range =>
                 on_core (addLegend shortest_decimal invoke legend color_scheme
                                    value_range))))))).
  { apply preserves_wbind; [apply preserves_overlay_addInteractivePoints|intros _].
    do 3 (apply preserves_wbind; [apply preserves_wlift|intros ?]).
    apply preserves_addLegend. }
  destruct (truthy_url (overlay_url data)) as [overlayUrl|].
  - rewrite (wbind_normal _ _ _ tt (on_core_addPNGOverlay_normal _ _ _ _ _ _)).
    apply T.
  - unfold wbind at 1. cbn [wret]. apply T.
Qed.

(** What the overlay code leaves of the overlay, run in the world. *)
Lemma on_core_addPNGOverlay_overlay
  (overlayUrl : string) (weatherData : jsval) (w : World)
  (m : MapControl) (shown : list Layer) :
  w_map w = Some m -> AtlasMap.layers (base m) = shown -> w_imageLayer w = None ->
  overlay_of (snd (on_core (addPNGOverlay engine shortest_decimal string_to_number
                              overlayUrl weatherData) w))
  = match computeBounds engine shortest_decimal string_to_number weatherData with
    | Normal b =>
        (Some (overlay_layer overlayUrl b),
         Some (shown ++ [overlay_layer overlayUrl b])%list)
    | Throw _ => (None, Some shown)
    end.
Proof.
  intros Hm Hshown Himage.
  destruct w as [key wm ds heat image point errors]. cbn in Hm, Himage. subst.
  unfold on_core, core. cbn [w_map w_imageLayer w_subscriptionKey w_console_errors
                             option_map].
  destruct (computeBounds engine shortest_decimal string_to_number weatherData)
    as [b|e] eqn:B.
  - rewrite (addPNGOverlay_on_ready_map _ _ _ _ _ _ _ _ _ _ B). reflexivity.
  - rewrite (addPNGOverlay_without_bounds _ _ _ _ _ _ _ B).
    unfold overlay_of, image_layers_of. cbn. reflexivity.
Qed.

(** X26. [updateWeatherData] replaces the overlay instead of stacking it:
    on a renderer whose [this.imageLayer] is the image layer added last to
    its map, the call takes that layer off the map, and the image layers
    are then the earlier ones followed by the overlay of the response, if
    the response has a URL and weather data of which [addPNGOverlay]
    computes the bounds; [this.imageLayer] is that new overlay, or [null]
    when there is none, as when the coordinate arrays are longer than the
    engine takes.  This holds although the call ends in a TypeError. *)
Theorem updateWeatherData_replaces_overlay
  (data : ResponseData) (w : World) (m : MapControl)
  (old : Layer) (earlier : list Layer) :
  w_map w = Some m ->
  w_imageLayer w = Some old ->
  AtlasMap.layers (base m) = (earlier ++ [old])%list ->
  overlay_of (snd (updateWeatherData engine shortest_decimal invoke
                     string_to_number (Some data) w))
  = (overlay_of_response data
       (computeBounds engine shortest_decimal string_to_number (weather_data data)),
     Some (earlier
           ++ match overlay_of_response data
                      (computeBounds engine shortest_decimal string_to_number
                         (weather_data data)) with
              | Some layer => [layer]
              | None => []
              end)%list).
Proof.
  intros Hm Himage Hlayers. unfold updateWeatherData.
  destruct w as [key wm ds heat image point errors]. cbn in Hm, Himage. subst.
  destruct m as [[layers cam cont] mo cc cz vl ss rh hp]. cbn in Hlayers. subst.
  unfold wbind at 1. unfold drop_imageLayer at 1.
  cbn [w_imageLayer wbind with_map w_map set_map base with_base
       AtlasMap.layers AtlasMap.camera AtlasMap.container
       w_subscriptionKey w_dataSources w_heatMapLayer w_pointLayer
       w_console_errors map_options camera_center camera_zoom vector_layers
       sources ready_handlers hover_popups].
  rewrite (remove_last_app_last _ _ _ (same_image_layer_refl old)).
  unfold wbind at 1. unfold drop_pointLayer at 1. cbn [w_pointLayer].
  destruct point as [pl|];
    cbn [wbind with_map w_map set_map set_pointLayer fst snd
         w_subscriptionKey w_dataSources w_heatMapLayer w_pointLayer w_imageLayer
         w_console_errors base map_options camera_center camera_zoom
         vector_layers sources ready_handlers hover_popups];
    unfold wbind at 1;
    cbn [map_sources_clear with_map w_map set_map fst snd
         w_subscriptionKey w_dataSources w_heatMapLayer w_pointLayer w_imageLayer
         w_console_errors base map_options camera_center camera_zoom
         vector_layers sources ready_handlers hover_popups];
    unfold wbind at 1; cbn [wlift];
    rewrite show_weather_overlay; unfold overlay_of_response;
    destruct (truthy_url (overlay_url data)) as [overlayUrl|];
    try (unfold overlay_of, image_layers_of; cbn; now rewrite app_nil_r);
    (erewrite on_core_addPNGOverlay_overlay; [|reflexivity|reflexivity|reflexivity]);
    destruct (computeBounds engine shortest_decimal string_to_number
                (weather_data data));
    cbn; rewrite ?app_nil_r; reflexivity.
Qed.

End WeatherState.

Lemma addWeatherData_heat_layer_witness :
  (w_map ready_world = Some empty_map /\
   lookup "data_points" sample_heat_config = VArr (List.map VObj [sample_point]) /\
   lookup "heat_map_config" sample_heat_config
   = VObj [ ("radius", VNum (lit 20)); ("opacity", VNum (lit 0.8));
            ("intensity", VNum (lit 1)) ]) /\
  exists w' : World,
    addWeatherData sample_shortest_decimal sample_invoke (VObj sample_heat_config)
                   ready_world
    = (Throw TypeError, w')
    /\ w_heatMapLayer w'
       = Some (heat_layer sample_heat_config [sample_point]
                 [ ("radius", VNum (lit 20)); ("opacity", VNum (lit 0.8));
                   ("intensity", VNum (lit 1)) ])
    /\ option_map vector_layers (w_map w')
       = Some (vector_layers empty_map
               ++ [heat_layer sample_heat_config [sample_point]
                     [ ("radius", VNum (lit 20)); ("opacity", VNum (lit 0.8));
                       ("intensity", VNum (lit 1)) ]])%list
    /\ option_map sources (w_map w')
       = Some (sources empty_map ++ [Some (point_source [sample_point])])%list.
Proof.
  assert (H1 : w_map ready_world = Some empty_map) by reflexivity.
  assert (H2 : lookup "data_points" sample_heat_config
               = VArr (List.map VObj [sample_point])) by reflexivity.
  assert (H3 : lookup "heat_map_config" sample_heat_config
               = VObj [ ("radius", VNum (lit 20)); ("opacity", VNum (lit 0.8));
                        ("intensity", VNum (lit 1)) ]) by reflexivity.
  split; [exact (conj H1 (conj H2 H3))|].
  exact (addWeatherData_heat_layer sample_shortest_decimal sample_invoke
           sample_heat_config [sample_point] _ ready_world empty_map H1 H2 H3).
Defined.

Lemma updateWeatherData_replaces_overlay_witness :
  (w_map world_with_overlay = Some overlay_map /\
   w_imageLayer world_with_overlay = Some old_overlay /\
   AtlasMap.layers (base overlay_map) = ([] ++ [old_overlay])%list) /\
  overlay_of (snd (updateWeatherData sample_engine sample_shortest_decimal sample_invoke
      sample_string_to_number
                     (Some sample_response) world_with_overlay))
  = (overlay_of_response sample_response
       (computeBounds sample_engine sample_shortest_decimal
          sample_string_to_number (weather_data sample_response)),
     Some ([]
           ++ match overlay_of_response sample_response
                      (computeBounds sample_engine sample_shortest_decimal
                         sample_string_to_number
                         (weather_data sample_response)) with
              | Some layer => [layer]
              | None => []
              end)%list).
Proof.
  assert (H1 : w_map world_with_overlay = Some overlay_map) by reflexivity.
  assert (H2 : w_imageLayer world_with_overlay = Some old_overlay) by reflexivity.
  assert (H3 : AtlasMap.layers (base overlay_map) = ([] ++ [old_overlay])%list)
    by reflexivity.
  split; [exact (conj H1 (conj H2 H3))|].
  exact (updateWeatherData_replaces_overlay sample_engine sample_shortest_decimal
           sample_invoke sample_string_to_number sample_response
           world_with_overlay overlay_map old_overlay [] H1 H2 H3).
Defined.

(** The renderer with the old overlay is what [addPNGOverlay] leaves. *)
Example world_with_overlay_made :
  snd (on_core (addPNGOverlay sample_engine sample_shortest_decimal
                  sample_string_to_number "old.png" other_weather) ready_world)
  = world_with_overlay.
Proof. reflexivity. Qed.

(** The overlay of the sample response takes the place of the old one. *)
Example sample_update_shows_new_overlay :
  overlay_of (snd (updateWeatherData sample_engine sample_shortest_decimal
                     sample_invoke sample_string_to_number
                     (Some sample_response) world_with_overlay))
  = (Some (overlay_layer "overlay.png" (extent sample_lons sample_lats)),
     Some [overlay_layer "overlay.png" (extent sample_lons sample_lats)]).
Proof. reflexivity. Qed.

(** ** [searchLocation] *)

Section Search.

Variable shortest_decimal : positive -> Z -> string.
Variable string_to_number : string -> number.

(** X27. When the search answers with a non-empty array of results whose
    first entry has a [position] object, on a renderer whose map is there,
    the camera goes to [lon, lat] of that first entry at zoom 15 and a pin
    on that point is added as the last data source and the last layer of
    the map; the other results play no part, and nothing is reported. *)
Theorem searchLocation_first_result
  (result location position : list (string * jsval)) (others : list jsval)
  (w : World) (m : MapControl) :
  w_map w = Some m ->
  lookup "results" result = VArr (VObj location :: others) ->
  lookup "position" location = VObj position ->
  searchLocation_response shortest_decimal string_to_number (Normal (VObj result)) w
  = (Normal tt,
     set_map (Some (map_with_pin (lookup "lon" position) (lookup "lat" position) m))
             w).
Proof.
  intros Hm Hres Hpos. unfold searchLocation_response, wtry.
  cbn [wbind wlift getProp]. rewrite Hres.
  cbn [ToBoolean length_is_positive List.length Nat.eqb negb andb].
  cbn [wbind wlift getIndex nth getProp]. rewrite Hpos.
  cbn [wbind wlift getProp].
  destruct w as [key wm ds heat image point errors]. cbn in Hm. subst wm.
  reflexivity.
Qed.

(** X28. When the search answers with no [results], a falsy one or an
    empty array, nothing changes and nothing is reported, whether the
    renderer has a map or not; and when the request itself fails, the map
    is not touched and the failure is reported once to the console.  The
    caller sees a normal return in each case. *)
Theorem searchLocation_without_results
  (result : list (string * jsval)) (w : World) :
  ToBoolean (lookup "results" result) = false
  \/ lookup "results" result = VArr [] ->
  searchLocation_response shortest_decimal string_to_number (Normal (VObj result)) w
  = (Normal tt, w)
  /\ forall e : exn,
       fst (searchLocation_response shortest_decimal string_to_number (Throw e) w)
       = Normal tt
       /\ w_map (snd (searchLocation_response shortest_decimal string_to_number
                        (Throw e) w)) = w_map w
       /\ w_console_errors
            (snd (searchLocation_response shortest_decimal string_to_number
                    (Throw e) w))
          = (w_console_errors w ++ [e])%list.
Proof.
  intros H. split.
  - unfold searchLocation_response, wtry. cbn [wbind wlift getProp].
    destruct H as [H| ->]; [rewrite H|]; reflexivity.
  - intros e. repeat split.
Qed.

End Search.

Lemma searchLocation_first_result_witness :
  (w_map ready_world = Some empty_map /\
   lookup "results" sample_search_result
   = VArr (VObj [ ("position", VObj [ ("lat", VNum (lit 27.95));
                                      ("lon", VNum (lit (-82.45))) ]) ]
           :: [ VObj [ ("position", VObj [ ("lat", VNum (lit 40));
                                           ("lon", VNum (lit (-75))) ]) ] ]) /\
   lookup "position" [ ("position", VObj [ ("lat", VNum (lit 27.95));
                                           ("lon", VNum (lit (-82.45))) ]) ]
   = VObj [ ("lat", VNum (lit 27.95)); ("lon", VNum (lit (-82.45))) ]) /\
  searchLocation_response sample_shortest_decimal sample_string_to_number
    (Normal (VObj sample_search_result)) ready_world
  = (Normal tt,
     set_map (Some (map_with_pin
                      (lookup "lon" [ ("lat", VNum (lit 27.95));
                                      ("lon", VNum (lit (-82.45))) ])
                      (lookup "lat" [ ("lat", VNum (lit 27.95));
                                      ("lon", VNum (lit (-82.45))) ])
                      empty_map))
             ready_world).
Proof.
  assert (H1 : w_map ready_world = Some empty_map) by reflexivity.
  assert (H2 : lookup "results" sample_search_result
               = VArr (VObj [ ("position", VObj [ ("lat", VNum (lit 27.95));
                                                  ("lon", VNum (lit (-82.45))) ]) ]
                       :: [ VObj [ ("position",
                                    VObj [ ("lat", VNum (lit 40));
                                           ("lon", VNum (lit (-75))) ]) ] ]))
    by reflexivity.
  assert (H3 : lookup "position"
                 [ ("position", VObj [ ("lat", VNum (lit 27.95));
                                       ("lon", VNum (lit (-82.45))) ]) ]
               = VObj [ ("lat", VNum (lit 27.95)); ("lon", VNum (lit (-82.45))) ])
    by reflexivity.
  split; [exact (conj H1 (conj H2 H3))|].
  exact (searchLocation_first_result sample_shortest_decimal sample_string_to_number
           sample_search_result _ _ _ ready_world empty_map H1 H2 H3).
Defined.

Lemma searchLocation_without_results_witness :
  (ToBoolean (lookup "results" [ ("results", VArr []) ]) = false
   \/ lookup "results" [ ("results", VArr []) ] = VArr []) /\
  (searchLocation_response sample_shortest_decimal sample_string_to_number
     (Normal (VObj [ ("results", VArr []) ])) ready_world
   = (Normal tt, ready_world)
   /\ forall e : exn,
        fst (searchLocation_response sample_shortest_decimal
               sample_string_to_number (Throw e) ready_world)
        = Normal tt
        /\ w_map (snd (searchLocation_response sample_shortest_decimal
                         sample_string_to_number (Throw e) ready_world))
           = w_map ready_world
        /\ w_console_errors
             (snd (searchLocation_response sample_shortest_decimal
                     sample_string_to_number (Throw e) ready_world))
           = (w_console_errors ready_world ++ [e])%list).
Proof.
  assert (H : ToBoolean (lookup "results" [ ("results", VArr []) ]) = false
              \/ lookup "results" [ ("results", VArr []) ] = VArr [])
    by (right; reflexivity).
  split; [exact H|].
  exact (searchLocation_without_results sample_shortest_decimal
           sample_string_to_number [ ("results", VArr []) ] ready_world H).
Defined.

(** ** [updateMap] *)

Section UpdateMap.

Ltac view_step :=
  first
    [ apply preserves_wret
    | apply preserves_wlift
    | apply preserves_with_map; intros ? ? E; unfold view_of, image_layers_of;
      cbn; rewrite E; reflexivity
    | (intros ?; reflexivity)
    | apply preserves_wbind; [|intros ?] ].

Lemma preserves_view_addDataSources (dataSources : jsval) :
  preserves view_of (addDataSources dataSources).
Proof.
  unfold addDataSources.
  apply preserves_wbind; [apply preserves_wlift|intros configs].
  apply preserves_for_each. intros sourceConfig. unfold addDataSources_each.
  repeat view_step.
Qed.

Lemma preserves_view_addLayers (layers : jsval) :
  preserves view_of (addLayers layers).
Proof.
  unfold addLayers. apply preserves_wbind; [apply preserves_wlift|intros configs].
  apply preserves_for_each. intros layerConfig. unfold addLayers_each.
  apply preserves_wbind; [apply preserves_wlift|intros type].
  destruct (kind_of_type type); repeat view_step.
Qed.

(** X29. On a renderer whose map is there, [updateMap] moves the camera
    only to a centre and a zoom that are truthy, so that a configured zoom
    of 0 leaves the zoom as it was; it takes every image layer off the map,
    yet [this.imageLayer] keeps the overlay it held.  This holds whether
    the data sources and layers of the configuration can then be added or
    not. *)
Theorem updateMap_view (config : list (string * jsval)) (w : World) (m : MapControl) :
  w_map w = Some m ->
  view_of (snd (updateMap (VObj config) w))
  = (Some (if ToBoolean (lookup "center" config)
           then Some (lookup "center" config) else camera_center m),
     Some (if ToBoolean (lookup "zoom" config)
           then Some (lookup "zoom" config) else camera_zoom m),
     Some [],
     w_imageLayer w).
Proof.
  intros Hm. unfold updateMap.
  match goal with
  | |- context [wbind dataSources_clear (fun _ => ?t)] => set (tail := t)
  end.
  assert (T : preserves view_of tail).
  { unfold tail.
    apply preserves_wbind; [apply preserves_wlift|intros data_sources].
    apply preserves_wbind; [apply preserves_view_addDataSources|intros _].
    apply preserves_wbind; [apply preserves_wlift|intros layers].
    apply preserves_view_addLayers. }
  clearbody tail.
  destruct w as [key wm ds heat image point errors]. cbn in Hm. subst wm.
  unfold wbind at 1. cbn [wlift getProp].
  destruct (ToBoolean (lookup "center" config));
    unfold wbind at 1; cbn [map_setCamera_center wret with_map w_map];
    unfold wbind at 1; cbn [wlift getProp];
    destruct (ToBoolean (lookup "zoom" config));
    unfold wbind at 1; cbn [map_setCamera_zoom wret with_map w_map set_map];
    unfold wbind at 1; cbn [map_layers_clear with_map w_map set_map];
    unfold wbind at 1; cbn [map_sources_clear with_map w_map set_map];
    unfold wbind at 1; cbn [dataSources_clear];
    rewrite T; reflexivity.
Qed.

(** X30. On a renderer whose map is there, [updateMap] with GeoJSON source
    configurations and layer configurations that are objects returns
    normally and replaces what the map showed: the data sources of the map
    and the entries of [this.dataSources] are those of the configuration
    alone, and the layers of the map are those of its layer
    configurations, bound to these data sources. *)
Theorem updateMap_replaces
  (config : list (string * jsval))
  (sourceConfigs layerConfigs : list (list (string * jsval)))
  (w : World) (m : MapControl) :
  w_map w = Some m ->
  lookup "data_sources" config = VArr (List.map VObj sourceConfigs) ->
  forallb is_geojson sourceConfigs = true ->
  lookup "layers" config = VArr (List.map VObj layerConfigs) ->
  exists w' : World,
    updateMap (VObj config) w = (Normal tt, w')
    /\ w_dataSources w' = register_sources sourceConfigs []
    /\ option_map sources (w_map w')
       = Some (List.map (fun c => Some (geojson_source c)) sourceConfigs)
    /\ option_map vector_layers (w_map w')
       = Some (layers_of_configs (register_sources sourceConfigs []) layerConfigs)
    /\ image_layers_of w' = Some [].
Proof.
  intros Hm Hsources Hgeo Hlayers. unfold updateMap.
  destruct w as [key wm ds heat image point errors]. cbn in Hm. subst wm.
  rewrite !getProp_object, Hsources, Hlayers.
  cbn [js_or ToBoolean].
  unfold wbind at 1. cbn [wlift].
  destruct (ToBoolean (lookup "center" config));
    unfold wbind at 1; cbn [map_setCamera_center wret with_map w_map];
    unfold wbind at 1; cbn [wlift getProp];
    destruct (ToBoolean (lookup "zoom" config));
    unfold wbind at 1; cbn [map_setCamera_zoom wret with_map w_map set_map];
    unfold wbind at 1; cbn [map_layers_clear with_map w_map set_map];
    unfold wbind at 1; cbn [map_sources_clear with_map w_map set_map];
    unfold wbind at 1; cbn [dataSources_clear];
    unfold wbind at 1; cbn [wlift js_or ToBoolean];
    unfold wbind at 1; unfold addDataSources at 1;
    unfold wbind at 1; cbn [wlift as_array];
    (erewrite addDataSources_loop_geojson; [|reflexivity|exact Hgeo]);
    unfold wbind at 1; cbn [wlift js_or ToBoolean];
    unfold addLayers; unfold wbind at 1; cbn [wlift as_array];
    (erewrite addLayers_loop_on_ready_map; [|reflexivity]);
    eexists; (split; [reflexivity|]); cbn; rewrite ?app_nil_r; repeat split.
Qed.

End UpdateMap.

Lemma updateMap_view_witness :
  w_map world_with_overlay = Some overlay_map /\
  view_of (snd (updateMap (VObj zoom_out_config) world_with_overlay))
  = (Some (if ToBoolean (lookup "center" zoom_out_config)
           then Some (lookup "center" zoom_out_config)
           else camera_center overlay_map),
     Some (if ToBoolean (lookup "zoom" zoom_out_config)
           then Some (lookup "zoom" zoom_out_config)
           else camera_zoom overlay_map),
     Some [],
     w_imageLayer world_with_overlay).
Proof.
  assert (H : w_map world_with_overlay = Some overlay_map) by reflexivity.
  split; [exact H|].
  exact (updateMap_view zoom_out_config world_with_overlay overlay_map H).
Defined.

(** With zoom 0 asked for, the camera stays where it was. *)
Example zoom_out_ignored :
  option_map camera_zoom
    (w_map (snd (updateMap (VObj zoom_out_config) world_with_overlay)))
  = Some None
  /\ w_imageLayer (snd (updateMap (VObj zoom_out_config) world_with_overlay))
     = Some old_overlay
  /\ image_layers_of (snd (updateMap (VObj zoom_out_config) world_with_overlay))
     = Some [].
Proof. repeat split. Qed.

Lemma updateMap_replaces_witness :
  (w_map world_with_overlay = Some overlay_map /\
   lookup "data_sources" zoom_out_config
   = VArr (List.map VObj sample_source_configs) /\
   forallb is_geojson sample_source_configs = true /\
   lookup "layers" zoom_out_config = VArr (List.map VObj sample_layer_configs)) /\
  exists w' : World,
    updateMap (VObj zoom_out_config) world_with_overlay = (Normal tt, w')
    /\ w_dataSources w' = register_sources sample_source_configs []
    /\ option_map sources (w_map w')
       = Some (List.map (fun c => Some (geojson_source c)) sample_source_configs)
    /\ option_map vector_layers (w_map w')
       = Some (layers_of_configs (register_sources sample_source_configs [])
                                 sample_layer_configs)
    /\ image_layers_of w' = Some [].
Proof.
  assert (H1 : w_map world_with_overlay = Some overlay_map) by reflexivity.
  assert (H2 : lookup "data_sources" zoom_out_config
               = VArr (List.map VObj sample_source_configs)) by reflexivity.
  assert (H3 : forallb is_geojson sample_source_configs = true) by reflexivity.
  assert (H4 : lookup "layers" zoom_out_config
               = VArr (List.map VObj sample_layer_configs)) by reflexivity.
  split; [exact (conj H1 (conj H2 (conj H3 H4)))|].
  exact (updateMap_replaces zoom_out_config sample_source_configs
           sample_layer_configs world_with_overlay overlay_map H1 H2 H3 H4).
Defined.
